(** * Estfor marketplace: order validation, batching and submission pipeline

    A shallow embedding of the batch-order core of the repository:
    - [InputValidator] ([src/security/InputValidator.js]): the validators
      for prices, quantities, token identifiers, addresses and text, and the
      sliding-window rate limiter;
    - the domain models ([models/index.js]): [MarketOrder], [UserBalance],
      [TransactionResult];
    - [MarketplaceService] ([src/services/MarketplaceService.js]): batch
      preparation, approval, and the retrying submitter;
    - [AppController] ([src/controllers/AppController.js]): the validation
      of the requests of the user and [createSellOrders];
    - the response cache of [ApiService] ([src/services/ApiService.js]).

    Conventions of the embedding.
    - A JavaScript string is a [string] of code units below 256.
    - A finite JavaScript number is the decimal numeral [mant * 10 ^ expt]
      it prints as; comparisons are exact (binary64 rounding of numerals with
      more than 15 significant digits is not represented).
    - Asynchronous code is sequential state passing over a [World] that
      holds the process-wide state and the log of every external call;
      the answers of the wallet and of the chain come from an [Env]. *)

From Stdlib Require Import ZArith QArith Qpower List String Ascii Bool Lia.
From Stdlib Require Import DecimalString DecimalPos DecimalFacts Sorted.
From stdpp Require Import gmap strings.
Import ListNotations.

Local Open Scope string_scope.
Local Open Scope Z_scope.

(** ** JavaScript values *)

Module JS.

(** *** Code units *)

Definition code (c : ascii) : N := N_of_ascii c.

Definition in_range (lo hi : N) (c : ascii) : bool :=
  (lo <=? code c)%N && (code c <=? hi)%N.

(** WhiteSpace and LineTerminator code units: TAB, LF, VT, FF, CR, SP, NBSP. *)
Definition is_space (c : ascii) : bool :=
  in_range 9 13 c || (code c =? 32)%N || (code c =? 160)%N.

Definition is_digit (c : ascii) : bool := in_range 48 57 c.

Definition is_upper (c : ascii) : bool := in_range 65 90 c.

Definition is_lower (c : ascii) : bool := in_range 97 122 c.

(** The class [\w]. *)
Definition is_word (c : ascii) : bool :=
  is_upper c || is_lower c || is_digit c || (code c =? 95)%N.

(** The class [[a-fA-F0-9]]. *)
Definition is_hex (c : ascii) : bool :=
  is_digit c || in_range 97 102 c || in_range 65 70 c.

Definition to_lower (c : ascii) : ascii :=
  if is_upper c then ascii_of_N (code c + 32) else c.

Definition eq_ci (a b : ascii) : bool := Ascii.eqb (to_lower a) (to_lower b).

Definition digit_value (c : ascii) : Z := Z.of_N (code c) - 48.

(** *** Strings *)

Fixpoint trimStart (s : string) : string :=
  match s with
  | String c s' => if is_space c then trimStart s' else s
  | EmptyString => EmptyString
  end.

Definition reverse (s : string) : string :=
  string_of_list_ascii (rev (list_ascii_of_string s)).

Definition trimEnd (s : string) : string := reverse (trimStart (reverse s)).

Definition trim (s : string) : string := trimEnd (trimStart s).

Definition toLowerCase (s : string) : string :=
  string_of_list_ascii (map to_lower (list_ascii_of_string s)).

Definition strlen (s : string) : Z := Z.of_nat (String.length s).

(** [strip_prefix p s]: the rest of [s] after the literal [p], compared with
    [eqc]. *)
Fixpoint strip_prefix (eqc : ascii -> ascii -> bool) (p s : string)
  : option string :=
  match p with
  | EmptyString => Some s
  | String a p' =>
      match s with
      | String b s' => if eqc a b then strip_prefix eqc p' s' else None
      | EmptyString => None
      end
  end.

(** Maximal prefix of [s] whose code units satisfy [f], and the rest. *)
Fixpoint span (f : ascii -> bool) (s : string) : string * string :=
  match s with
  | String c s' =>
      if f c then let (a, b) := span f s' in (String c a, b)
      else (EmptyString, s)
  | EmptyString => (EmptyString, EmptyString)
  end.

(** Offset of the first occurrence of the literal [p] in [s]. *)
Fixpoint index_of (eqc : ascii -> ascii -> bool) (p s : string) : option nat :=
  match strip_prefix eqc p s with
  | Some _ => Some O
  | None =>
      match s with
      | String _ s' => option_map S (index_of eqc p s')
      | EmptyString => None
      end
  end.

(** A matcher gives the length of the match of a pattern anchored at the
    start of its argument. [replace_all m r s] is [s.replace(/m/g, r)] for a
    pattern that never matches the empty string: successive matches are
    searched from left to right, each after the end of the previous one. *)
Definition matcher := string -> option nat.

Fixpoint replace_go (m : matcher) (r : string) (skip : nat) (s : string)
  : string :=
  match s with
  | EmptyString => EmptyString
  | String c s' =>
      match skip with
      | S k => replace_go m r k s'
      | O =>
          match m s with
          | Some (S k) => r ++ replace_go m r k s'
          | _ => String c (replace_go m r O s')
          end
      end
  end.

Definition replace_all (m : matcher) (r s : string) : string :=
  replace_go m r O s.

(** [re.test(s)] for an unanchored pattern. *)
Fixpoint test (m : matcher) (s : string) : bool :=
  match m s with
  | Some _ => true
  | None =>
      match s with
      | String _ s' => test m s'
      | EmptyString => false
      end
  end.

(** A literal, case-insensitive ([/lit/i]). *)
Definition lit_ci (p : string) : matcher := fun s =>
  match strip_prefix eq_ci p s with
  | Some _ => Some (String.length p)
  | None => None
  end.

(** *** Numbers *)

(** The numeral [mant * 10 ^ expt]. *)
Record decimal := Dec { mant : Z; expt : Z }.

Inductive number :=
| NaN
| Num (d : decimal)
| Infinity (negative : bool).

Definition of_Z (z : Z) : number := Num (Dec z 0).

Definition dec_compare (a b : decimal) : comparison :=
  let e := Z.min (expt a) (expt b) in
  (mant a * 10 ^ (expt a - e) ?= mant b * 10 ^ (expt b - e)).

(** The comparison of two numbers; undefined when one of them is NaN. *)
Definition compare (a b : number) : option comparison :=
  match a, b with
  | NaN, _ | _, NaN => None
  | Num x, Num y => Some (dec_compare x y)
  | Infinity true, Infinity true | Infinity false, Infinity false => Some Eq
  | Infinity true, _ | _, Infinity false => Some Lt
  | Infinity false, _ | _, Infinity true => Some Gt
  end.

(** [a < b], [a > b], [a <= b], [a === b] on numbers. *)
Definition lt (a b : number) : bool :=
  match compare a b with Some Lt => true | _ => false end.

Definition gt (a b : number) : bool := lt b a.

Definition le (a b : number) : bool :=
  match compare a b with Some Lt | Some Eq => true | _ => false end.

Definition strict_eq (a b : number) : bool :=
  match compare a b with Some Eq => true | _ => false end.

Definition isNaN (a : number) : bool :=
  match a with NaN => true | _ => false end.

(** [Number.isInteger]. *)
Definition isInteger (a : number) : bool :=
  match a with
  | Num d =>
      if 0 <=? expt d then true
      else (mant d mod 10 ^ (- expt d) =? 0)
  | _ => false
  end.

(** *** Number to string *)

Definition pos_digits (p : positive) : string :=
  NilZero.string_of_uint (Pos.to_uint p).

Definition Z_to_string (z : Z) : string :=
  match z with
  | Z0 => "0"
  | Zpos p => pos_digits p
  | Zneg p => "-" ++ pos_digits p
  end.

Definition is_zero_digit (c : ascii) : bool := (code c =? 48)%N.

Fixpoint zeros (n : nat) : string :=
  match n with O => EmptyString | S k => String "0" (zeros k) end.

Definition take (n : nat) (s : string) : string := String.substring 0 n s.

Definition drop (n : nat) (s : string) : string :=
  String.substring n (String.length s - n) s.

Definition strip_zeros_end (s : string) : string :=
  reverse (snd (span is_zero_digit (reverse s))).

(** The exponent suffix [e+x] or [e-x] of the scientific notation. *)
Definition exponent_suffix (x : Z) : string :=
  "e" ++ (if x <? 0 then "-" else "+") ++ Z_to_string (Z.abs x).

(** Number::toString (radix 10) of the positive numeral [p * 10 ^ e]: with
    [k] significant digits [ds] and the value equal to [0.ds * 10 ^ n], the
    numeral is printed positionally when [-6 < n <= 21] and in scientific
    notation otherwise. *)
Definition positive_to_string (p : positive) (e : Z) : string :=
  let all := pos_digits p in
  let ds := strip_zeros_end all in
  let k := strlen ds in
  let n := e + strlen all in
  if (k <=? n) && (n <=? 21) then ds ++ zeros (Z.to_nat (n - k))
  else if (0 <? n) && (n <=? 21) then
    take (Z.to_nat n) ds ++ "." ++ drop (Z.to_nat n) ds
  else if (-6 <? n) && (n <=? 0) then "0." ++ zeros (Z.to_nat (- n)) ++ ds
  else if k =? 1 then ds ++ exponent_suffix (n - 1)
  else take 1 ds ++ "." ++ drop 1 ds ++ exponent_suffix (n - 1).

Definition number_to_string (x : number) : string :=
  match x with
  | NaN => "NaN"
  | Infinity neg => if neg then "-Infinity" else "Infinity"
  | Num (Dec Z0 _) => "0"
  | Num (Dec (Zpos p) e) => positive_to_string p e
  | Num (Dec (Zneg p) e) => "-" ++ positive_to_string p e
  end.

(** *** Values *)

Inductive value :=
| Undefined
| Null
| Boolean (b : bool)
| Number (n : number)
| Str (s : string).

(** The abstract operation ToString. *)
Definition ToString (v : value) : string :=
  match v with
  | Undefined => "undefined"
  | Null => "null"
  | Boolean b => if b then "true" else "false"
  | Number n => number_to_string n
  | Str s => s
  end.

(** The method call [v.toString()]: a TypeError on [undefined] and [null]. *)
Definition toString (v : value) : option string :=
  match v with
  | Undefined | Null => None
  | _ => Some (ToString v)
  end.

(** Truthiness, as tested by [||], [!] and [if]. *)
Definition truthy (v : value) : bool :=
  match v with
  | Undefined | Null => false
  | Boolean b => b
  | Number NaN => false
  | Number (Num d) => negb (mant d =? 0)
  | Number (Infinity _) => true
  | Str EmptyString => false
  | Str _ => true
  end.

(** *** parseInt and parseFloat *)

Definition digits_value (s : string) : Z :=
  fold_left (fun acc c => 10 * acc + digit_value c) (list_ascii_of_string s) 0.

Definition read_sign (s : string) : bool * string :=
  match s with
  | String "-" s' => (true, s')
  | String "+" s' => (false, s')
  | _ => (false, s)
  end.

Definition apply_sign (neg : bool) (z : Z) : Z := if neg then - z else z.

(** [parseInt(s, 10)]: leading white space, a sign, then the longest run of
    decimal digits; what follows is ignored. *)
Definition parseInt_string (s : string) : number :=
  let (neg, s1) := read_sign (trimStart s) in
  let (ds, _) := span is_digit s1 in
  match ds with
  | EmptyString => NaN
  | _ => of_Z (apply_sign neg (digits_value ds))
  end.

(** An ExponentPart at the start of [s]: its value and what follows it; an
    incomplete one is not consumed. *)
Definition scan_exponent (s : string) : Z * string :=
  match s with
  | String c s1 =>
      if eq_ci c "e" then
        let (neg, s2) := read_sign s1 in
        let (ds, rest) := span is_digit s2 in
        match ds with
        | EmptyString => (0, s)
        | _ => (apply_sign neg (digits_value ds), rest)
        end
      else (0, s)
  | EmptyString => (0, s)
  end.

(** The longest prefix of [s] that is a StrDecimalLiteral: its value and
    what follows it. *)
Definition scan_float (s : string) : number * string :=
  let (neg, s1) := read_sign s in
  match strip_prefix Ascii.eqb "Infinity" s1 with
  | Some rest => (Infinity neg, rest)
  | None =>
      let (ip, s2) := span is_digit s1 in
      let (fp, s3) :=
        match s2 with
        | String "." s2' => span is_digit s2'
        | _ => (EmptyString, s2)
        end in
      match ip ++ fp with
      | EmptyString => (NaN, s)
      | ds =>
          let (x, rest) := scan_exponent s3 in
          (Num (Dec (apply_sign neg (digits_value ds)) (x - strlen fp)), rest)
      end
  end.

(** [parseFloat(s)]: leading white space, then the longest prefix that is a
    StrDecimalLiteral; what follows is ignored. *)
Definition parseFloat_string (s : string) : number :=
  fst (scan_float (trimStart s)).

Definition parseInt (v : value) : number := parseInt_string (ToString v).

Definition parseFloat (v : value) : number := parseFloat_string (ToString v).

End JS.

(** ** Configuration ([ConfigManager]) *)

(** The part of the configuration table the pipeline reads. *)
Record Config := {
  gasBufferPercent : Z;         (* app.transaction.gasBufferPercent *)
  maxRetries : Z;               (* app.transaction.maxRetries *)
  retryDelay : Z;               (* app.transaction.retryDelay *)
  maxBatchSize : Z;             (* app.transaction.maxBatchSize *)
  maxInputLength : Z;           (* app.security.maxInputLength *)
  price_min : JS.decimal;       (* validation.price.min *)
  price_max : JS.decimal;       (* validation.price.max *)
  quantity_min : Z;             (* validation.quantity.min *)
  quantity_max : Z;             (* validation.quantity.max *)
  tokenId_min : Z;              (* validation.tokenId.min *)
  tokenId_max : Z;              (* validation.tokenId.max *)
  marketplaceAddress : string;  (* contracts.marketplace.proxy *)
  itemsAddress : string         (* contracts.items.address *)
}.

Definition baseConfig : Config := {|
  gasBufferPercent := 20;
  maxRetries := 3;
  retryDelay := 2000;
  maxBatchSize := 50;
  maxInputLength := 1000;
  price_min := JS.Dec 1 (-6);
  price_max := JS.Dec 1000000 0;
  quantity_min := 1;
  quantity_max := 16777215;
  tokenId_min := 1;
  tokenId_max := 9007199254740991;
  marketplaceAddress := "0x0D6D3794C858B512716e77e05588D4f1Fc264319";
  itemsAddress := "0x8970c63da309d5359a579c2f53bfd64f72b7b706"
|}.

(** ** The input validator ([InputValidator]) *)

Module InputValidator.
Import JS.

Record ValidationResult := {
  isValid : bool;
  sanitizedValue : value;
  errors : list string
}.

(** A result as the validators leave it on a rejection: the initial
    [{isValid: false, sanitizedValue: null, errors: []}] with one message
    pushed. *)
Definition reject (msg : string) : ValidationResult :=
  {| isValid := false; sanitizedValue := Null; errors := [msg] |}.

Definition accept (v : value) : ValidationResult :=
  {| isValid := true; sanitizedValue := v; errors := [] |}.

(** *** sanitizeHtml *)

Definition lit (p : string) : matcher := fun s =>
  match strip_prefix Ascii.eqb p s with
  | Some _ => Some (String.length p)
  | None => None
  end.

Definition starts_with_word (s : string) : bool :=
  match s with
  | String c _ => is_word c
  | EmptyString => false
  end.

(** The first pattern of [sanitizeHtml] (flags [gi]): an opening [<script]
    followed by a word boundary, then runs of characters other than [<] and
    [<] characters that do not start [</script>], then [</script>]. It
    matches from the opening up to and including the first closing
    [</script>] after it. *)
Definition script_element : matcher := fun s =>
  match strip_prefix eq_ci "<script" s with
  | Some rest =>
      if starts_with_word rest then None
      else
        match index_of eq_ci "</script>" rest with
        | Some i => Some (7 + i + 9)%nat
        | None => None
        end
  | None => None
  end.

(** The third pattern: [on], one or more word characters, optional white
    space, [=]. The character classes are disjoint from each other and from
    [=], so only the maximal runs can match. *)
Definition event_handler : matcher := fun s =>
  match strip_prefix eq_ci "on" s with
  | Some rest =>
      let (w, r1) := span is_word rest in
      let (sp, r2) := span is_space r1 in
      match w, r2 with
      | String _ _, String "=" _ =>
          Some (2 + String.length w + String.length sp + 1)%nat
      | _, _ => None
      end
  | None => None
  end.

Definition dquote : string := String (ascii_of_N 34) EmptyString.

Definition escapeHtml (unsafe : string) : string :=
  let s1 := replace_all (lit "&") "&amp;" unsafe in
  let s2 := replace_all (lit "<") "&lt;" s1 in
  let s3 := replace_all (lit ">") "&gt;" s2 in
  let s4 := replace_all (lit dquote) "&quot;" s3 in
  replace_all (lit "'") "&#039;" s4.

Definition sanitizeHtml (input : string) : string :=
  let c1 := replace_all script_element EmptyString input in
  let c2 := replace_all (lit_ci "javascript:") EmptyString c1 in
  let c3 := replace_all event_handler EmptyString c2 in
  let c4 := replace_all (lit_ci "data:") EmptyString c3 in
  let cleaned := replace_all (lit_ci "vbscript:") EmptyString c4 in
  escapeHtml cleaned.

(** *** The validators of each kind *)

Section Validators.
Variable cfg : Config.

Definition validatePrice (v : value) : ValidationResult :=
  let numValue := parseFloat v in
  if isNaN numValue then reject "Price must be a valid number"
  else if lt numValue (Num (price_min cfg)) then
    reject ("Price must be at least "
            ++ number_to_string (Num (price_min cfg)) ++ " ETH")
  else if gt numValue (Num (price_max cfg)) then
    reject ("Price cannot exceed "
            ++ number_to_string (Num (price_max cfg)) ++ " ETH")
  else if le numValue (of_Z 0) then reject "Price must be greater than 0"
  else accept (Number numValue).

Definition validateQuantity (v : value) : ValidationResult :=
  let intValue := parseInt v in
  if isNaN intValue then reject "Quantity must be a valid number"
  else if lt intValue (of_Z (quantity_min cfg)) then
    reject ("Quantity must be at least " ++ Z_to_string (quantity_min cfg))
  else if gt intValue (of_Z (quantity_max cfg)) then
    reject ("Quantity cannot exceed " ++ Z_to_string (quantity_max cfg))
  else if negb (isInteger intValue)
          || negb (strict_eq intValue (parseFloat v)) then
    reject "Quantity must be a whole number"
  else accept (Number intValue).

Definition validateTokenId (v : value) : ValidationResult :=
  let intValue := parseInt v in
  if isNaN intValue then reject "Token ID must be a valid number"
  else if lt intValue (of_Z (tokenId_min cfg)) then
    reject ("Token ID must be at least " ++ Z_to_string (tokenId_min cfg))
  else if gt intValue (of_Z (tokenId_max cfg)) then
    reject "Token ID is too large"
  else accept (Number intValue).

(** [/^0x[a-fA-F0-9]{40}$/]. *)
Definition address_format (s : string) : bool :=
  match s with
  | String "0" (String "x" rest) =>
      (String.length rest =? 40)%nat
      && forallb is_hex (list_ascii_of_string rest)
  | _ => false
  end.

Definition validateAddress (v : value) : ValidationResult :=
  match v with
  | Str s =>
      if address_format s then accept (Str (toLowerCase s))
      else reject "Invalid Ethereum address format"
  | _ => reject "Address must be a string"
  end.

Record Options := {
  opt_maxLength : option Z;
  opt_minLength : option Z;
  opt_sanitizeHtml : option bool
}.

Definition no_options : Options :=
  {| opt_maxLength := None; opt_minLength := None; opt_sanitizeHtml := None |}.

(** The third dangerous pattern: [data:], optional white space,
    [text/html]. *)
Definition data_html : matcher := fun s =>
  match strip_prefix eq_ci "data:" s with
  | Some rest =>
      let (sp, r) := span is_space rest in
      match strip_prefix eq_ci "text/html" r with
      | Some _ => Some (5 + String.length sp + 9)%nat
      | None => None
      end
  | None => None
  end.

Definition dangerousPatterns : list matcher :=
  [lit_ci "<script"; lit_ci "javascript:"; data_html; lit_ci "vbscript:"].

Definition validateText (v : value) (options : Options) : ValidationResult :=
  match v with
  | Str s =>
      match opt_minLength options with
      | Some n =>
          if negb (n =? 0) && (strlen s <? n) then
            reject ("Text must be at least " ++ Z_to_string n ++ " characters")
          else if existsb (fun p => test p s) dangerousPatterns then
            reject "Text contains potentially dangerous content"
          else accept (Str (sanitizeHtml s))
      | None =>
          if existsb (fun p => test p s) dangerousPatterns then
            reject "Text contains potentially dangerous content"
          else accept (Str (sanitizeHtml s))
      end
  | _ => reject "Text must be a string"
  end.

(** *** validateInput *)

Definition by_type (v : value) (type : string) (options : Options)
  : ValidationResult :=
  if String.eqb type "price" then validatePrice v
  else if String.eqb type "quantity" then validateQuantity v
  else if String.eqb type "tokenId" then validateTokenId v
  else if String.eqb type "address" then validateAddress v
  else if String.eqb type "text" then validateText v options
  else reject ("Unknown validation type: " ++ type).

Definition validateInput (v : value) (type : string) (options : Options)
  : ValidationResult :=
  match v with
  | Str s =>
      let s := trim s in
      let maxLength :=
        match opt_maxLength options with
        | Some n => if n =? 0 then maxInputLength cfg else n
        | None => maxInputLength cfg
        end in
      if maxLength <? strlen s then
        reject ("Input too long. Maximum " ++ Z_to_string maxLength
                ++ " characters allowed.")
      else
        match opt_sanitizeHtml options with
        | Some false => by_type (Str s) type options
        | _ => by_type (Str (sanitizeHtml s)) type options
        end
  | _ => by_type v type options
  end.

End Validators.

(** *** The rate limiter *)

Inductive RateLimitCheck :=
| Allowed
| Rejected (resetTime : number).

Definition allowed (r : RateLimitCheck) : bool :=
  match r with Allowed => true | Rejected _ => false end.

(** [Math.ceil(x / 1000)] for an integer [x]. *)
Definition ceil_div_1000 (x : Z) : Z := - ((- x) / 1000).

(** [checkRateLimit(key, maxRequests, windowMs)] at time [now] on the static
    map [#rateLimits]. The filtered array is stored in the map and then
    extended in place, so the map sees the pushed timestamp. *)
Definition checkRateLimit (key : string) (maxRequests windowMs now : Z)
    (rateLimits : gmap string (list Z)) : RateLimitCheck * gmap string (list Z) :=
  let windowStart := now - windowMs in
  let limits1 :=
    match rateLimits !! key with
    | Some _ => rateLimits
    | None => <[key := []]> rateLimits
    end in
  let requests := default [] (limits1 !! key) in
  let recentRequests := List.filter (fun timestamp => windowStart <? timestamp) requests in
  if maxRequests <=? Z.of_nat (List.length recentRequests) then
    (Rejected
       match recentRequests with
       | oldest :: _ => of_Z (ceil_div_1000 (oldest + windowMs - now))
       | [] => NaN
       end,
     <[key := recentRequests]> limits1)
  else (Allowed, <[key := (recentRequests ++ [now])%list]> limits1).

End InputValidator.

(** ** Exceptions, the external world and sequential effects *)

(** A thrown error: its [message] and, for errors of the wallet provider,
    its numeric [code]. *)
Record Exn := { exn_message : string; exn_code : option Z }.

(** [new Error(msg)]. *)
Definition Error (msg : string) : Exn :=
  {| exn_message := msg; exn_code := None |}.

Inductive Outcome (A : Type) :=
| Return (a : A)
| Throw (e : Exn).
Arguments Return {A} a.
Arguments Throw {A} e.

(** An order in the contract's format, the argument of [limitOrders]. *)
Record ContractOrder := {
  co_side : Z;
  co_tokenId : JS.value;
  co_price : Z;
  co_quantity : Z
}.

Record Receipt := { rc_blockNumber : Z; rc_gasUsed : Z }.

(** The calls that leave the process, in the order they are made. *)
Inductive Event :=
| EvSwitchChain
| EvAddChain
| EvBalanceOf (owner tokenId : JS.value)
| EvIsApprovedForAll (owner : JS.value) (operator : string)
| EvSetApprovalForAll (operator : string) (approved : bool)
| EvWaitApproval
| EvEstimateGas (orders : list ContractOrder)
| EvLimitOrders (orders : list ContractOrder) (gasLimit : Z)
| EvWait (txHash : string)
| EvDelay (ms : Z).

(** The collaborators. Every answer may depend on all the calls made so
    far. [parseEther] and [bigNumberFrom] are the conversions of the ethers
    library, [newContract] its contract constructor; [clock n] is the value
    of the [n]-th reading of [Date.now()]. *)
Record Env := {
  clock : nat -> Z;
  parseEther : string -> Outcome Z;
  bigNumberFrom : JS.value -> Outcome Z;
  newContract : string -> Outcome unit;
  switchChain : list Event -> Outcome unit;
  addChain : list Event -> Outcome unit;
  balanceOf : list Event -> JS.value -> JS.value -> Outcome Z;
  isApprovedForAll : list Event -> JS.value -> string -> Outcome bool;
  setApprovalForAll : list Event -> string -> bool -> Outcome unit;
  waitApproval : list Event -> Outcome unit;
  estimateGas : list Event -> list ContractOrder -> Outcome Z;
  limitOrders : list Event -> list ContractOrder -> Z -> Outcome string;
  wait : list Event -> string -> Outcome Receipt
}.

(** The wallet service as the pipeline reads it: [isConnected], [address],
    [connection.isOnCorrectNetwork] and whether a provider is set. *)
Record Wallet := {
  isConnected : bool;
  address : option string;
  isOnCorrectNetwork : bool;
  hasProvider : bool
}.

(** The private fields [#contract] and [#itemsContract]: both null, only the
    first set (the second constructor threw), or both set. *)
Inductive Contracts := NotInitialized | MarketplaceOnly | Initialized.

Record World := {
  rateLimits : gmap string (list Z);
  wallet : Wallet;
  contracts : Contracts;
  trace : list Event;
  clockReads : nat
}.

Definition M (A : Type) : Type := World -> Outcome A * World.

Definition ret {A} (a : A) : M A := fun w => (Return a, w).

Definition throw {A} (e : Exn) : M A := fun w => (Throw e, w).

Definition bind {A B} (m : M A) (k : A -> M B) : M B := fun w =>
  match m w with
  | (Return a, w') => k a w'
  | (Throw e, w') => (Throw e, w')
  end.

(** [try { m } catch (error) { h error }]: the effects of [m] up to the
    throw are kept. *)
Definition try_catch {A} (m : M A) (h : Exn -> M A) : M A := fun w =>
  match m w with
  | (Return a, w') => (Return a, w')
  | (Throw e, w') => h e w'
  end.

Notation "'do' x <- m ; k" := (bind m (fun x => k))
  (at level 10, x name, m at level 100, k at level 200).
Notation "'run' m ; k" := (bind m (fun _ => k))
  (at level 10, m at level 100, k at level 200).

Definition get {A} (f : World -> A) : M A := fun w => (Return (f w), w).

(** An awaited external call: it is logged, and answered from the log so
    far. *)
Definition call {A} (ev : Event) (answer : list Event -> Outcome A) : M A :=
  fun w =>
    (answer (trace w),
     {| rateLimits := rateLimits w; wallet := wallet w;
        contracts := contracts w; trace := (trace w ++ [ev])%list;
        clockReads := clockReads w |}).

Definition lift {A} (o : Outcome A) : M A := fun w => (o, w).

Definition set_contracts (c : Contracts) : M unit := fun w =>
  (Return tt,
   {| rateLimits := rateLimits w; wallet := wallet w; contracts := c;
      trace := trace w; clockReads := clockReads w |}).

Definition set_rateLimits (r : gmap string (list Z)) : M unit := fun w =>
  (Return tt,
   {| rateLimits := r; wallet := wallet w; contracts := contracts w;
      trace := trace w; clockReads := clockReads w |}).

(** A [TypeError] raised by a property access on [null]. *)
Definition TypeError : Exn := Error "Cannot read properties of null".

(** ** Domain models *)

Module Models.
Import JS.

(** [BaseModel]: its constructor runs [this.#validate(data)], assigns
    [this.#transform(data)] to the new object and freezes it. A private name
    belongs to the class body that declares it: inside [BaseModel] the names
    [#validate] and [#transform] denote [BaseModel]'s own methods, which
    accept every [data] and return it unchanged. The methods of the same
    spelling that [MarketOrder], [UserBalance] and [TransactionResult]
    declare are different private names and nothing calls them, so every
    model is built from its [data] as given. *)
Definition BaseModel_validate {A} (data : A) : bool := true.

Definition BaseModel_transform {A} (data : A) : A := data.

Definition BaseModel {A} (data : A) : A :=
  let _ := BaseModel_validate data in BaseModel_transform data.

(** [MarketOrder] *)
Record MarketOrder := {
  mo_tokenId : value;
  mo_side : value;
  mo_price : value;
  mo_quantity : value;
  mo_user : value
}.

Definition new_MarketOrder (data : MarketOrder) : MarketOrder := BaseModel data.

(** [errors.join(sep)] *)
Fixpoint join (sep : string) (l : list string) : string :=
  match l with
  | [] => EmptyString
  | [x] => x
  | x :: rest => x ++ sep ++ join sep rest
  end.

Definition side_error : Exn :=
  Error ("Order side must be either " ++ InputValidator.dquote ++ "buy"
         ++ InputValidator.dquote ++ " or " ++ InputValidator.dquote ++ "sell"
         ++ InputValidator.dquote).

(** The private method [#validate] that [MarketOrder] declares: each of the
    token identifier, the price and the quantity must pass [validateInput],
    and the side must be [buy] or [sell]. No constructor calls it (see
    [BaseModel]); it is given to state what it would refuse. *)
Definition MarketOrder_validate (cfg : Config) (data : MarketOrder)
  : Outcome bool :=
  let check (field type : string) (v : value) (rest : Outcome bool) :=
    let validation :=
      InputValidator.validateInput cfg v type InputValidator.no_options in
    if negb (InputValidator.isValid validation) then
      Throw (Error ("Invalid " ++ field ++ ": "
                    ++ join ", " (InputValidator.errors validation)))
    else rest in
  check "tokenId" "tokenId" (mo_tokenId data)
    (check "price" "price" (mo_price data)
       (check "quantity" "quantity" (mo_quantity data)
          match mo_side data with
          | Str s =>
              if String.eqb s "buy" || String.eqb s "sell" then Return true
              else Throw side_error
          | _ => Throw side_error
          end)).

Definition is_sell (v : value) : bool :=
  match v with Str s => String.eqb s "sell" | _ => false end.

Definition sideNumeric (o : MarketOrder) : Z :=
  if is_sell (mo_side o) then 0 else 1.

(** [UserBalance]: the balance is the chain's integer (given as its decimal
    string by [balance.toString()]) or the number 0. *)
Record UserBalance := { ub_tokenId : value; ub_balance : Z }.

Definition new_UserBalance (data : UserBalance) : UserBalance := BaseModel data.

Inductive SellCheck :=
| CanSell
| CannotSell (reason : string).

Definition canSell (cfg : Config) (b : UserBalance) (quantity : value)
  : SellCheck :=
  let quantityValidation :=
    InputValidator.validateInput cfg quantity "quantity"
      InputValidator.no_options in
  if negb (InputValidator.isValid quantityValidation) then
    CannotSell "Invalid quantity"
  else
    match InputValidator.sanitizedValue quantityValidation with
    | Number q =>
        if gt q (of_Z (ub_balance b)) then
          CannotSell ("Insufficient balance. Have: " ++ Z_to_string (ub_balance b)
                      ++ ", Need: " ++ number_to_string q)
        else CanSell
    | _ => CanSell
    end.

(** [TransactionResult]. [None] is a property that is absent or null. *)
Record TransactionResult := {
  success : bool;
  txHash : option string;
  blockNumber : option Z;
  gasUsed : option string;
  ordersCreated : option Z;
  error : option string;
  note : option string;
  timestamp : Z
}.

Definition new_TransactionResult (data : TransactionResult)
  : TransactionResult := BaseModel data.

(** The getters of [TransactionResult]. *)
Definition isSuccessful (r : TransactionResult) : bool := success r.

(** [errorMessage]: null on a success, otherwise the error, or a default
    text when it is empty or absent. *)
Definition errorMessage (r : TransactionResult) : option string :=
  if isSuccessful r then None
  else
    match error r with
    | Some m =>
        if String.eqb m EmptyString then Some "Unknown error occurred"
        else Some m
    | None => Some "Unknown error occurred"
    end.

(** [explorerUrl]: null without a hash. *)
Definition explorerUrl (r : TransactionResult) : option string :=
  match txHash r with
  | Some hash =>
      if String.eqb hash EmptyString then None
      else Some ("https://sonicscan.org/tx/" ++ hash)
  | None => None
  end.


End Models.

(** ** The marketplace service ([MarketplaceService]) *)

Module MarketplaceService.
Import JS Models.

(** A request as [createBatchOrders] reads it. *)
Record OrderRequest := {
  rq_tokenId : value;
  rq_side : value;
  rq_priceInEth : value;
  rq_amount : value
}.

(** What [#executeBatchTransaction] returns. *)
Record BatchResult := {
  br_txHash : string;
  br_blockNumber : Z;
  br_gasUsed : string;
  br_note : option string
}.

Definition MAX_UINT72 : Z := 0xFFFFFFFFFFFFFFFFFF.
Definition MAX_UINT24 : Z := 0xFFFFFF.

Definition buy_note : string := "Created BUY orders instead of SELL orders".

Section Service.
Variable cfg : Config.
Variable env : Env.

(** [Date.now()] *)
Definition Date_now : M Z := fun w =>
  (Return (clock env (clockReads w)),
   {| rateLimits := rateLimits w; wallet := wallet w;
      contracts := contracts w; trace := trace w;
      clockReads := S (clockReads w) |}).

(** [walletService.address] as a value: the address or null. *)
Definition wallet_address (w : Wallet) : value :=
  match address w with
  | Some a => if String.eqb a EmptyString then Null else Str a
  | None => Null
  end.

(** [validator.checkRateLimit] on the process-wide map. *)
Definition checkRateLimit (key : string) (maxRequests windowMs : Z)
  : M InputValidator.RateLimitCheck :=
  do now <- Date_now;
  do limits <- get rateLimits;
  let (r, limits') :=
    InputValidator.checkRateLimit key maxRequests windowMs now limits in
  run set_rateLimits limits';
  ret r.

(** [walletService.switchNetwork()] *)
Definition switchNetwork : M unit :=
  try_catch (call EvSwitchChain (switchChain env))
    (fun switchError =>
       match exn_code switchError with
       | Some 4902 => call EvAddChain (addChain env)
       | _ => throw switchError
       end).

(** [#initializeContracts()] *)
Definition initializeContracts : M unit :=
  do w <- get wallet;
  if negb (isConnected w) || negb (hasProvider w) then ret tt
  else
    try_catch
      (run lift (newContract env (marketplaceAddress cfg));
       run set_contracts MarketplaceOnly;
       run lift (newContract env (itemsAddress cfg));
       set_contracts Initialized)
      (fun _ => throw (Error "Failed to initialize marketplace contracts")).

(** [#getUserBalance(tokenId)] *)
Definition getUserBalance (tokenId : value) : M UserBalance :=
  try_catch
    (do c <- get contracts;
     do w <- get wallet;
     do balance <-
       match c with
       | Initialized =>
           call (EvBalanceOf (wallet_address w) tokenId)
                (fun tr => balanceOf env tr (wallet_address w) tokenId)
       | _ => throw TypeError
       end;
     ret (new_UserBalance {| ub_tokenId := tokenId; ub_balance := balance |}))
    (fun _ =>
       ret (new_UserBalance {| ub_tokenId := tokenId; ub_balance := 0 |})).

(** [#validateContractLimits(order)] *)
Definition validateContractLimits (order : ContractOrder) : M unit :=
  if MAX_UINT72 <? co_price order then
    throw (Error "Price exceeds maximum allowed value")
  else if MAX_UINT24 <? co_quantity order then
    throw (Error ("Quantity exceeds maximum allowed value ("
                  ++ Z_to_string MAX_UINT24 ++ ")"))
  else if co_price order <=? 0 then
    throw (Error "Price must be greater than 0")
  else if co_quantity order <=? 0 then
    throw (Error "Quantity must be greater than 0")
  else ret tt.

(** The body of the [try] block of the loop of [#validateAndPrepareOrders]:
    the contract order of one request, or the error that drops it. *)
Definition prepareOrder (request : OrderRequest) : M ContractOrder :=
  do w <- get wallet;
  let order := new_MarketOrder
    {| mo_tokenId := rq_tokenId request;
       mo_side := if truthy (rq_side request) then rq_side request else Str "sell";
       mo_price := rq_priceInEth request;
       mo_quantity := rq_amount request;
       mo_user := wallet_address w |} in
  do balance <- getUserBalance (mo_tokenId order);
  match canSell cfg balance (mo_quantity order) with
  | CannotSell reason =>
      throw (Error (reason ++ " for token " ++ ToString (mo_tokenId order)))
  | CanSell =>
      do priceText <-
        match toString (mo_price order) with
        | Some t => ret t
        | None => throw TypeError
        end;
      do price <- lift (parseEther env priceText);
      do quantity <- lift (bigNumberFrom env (mo_quantity order));
      let contractOrder :=
        {| co_side := sideNumeric order;
           co_tokenId := mo_tokenId order;
           co_price := price;
           co_quantity := quantity |} in
      run validateContractLimits contractOrder;
      ret contractOrder
  end.

(** The loop of [#validateAndPrepareOrders]: an order that throws is logged
    and skipped, the others are pushed in turn. *)
Fixpoint prepareLoop (requests : list OrderRequest)
    (validatedOrders : list ContractOrder) : M (list ContractOrder) :=
  match requests with
  | [] => ret validatedOrders
  | request :: rest =>
      do validatedOrders' <-
        try_catch
          (do contractOrder <- prepareOrder request;
           ret (validatedOrders ++ [contractOrder])%list)
          (fun _ => ret validatedOrders);
      prepareLoop rest validatedOrders'
  end.

(** [#validateAndPrepareOrders(orderRequests)] *)
Definition validateAndPrepareOrders (orderRequests : list OrderRequest)
  : M (list ContractOrder) :=
  if maxBatchSize cfg <? Z.of_nat (List.length orderRequests) then
    throw (Error ("Too many orders. Maximum " ++ Z_to_string (maxBatchSize cfg)
                  ++ " orders per batch."))
  else prepareLoop orderRequests [].

(** [#ensureApprovals(orders)] *)
Definition ensureApprovals (orders : list ContractOrder) : M unit :=
  try_catch
    (do c <- get contracts;
     do w <- get wallet;
     match c with
     | Initialized =>
         do isApproved <-
           call (EvIsApprovedForAll (wallet_address w) (marketplaceAddress cfg))
                (fun tr => isApprovedForAll env tr (wallet_address w)
                             (marketplaceAddress cfg));
         if negb isApproved then
           run call (EvSetApprovalForAll (marketplaceAddress cfg) true)
                    (fun tr => setApprovalForAll env tr (marketplaceAddress cfg) true);
           call EvWaitApproval (waitApproval env)
         else ret tt
     | _ => throw TypeError
     end)
    (fun error =>
       throw (Error ("Failed to approve marketplace: " ++ exn_message error))).

(** [#delay(ms)] *)
Definition delay (ms : Z) : M unit :=
  call (EvDelay ms) (fun _ => Return tt).

(** The body of the [try] block of both loops of [#executeBatchTransaction]:
    estimate the gas, add the buffer, submit and wait for the receipt. *)
Definition submit (orders : list ContractOrder) (note : option string)
  : M BatchResult :=
  do c <- get contracts;
  match c with
  | NotInitialized => throw TypeError
  | _ =>
      do gasEstimate <-
        call (EvEstimateGas orders) (fun tr => estimateGas env tr orders);
      let gasLimit :=
        Z.quot (gasEstimate * (100 + gasBufferPercent cfg)) 100 in
      do hash <-
        call (EvLimitOrders orders gasLimit)
             (fun tr => limitOrders env tr orders gasLimit);
      do receipt <- call (EvWait hash) (fun tr => wait env tr hash);
      ret {| br_txHash := hash;
             br_blockNumber := rc_blockNumber receipt;
             br_gasUsed := Z_to_string (rc_gasUsed receipt);
             br_note := note |}
  end.

(** One [for (let attempt = 0; attempt < maxRetries; attempt++)] loop, with
    [remaining] iterations left: the result of the first attempt that
    succeeds, or [lastError] once the iterations are used up. *)
Fixpoint attempts (orders : list ContractOrder) (note : option string)
    (remaining : nat) (attempt : Z) (lastError : option Exn)
  : M (BatchResult + option Exn) :=
  match remaining with
  | O => ret (inr lastError)
  | S k =>
      try_catch
        (do r <- submit orders note; ret (inl r))
        (fun error =>
           run (if attempt <? maxRetries cfg - 1 then delay (retryDelay cfg)
                else ret tt);
           attempts orders note k (attempt + 1) (Some error))
  end.

Definition flip_to_buy (order : ContractOrder) : ContractOrder :=
  {| co_side := 1; co_tokenId := co_tokenId order;
     co_price := co_price order; co_quantity := co_quantity order |}.

(** [lastError?.message || 'Unknown error'] *)
Definition last_message (lastError : option Exn) : string :=
  match lastError with
  | Some e =>
      if String.eqb (exn_message e) EmptyString then "Unknown error"
      else exn_message e
  | None => "Unknown error"
  end.

(** [#executeBatchTransaction(orders)] *)
Definition executeBatchTransaction (orders : list ContractOrder)
  : M BatchResult :=
  do sell <- attempts orders None (Z.to_nat (maxRetries cfg)) 0 None;
  match sell with
  | inl result => ret result
  | inr lastError =>
      let buyOrders := map flip_to_buy orders in
      do buy <- attempts buyOrders (Some buy_note)
                  (Z.to_nat (maxRetries cfg)) 0 lastError;
      match buy with
      | inl result => ret result
      | inr lastError' =>
          throw (Error ("All transaction attempts failed: "
                        ++ last_message lastError'))
      end
  end.

(** The rate-limit key [batch-orders-${walletService.address}]. *)
Definition rate_key (w : Wallet) : string :=
  "batch-orders-" ++ ToString (wallet_address w).

(** The body of the [try] block of [createBatchOrders]. *)
Definition createBatchOrders_body (orderRequests : list OrderRequest)
  : M TransactionResult :=
  do w <- get wallet;
  do rateLimitCheck <- checkRateLimit (rate_key w) 5 60000;
  match rateLimitCheck with
  | InputValidator.Rejected resetTime =>
      throw (Error ("Rate limit exceeded. Try again in "
                    ++ number_to_string resetTime ++ " seconds."))
  | InputValidator.Allowed =>
      if negb (isConnected w) then throw (Error "Wallet not connected")
      else
        run (if negb (isOnCorrectNetwork w) then switchNetwork else ret tt);
        do c <- get contracts;
        run (match c with
             | NotInitialized => initializeContracts
             | _ => ret tt
             end);
        do validatedOrders <- validateAndPrepareOrders orderRequests;
        match validatedOrders with
        | [] => throw (Error "No valid orders to create")
        | _ =>
            run ensureApprovals validatedOrders;
            do result <- executeBatchTransaction validatedOrders;
            do now <- Date_now;
            ret (new_TransactionResult
                   {| success := true;
                      txHash := Some (br_txHash result);
                      blockNumber := Some (br_blockNumber result);
                      gasUsed := Some (br_gasUsed result);
                      ordersCreated := Some (Z.of_nat (List.length validatedOrders));
                      error := None;
                      note := None;
                      timestamp := now |})
        end
  end.

(** [createBatchOrders(orderRequests)] *)
Definition createBatchOrders (orderRequests : list OrderRequest)
  : M TransactionResult :=
  try_catch (createBatchOrders_body orderRequests)
    (fun error =>
       do now <- Date_now;
       ret (new_TransactionResult
              {| success := false;
                 txHash := None;
                 blockNumber := None;
                 gasUsed := None;
                 ordersCreated := None;
                 error := Some (exn_message error);
                 note := None;
                 timestamp := now |})).

End Service.
End MarketplaceService.

(** ** The application controller ([AppController]) *)

Module AppController.
Import JS Models MarketplaceService.

(** SameValueZero, the comparison of [Map] keys. *)
Definition SameValueZero (a b : value) : bool :=
  match a, b with
  | Undefined, Undefined | Null, Null => true
  | Boolean x, Boolean y => Bool.eqb x y
  | Number NaN, Number NaN => true
  | Number x, Number y => strict_eq x y
  | Str x, Str y => String.eqb x y
  | _, _ => false
  end.

(** The [Map] of the balances, from the [id] of an item to a number: its
    entries in insertion order, no two with the same key. *)
Definition Balances := list (value * number).

Definition Map_get (m : Balances) (key : value) : option number :=
  option_map snd (List.find (fun entry => SameValueZero (fst entry) key) m).

Fixpoint Map_set (m : Balances) (key : value) (v : number) : Balances :=
  match m with
  | [] => [(key, v)]
  | entry :: rest =>
      if SameValueZero (fst entry) key then (fst entry, v) :: rest
      else entry :: Map_set rest key v
  end.

(** The fields of [AppState] that the order path reads or writes;
    [st_items] holds the [id] of every item. A state is built by
    [#updateState] from the fields of the previous one and the updates, as
    they are given (see [Models.BaseModel]); the listeners it then notifies
    receive the new state, and what they throw is swallowed. *)
Record AppState := {
  st_isLoading : bool;
  st_error : option string;
  st_items : list value;
  st_balances : Balances;
  st_lastUpdated : Z
}.

(** [#getTokenBalance(tokenId)]: the placeholder that the source has, which
    returns 0 for every token. *)
Definition getTokenBalance (tokenId : value) : number := of_Z 0.

(** The loop of [loadPlayerItems]: a balance is recorded when it is
    positive. *)
Fixpoint collectBalances (items : list value) (balances : Balances) : Balances :=
  match items with
  | [] => balances
  | id :: rest =>
      let balance := getTokenBalance id in
      collectBalances rest
        (if gt balance (of_Z 0) then Map_set balances id balance else balances)
  end.

(** [#updateState({ isLoading: true, error: null })] *)
Definition loading (st : AppState) : AppState :=
  {| st_isLoading := true; st_error := None;
     st_items := st_items st; st_balances := st_balances st;
     st_lastUpdated := st_lastUpdated st |}.

(** [#updateState({ isLoading: false })] *)
Definition loaded (st : AppState) : AppState :=
  {| st_isLoading := false; st_error := st_error st;
     st_items := st_items st; st_balances := st_balances st;
     st_lastUpdated := st_lastUpdated st |}.

(** [#updateState({ isLoading: false, error: message })] *)
Definition failed (st : AppState) (message : string) : AppState :=
  {| st_isLoading := false; st_error := Some message;
     st_items := st_items st; st_balances := st_balances st;
     st_lastUpdated := st_lastUpdated st |}.

Section Controller.
Variable cfg : Config.
Variable env : Env.

(** [loadPlayerItems()]. The second branch is its [catch] block. *)
Definition loadPlayerItems (st : AppState) (w : World)
  : Outcome Balances * AppState * World :=
  if negb (isConnected (wallet w)) then
    (Throw (Error "Wallet not connected"), st, w)
  else
    let st1 := loading st in
    let balances := collectBalances (st_items st1) [] in
    match Date_now env w with
    | (Return now, w1) =>
        (Return balances,
         {| st_isLoading := false; st_error := st_error st1;
            st_items := st_items st1; st_balances := balances;
            st_lastUpdated := now |},
         w1)
    | (Throw e, w1) =>
        (Throw e,
         failed st1 ("Failed to load player items: " ++ exn_message e), w1)
    end.

(** One turn of the loop of [#validateOrderRequests]: the request to push,
    or nothing. The sanitized quantity of a valid result is a number. *)
Definition validateOrderRequest (balances : Balances) (request : OrderRequest)
  : option OrderRequest :=
  let tokenIdValidation :=
    InputValidator.validateInput cfg (rq_tokenId request) "tokenId"
      InputValidator.no_options in
  if negb (InputValidator.isValid tokenIdValidation) then None
  else
    let priceValidation :=
      InputValidator.validateInput cfg (rq_priceInEth request) "price"
        InputValidator.no_options in
    if negb (InputValidator.isValid priceValidation) then None
    else
      let quantityValidation :=
        InputValidator.validateInput cfg (rq_amount request) "quantity"
          InputValidator.no_options in
      if negb (InputValidator.isValid quantityValidation) then None
      else
        let balance :=
          match Map_get balances (InputValidator.sanitizedValue tokenIdValidation) with
          | Some b => if truthy (Number b) then b else of_Z 0
          | None => of_Z 0
          end in
        if match InputValidator.sanitizedValue quantityValidation with
           | Number quantity => lt balance quantity
           | _ => false
           end
        then None
        else
          Some {| rq_tokenId := InputValidator.sanitizedValue tokenIdValidation;
                  rq_side := Str "sell";
                  rq_priceInEth := InputValidator.sanitizedValue priceValidation;
                  rq_amount := InputValidator.sanitizedValue quantityValidation |}.

(** [#validateOrderRequests(requests)] *)
Fixpoint validateOrderRequests (balances : Balances)
    (requests : list OrderRequest) : list OrderRequest :=
  match requests with
  | [] => []
  | request :: rest =>
      match validateOrderRequest balances request with
      | Some validated => validated :: validateOrderRequests balances rest
      | None => validateOrderRequests balances rest
      end
  end.

(** [createSellOrders(orderRequests)]: the outcome, the state it leaves
    and the world. An error thrown inside its [try] block is recorded in the
    state and thrown again. *)
Definition createSellOrders (st : AppState) (orderRequests : list OrderRequest)
    (w : World) : Outcome TransactionResult * AppState * World :=
  if negb (isConnected (wallet w)) then
    (Throw (Error "Wallet not connected"), st, w)
  else
    let st1 := loading st in
    match validateOrderRequests (st_balances st1) orderRequests with
    | [] =>
        let e := Error "No valid orders to create" in
        (Throw e, failed st1 (exn_message e), w)
    | validatedRequests =>
        match createBatchOrders cfg env validatedRequests w with
        | (Return result, w1) =>
            let st2 := loaded st1 in
            if isSuccessful result then
              match loadPlayerItems st2 w1 with
              | (Return _, st3, w2) => (Return result, st3, w2)
              | (Throw e, st3, w2) => (Throw e, failed st3 (exn_message e), w2)
              end
            else (Return result, st2, w1)
        | (Throw e, w1) => (Throw e, failed st1 (exn_message e), w1)
        end
    end.

End Controller.
End AppController.

(** ** The response cache of the API service ([ApiService]) *)

Module ApiService.

(** An entry of the [Map] [#cache]. *)
Record CacheEntry (A : Type) := { ce_data : A; ce_expiry : Z }.
Arguments ce_data {A} _.
Arguments ce_expiry {A} _.

(** [#getFromCache(key)] at time [now]: the cached data, or null; an entry
    that has expired is deleted. *)
Definition getFromCache {A} (key : string) (now : Z)
    (cache : gmap string (CacheEntry A)) : option A * gmap string (CacheEntry A) :=
  match cache !! key with
  | None => (None, cache)
  | Some cached =>
      if ce_expiry cached <? now then (None, delete key cache)
      else (Some (ce_data cached), cache)
  end.

(** [#setCache(key, data, ttlMs)] at time [now]. *)
Definition setCache {A} (key : string) (data : A) (ttlMs now : Z)
    (cache : gmap string (CacheEntry A)) : gmap string (CacheEntry A) :=
  <[key := {| ce_data := data; ce_expiry := now + ttlMs |}]> cache.

End ApiService.

(** * Vocabulary of the properties *)

Module Vocabulary.
Import JS InputValidator.

(** The timestamps recorded for [key]. *)
Definition history (key : string) (limits : gmap string (list Z)) : list Z :=
  default [] (limits !! key).

(** The timestamps of [key] that are still inside the window at [now]. *)
Definition retained (key : string) (windowMs now : Z)
    (limits : gmap string (list Z)) : list Z :=
  List.filter (fun timestamp => now - windowMs <? timestamp) (history key limits).

(** The map after calls at the given times that are all admitted. *)
Fixpoint admitted_calls (key : string) (maxRequests windowMs : Z)
    (times : list Z) (limits : gmap string (list Z))
  : option (gmap string (list Z)) :=
  match times with
  | [] => Some limits
  | now :: rest =>
      match checkRateLimit key maxRequests windowMs now limits with
      | (Allowed, limits') => admitted_calls key maxRequests windowMs rest limits'
      | (Rejected _, _) => None
      end
  end.

(** [log w evs]: the world [w] after the external calls [evs]. *)
Definition log (w : World) (evs : list Event) : World :=
  {| rateLimits := rateLimits w; wallet := wallet w; contracts := contracts w;
     trace := (trace w ++ evs)%list; clockReads := clockReads w |}.

(** The world after one more reading of the clock. *)
Definition tick (w : World) : World :=
  {| rateLimits := rateLimits w; wallet := wallet w; contracts := contracts w;
     trace := trace w; clockReads := S (clockReads w) |}.

(** The rational number a numeral stands for. *)
Definition dec_Q (d : decimal) : Q :=
  (inject_Z (mant d) * (inject_Z 10) ^ (expt d))%Q.

(** What [validateInput] hands to the validator of the kind: a string is
    trimmed, refused when longer than the cap, and sanitized; any other
    value is passed as it is. *)
Definition prepared (cfg : Config) (v : value) : option value :=
  match v with
  | Str s =>
      if maxInputLength cfg <? strlen (trim s) then None
      else Some (Str (sanitizeHtml (trim s)))
  | _ => Some v
  end.


(** The orders of the gas estimations in a log: one for each submission
    attempt that reached the contract. *)
Definition estimates (tr : list Event) : list (list ContractOrder) :=
  flat_map (fun ev => match ev with
                      | EvEstimateGas orders => [orders]
                      | _ => []
                      end) tr.

(** The approval transactions in a log. *)
Definition approvals (tr : list Event) : list Event :=
  List.filter (fun ev => match ev with
                         | EvSetApprovalForAll _ _ => true
                         | _ => false
                         end) tr.

Section Service.
Import Models MarketplaceService.
Variable cfg : Config.
Variable env : Env.

Definition gas_limit (gasEstimate : Z) : Z :=
  Z.quot (gasEstimate * (100 + gasBufferPercent cfg)) 100.

(** What a submission attempt started after the calls [tr] comes to, and
    the calls it makes. *)
Definition attempt_outcome (tr : list Event) (orders : list ContractOrder)
  : Outcome (string * Receipt) * list Event :=
  let e1 := EvEstimateGas orders in
  match estimateGas env tr orders with
  | Throw e => (Throw e, [e1])
  | Return g =>
      let e2 := EvLimitOrders orders (gas_limit g) in
      match limitOrders env (tr ++ [e1]) orders (gas_limit g) with
      | Throw e => (Throw e, [e1; e2])
      | Return h =>
          match wait env (tr ++ [e1; e2]) h with
          | Throw e => (Throw e, [e1; e2; EvWait h])
          | Return r => (Return (h, r), [e1; e2; EvWait h])
          end
      end
  end.

(** The calls and the error of [#ensureApprovals]. *)
Definition approval_query (w : World) : Event :=
  EvIsApprovedForAll (wallet_address (wallet w)) (marketplaceAddress cfg).

Definition approval_tx : Event :=
  EvSetApprovalForAll (marketplaceAddress cfg) true.

Definition approval_error (e : Exn) : Exn :=
  Error ("Failed to approve marketplace: " ++ exn_message e).


(** The steps of [createBatchOrders] up to the check that some order
    survived: the rate limit, the wallet, the network, the contracts and
    batch preparation. *)
Definition prepare (orderRequests : list OrderRequest)
  : M (list ContractOrder) :=
  do w <- get wallet;
  do rateLimitCheck <- checkRateLimit env (rate_key w) 5 60000;
  match rateLimitCheck with
  | InputValidator.Rejected resetTime =>
      throw (Error ("Rate limit exceeded. Try again in "
                    ++ number_to_string resetTime ++ " seconds."))
  | InputValidator.Allowed =>
      if negb (isConnected w) then throw (Error "Wallet not connected")
      else
        run (if negb (isOnCorrectNetwork w) then switchNetwork env else ret tt);
        do c <- get contracts;
        run (match c with
             | NotInitialized => initializeContracts cfg env
             | _ => ret tt
             end);
        do validatedOrders <- validateAndPrepareOrders cfg env orderRequests;
        match validatedOrders with
        | [] => throw (Error "No valid orders to create")
        | _ => ret validatedOrders
        end
  end.

(** The orders that batch preparation keeps, in the order of their
    requests: a request is kept when its [try] block returns. *)
Fixpoint survivors (requests : list OrderRequest) (w : World)
  : list ContractOrder * World :=
  match requests with
  | [] => ([], w)
  | request :: rest =>
      match prepareOrder cfg env request w with
      | (Return order, w') =>
          let (orders, w'') := survivors rest w' in (order :: orders, w'')
      | (Throw _, w') => survivors rest w'
      end
  end.

(** The balance read of a request. *)
Definition balance_read (w : World) (request : OrderRequest) : Event :=
  EvBalanceOf (wallet_address (wallet w)) (rq_tokenId request).

(** The result [createBatchOrders] builds from what the submitter
    returned. *)
Definition success_result (validatedOrders : list ContractOrder)
    (result : BatchResult) (now : Z) : TransactionResult :=
  {| success := true;
     txHash := Some (br_txHash result);
     blockNumber := Some (br_blockNumber result);
     gasUsed := Some (br_gasUsed result);
     ordersCreated := Some (Z.of_nat (List.length validatedOrders));
     error := None;
     note := None;
     timestamp := now |}.

(** The result [createBatchOrders] builds from a caught error. *)
Definition failure_result (e : Exn) (now : Z) : TransactionResult :=
  {| success := false;
     txHash := None;
     blockNumber := None;
     gasUsed := None;
     ordersCreated := None;
     error := Some (exn_message e);
     note := None;
     timestamp := now |}.

(** The steps of [createBatchOrders] once the batch is prepared: approval,
    submission and the successful result. *)
Definition finish (validatedOrders : list ContractOrder)
  : M TransactionResult :=
  run ensureApprovals cfg env validatedOrders;
  do result <- executeBatchTransaction cfg env validatedOrders;
  do now <- Date_now env;
  ret (success_result validatedOrders result now).

End Service.

(** *** Further vocabulary *)

Section Further.
Import Models MarketplaceService.

(** The four code units that [escapeHtml] leaves nowhere. *)
Definition markup (x : ascii) : Prop :=
  x = "<"%char \/ x = ">"%char \/ x = ascii_of_N 34 \/ x = "'"%char.

(** What the result of a validation of the given kind looks like: a
    rejection carries null and one error; an acceptance carries no error and
    a value of the type of its kind. *)
Definition well_formed (type : string) (r : ValidationResult) : Prop :=
  (isValid r = false -> sanitizedValue r = Null /\ exists msg, errors r = [msg]) /\
  (isValid r = true ->
   errors r = [] /\
   ((type = "price" /\
     exists d, sanitizedValue r = Number (Num d) /\ (0 < dec_Q d)%Q) \/
    ((type = "quantity" \/ type = "tokenId") /\
     exists n, sanitizedValue r = Number (of_Z n)) \/
    ((type = "address" \/ type = "text") /\
     exists s, sanitizedValue r = Str s))).

(** The code units of an address: hexadecimal digits and [x]. *)
Definition address_unit (c : ascii) : bool := is_hex c || Ascii.eqb c "x".

(** A code unit that no code unit of an address equals, with or without
    case. *)
Definition foreign (a : ascii) : Prop :=
  forall b, address_unit b = true -> eq_ci a b = false /\ Ascii.eqb a b = false.

(** The limiter's map after calls at the given times, admitted or not. *)
Definition limiter_after (key : string) (maxRequests windowMs : Z)
    (times : list Z) (limits : gmap string (list Z)) : gmap string (list Z) :=
  fold_left
    (fun l now =>
       snd (InputValidator.checkRateLimit key maxRequests windowMs now l))
    times limits.

(** What relates a request that preparation keeps and its order: the token
    identifier is copied, the quantity and the price are the conversions of
    the request's. *)
Definition converts (env : Env) (request : OrderRequest)
    (order : ContractOrder) : Prop :=
  co_tokenId order = rq_tokenId request /\
  bigNumberFrom env (rq_amount request) = Return (co_quantity order) /\
  exists priceText,
    toString (rq_priceInEth request) = Some priceText /\
    parseEther env priceText = Return (co_price order).

(** An order that fits the contract: a positive price of at most 72 bits, a
    positive quantity of at most 24 bits, a side that is 0 or 1. *)
Definition within_limits (order : ContractOrder) : Prop :=
  0 < co_price order <= MAX_UINT72 /\
  0 < co_quantity order <= MAX_UINT24 /\
  (co_side order = 0 \/ co_side order = 1).


(** [m] keeps the relation [R] between the world it starts in and the world
    it ends in. *)
Definition preserves (R : World -> World -> Prop) {A} (m : M A) : Prop :=
  forall w, R w (snd (m w)).

(** The limiter's map and the wallet are the same. *)
Definition same_limiter (w w' : World) : Prop :=
  rateLimits w' = rateLimits w /\ wallet w' = wallet w.

(** The world once [createBatchOrders] has consulted the limiter. *)
Definition consulted (env : Env) (w : World) : World :=
  {| rateLimits :=
       snd (InputValidator.checkRateLimit (rate_key (wallet w)) 5 60000
              (clock env (clockReads w)) (rateLimits w));
     wallet := wallet w;
     contracts := contracts w;
     trace := trace w;
     clockReads := S (clockReads w) |}.

(** Successive calls of [createBatchOrders], one batch after the other: for
    each call the time at which it consulted the limiter and what it
    returned, and the world at the end. *)
Fixpoint successive_calls (cfg : Config) (env : Env)
    (batches : list (list OrderRequest)) (w : World)
  : list (Z * Outcome TransactionResult) * World :=
  match batches with
  | [] => ([], w)
  | batch :: rest =>
      let (o, w1) := createBatchOrders cfg env batch w in
      let (done, w2) := successive_calls cfg env rest w1 in
      ((clock env (clockReads w), o) :: done, w2)
  end.

(** A request as the controller forwards it: numbers within the limits of
    the validators, to be sold. *)
Definition forwarded (cfg : Config) (request : OrderRequest) : Prop :=
  exists tokenId quantity price,
    request = {| rq_tokenId := Number (of_Z tokenId);
                 rq_side := Str "sell";
                 rq_priceInEth := Number (Num price);
                 rq_amount := Number (of_Z quantity) |} /\
    tokenId_min cfg <= tokenId <= tokenId_max cfg /\
    quantity_min cfg <= quantity <= quantity_max cfg /\
    (dec_Q (price_min cfg) <= dec_Q price)%Q /\
    (dec_Q price <= dec_Q (price_max cfg))%Q /\ (0 < dec_Q price)%Q.

End Further.

End Vocabulary.

(** * Test doubles *)

Module Fixtures.
Import JS Models MarketplaceService Vocabulary.

(** [ethers.utils.parseEther] on plain decimal text with at most 18
    decimals. *)
Definition decimal_parseEther (s : string) : Outcome Z :=
  let (neg, s1) := read_sign s in
  let (ip, s2) := span is_digit s1 in
  let (fp, s3) :=
    match s2 with
    | String "." s2' => span is_digit s2'
    | _ => (EmptyString, s2)
    end in
  match s3, ip ++ fp with
  | EmptyString, String _ _ =>
      if strlen fp <=? 18 then
        Return (apply_sign neg (digits_value (ip ++ fp)) * 10 ^ (18 - strlen fp))
      else Throw (Error "fractional component exceeds decimals")
  | _, _ => Throw (Error "invalid decimal value")
  end.

(** [ethers.BigNumber.from] on integers and on decimal text. *)
Definition integer_bigNumberFrom (v : value) : Outcome Z :=
  match v with
  | Number (Num d) =>
      if 0 <=? expt d then Return (mant d * 10 ^ expt d)
      else if mant d mod 10 ^ (- expt d) =? 0 then
        Return (mant d / 10 ^ (- expt d))
      else Throw (Error "underflow")
  | Str s =>
      let (neg, s1) := read_sign s in
      match span is_digit s1 with
      | (String c ds, EmptyString) =>
          Return (apply_sign neg (digits_value (String c ds)))
      | _ => Throw (Error "invalid BigNumber string")
      end
  | _ => Throw (Error "invalid BigNumber value")
  end.

(** A chain on which [balance] answers the balance reads, the marketplace
    is approved or not, and the first [failures] gas estimations revert. *)
Definition chain (balance : value -> Outcome Z) (approved : bool)
    (failures : nat) : Env := {|
  clock := fun n => 1700000000000 + Z.of_nat n;
  parseEther := decimal_parseEther;
  bigNumberFrom := integer_bigNumberFrom;
  newContract := fun _ => Return tt;
  switchChain := fun _ => Return tt;
  addChain := fun _ => Return tt;
  balanceOf := fun _ _ tokenId => balance tokenId;
  isApprovedForAll := fun _ _ _ => Return approved;
  setApprovalForAll := fun _ _ _ => Return tt;
  waitApproval := fun _ => Return tt;
  estimateGas := fun tr _ =>
    if (List.length (estimates tr) <? failures)%nat then
      Throw (Error "execution reverted")
    else Return 100000;
  limitOrders := fun _ _ _ => Return "0xfeed";
  wait := fun _ _ => Return {| rc_blockNumber := 4242; rc_gasUsed := 90000 |}
|}.


Definition user : string := "0xabc0000000000000000000000000000000000abc".

(** A connected wallet on the right network, before any call. *)
Definition start : World := {|
  rateLimits := ∅;
  wallet := {| isConnected := true; address := Some user;
               isOnCorrectNetwork := true; hasProvider := true |};
  contracts := NotInitialized;
  trace := [];
  clockReads := O
|}.

(** The same wallet with both contracts set. *)
Definition ready : World := {|
  rateLimits := ∅;
  wallet := wallet start;
  contracts := Initialized;
  trace := [];
  clockReads := O
|}.

Definition sell (tokenId : Z) (price : decimal) (quantity : Z) : OrderRequest :=
  {| rq_tokenId := Number (of_Z tokenId);
     rq_side := Str "sell";
     rq_priceInEth := Number (Num price);
     rq_amount := Number (of_Z quantity) |}.

(** Balances given as a table from token identifiers; the read throws for
    the others. *)
Definition balances (table : list (Z * Z)) (tokenId : value) : Outcome Z :=
  match tokenId with
  | Number (Num (Dec t 0)) =>
      match List.find (fun p => fst p =? t) table with
      | Some p => Return (snd p)
      | None => Throw (Error "call revert exception")
      end
  | _ => Throw (Error "invalid token id")
  end.

(** The order of three units of token 7 at 1.5, as prepared. *)
Definition order7 : ContractOrder :=
  {| co_side := 0; co_tokenId := Number (of_Z 7);
     co_price := 1500000000000000000; co_quantity := 3 |}.

(** A wallet provider whose user refuses the switch of chain. *)
Definition refusing_provider : Env := {|
  clock := fun n => 1700000000000 + Z.of_nat n;
  parseEther := decimal_parseEther;
  bigNumberFrom := integer_bigNumberFrom;
  newContract := fun _ => Return tt;
  switchChain := fun _ =>
    Throw {| exn_message := "User rejected the request.";
             exn_code := Some 4001 |};
  addChain := fun _ => Return tt;
  balanceOf := fun _ _ _ => Return 3;
  isApprovedForAll := fun _ _ _ => Return true;
  setApprovalForAll := fun _ _ _ => Return tt;
  waitApproval := fun _ => Return tt;
  estimateGas := fun _ _ => Return 100000;
  limitOrders := fun _ _ _ => Return "0xfeed";
  wait := fun _ _ => Return {| rc_blockNumber := 4242; rc_gasUsed := 90000 |}
|}.

(** The wallet of [start] on another network. *)
Definition elsewhere : World := {|
  rateLimits := ∅;
  wallet := {| isConnected := true; address := Some user;
               isOnCorrectNetwork := false; hasProvider := true |};
  contracts := NotInitialized;
  trace := [];
  clockReads := O
|}.

(** The wallet of [start] with the marketplace contract set and the items
    contract missing. *)
Definition half_initialized : World := {|
  rateLimits := ∅;
  wallet := wallet start;
  contracts := MarketplaceOnly;
  trace := [];
  clockReads := O
|}.

(** No wallet connected. *)
Definition disconnected : World := {|
  rateLimits := ∅;
  wallet := {| isConnected := false; address := None;
               isOnCorrectNetwork := false; hasProvider := false |};
  contracts := NotInitialized;
  trace := [];
  clockReads := O
|}.


(** A library whose contract constructor refuses the items contract. *)
Definition refusing_constructor : Env := {|
  clock := fun n => 1700000000000 + Z.of_nat n;
  parseEther := decimal_parseEther;
  bigNumberFrom := integer_bigNumberFrom;
  newContract := fun address =>
    if String.eqb address (itemsAddress baseConfig) then
      Throw (Error "invalid contract address or ENS name")
    else Return tt;
  switchChain := fun _ => Return tt;
  addChain := fun _ => Return tt;
  balanceOf := fun _ _ _ => Return 3;
  isApprovedForAll := fun _ _ _ => Return true;
  setApprovalForAll := fun _ _ _ => Return tt;
  waitApproval := fun _ => Return tt;
  estimateGas := fun _ _ => Return 100000;
  limitOrders := fun _ _ _ => Return "0xfeed";
  wait := fun _ _ => Return {| rc_blockNumber := 4242; rc_gasUsed := 90000 |}
|}.

End Fixtures.

(** * Properties *)

(** ** Sample evaluations *)

Example parseInt_reads_prefix : JS.parseInt (JS.Str "  42px") = JS.of_Z 42.
Proof. reflexivity. Qed.

Example parseFloat_reads_prefix :
  JS.parseFloat (JS.Str "-1.5e3x") = JS.Num (JS.Dec (-15) 2).
Proof. reflexivity. Qed.

Example number_to_string_samples :
  map JS.number_to_string
      [JS.Num (JS.Dec 1 (-6)); JS.Num (JS.Dec 1 (-7)); JS.Num (JS.Dec 123456 (-3));
       JS.Num (JS.Dec 1 21); JS.Num (JS.Dec 1200 0); JS.Num (JS.Dec (-15) 22);
       JS.of_Z 16777215]
  = ["0.000001"; "1e-7"; "123.456"; "1e+21"; "1200"; "-1.5e+23"; "16777215"].
Proof. vm_compute. reflexivity. Qed.

Example sanitizeHtml_samples :
  map InputValidator.sanitizeHtml
      ["5abc"; "a<script>x</script>b<scripted>"; "x onclick = y"; "JavaScript:1 & 2";
       "<script a<b</SCRIPT>c</script>"]
  = ["5abc"; "ab&lt;scripted&gt;"; "x  y"; "1 &amp; 2"; "c&lt;/script&gt;"].
Proof. vm_compute. reflexivity. Qed.

Example quantity_samples :
  map (fun v => InputValidator.isValid
                  (InputValidator.validateInput baseConfig v "quantity" InputValidator.no_options))
      [JS.Str "5"; JS.Str "5abc"; JS.Str "5.5"; JS.Str "1e3"; JS.Number (JS.of_Z 16777215);
       JS.Number (JS.of_Z 16777216); JS.Number (JS.of_Z 0); JS.Number (JS.Num (JS.Dec 55 (-1)));
       JS.Number (JS.Num (JS.Dec 1 21)); JS.Null; JS.Str " 7.0 "]
  = [true; true; false; false; true; false; false; false; false; false; true].
Proof. vm_compute. reflexivity. Qed.

Example price_samples :
  map (fun v => InputValidator.isValid
                  (InputValidator.validateInput baseConfig v "price" InputValidator.no_options))
      [JS.Str "1.5"; JS.Str "1.5abc"; JS.Str "0.000001"; JS.Str "0.0000009"; JS.Str "1000000";
       JS.Str "1000000.1"; JS.Str "Infinity"; JS.Str "abc"; JS.Number (JS.Num (JS.Dec 15 (-1)));
       JS.Str "1e-7"; JS.Str "-1"]
  = [true; true; true; false; true; false; false; false; true; false; false].
Proof. vm_compute. reflexivity. Qed.

(** ** Numbers *)

Module NumberFacts.
Import JS Vocabulary.

Lemma ten_power_pos (e : Z) : (0 < inject_Z 10 ^ e)%Q.
Proof. apply Qpower_0_lt. reflexivity. Qed.

Lemma dec_Q_shift (m e e0 : Z) :
  e0 <= e ->
  (dec_Q (Dec m e) == inject_Z (m * 10 ^ (e - e0)) * inject_Z 10 ^ e0)%Q.
Proof.
  intros He. unfold dec_Q. cbn [mant expt].
  rewrite inject_Z_mult, Zpower_Qpower by lia.
  rewrite <- Qmult_assoc, <- Qpower_plus by discriminate.
  now replace (e - e0 + e0) with e by lia.
Qed.

(** The comparison of numerals is the comparison of the rationals they
    stand for. *)
Lemma dec_compare_Q (a b : decimal) :
  dec_compare a b = (dec_Q a ?= dec_Q b)%Q.
Proof.
  destruct a as [ma ea], b as [mb eb]. unfold dec_compare. cbn [mant expt].
  set (e0 := Z.min ea eb).
  rewrite (dec_Q_shift ma ea e0), (dec_Q_shift mb eb e0) by (subst e0; lia).
  set (x := ma * 10 ^ (ea - e0)). set (y := mb * 10 ^ (eb - e0)).
  pose proof (ten_power_pos e0) as Hp.
  symmetry. destruct (Z.compare_spec x y) as [Heq|Hlt|Hgt].
  - apply Qeq_alt. now rewrite Heq.
  - apply Qlt_alt. apply Qmult_lt_compat_r; [exact Hp|].
    now rewrite <- Zlt_Qlt.
  - apply Qgt_alt. apply Qmult_lt_compat_r; [exact Hp|].
    now rewrite <- Zlt_Qlt.
Qed.

Lemma dec_Q_of_Z (z : Z) : (dec_Q (Dec z 0) == inject_Z z)%Q.
Proof. unfold dec_Q. cbn. ring. Qed.

Lemma lt_Q (a b : decimal) : lt (Num a) (Num b) = true <-> (dec_Q a < dec_Q b)%Q.
Proof.
  unfold lt. cbn [compare]. rewrite dec_compare_Q, Qlt_alt.
  destruct (dec_Q a ?= dec_Q b)%Q; split; congruence.
Qed.

Lemma lt_Q_false (a b : decimal) :
  lt (Num a) (Num b) = false <-> (dec_Q b <= dec_Q a)%Q.
Proof.
  rewrite <- not_true_iff_false, lt_Q. split.
  - apply Qnot_lt_le.
  - apply Qle_not_lt.
Qed.

Lemma le_Q (a b : decimal) : le (Num a) (Num b) = true <-> (dec_Q a <= dec_Q b)%Q.
Proof.
  unfold le. cbn [compare]. rewrite dec_compare_Q, Qle_alt.
  destruct (dec_Q a ?= dec_Q b)%Q; split; congruence.
Qed.

Lemma strict_eq_Q (a b : decimal) :
  strict_eq (Num a) (Num b) = true <-> (dec_Q a == dec_Q b)%Q.
Proof.
  unfold strict_eq. cbn [compare]. rewrite dec_compare_Q, Qeq_alt.
  destruct (dec_Q a ?= dec_Q b)%Q; split; congruence.
Qed.

Lemma compare_of_Z (a b : Z) : compare (of_Z a) (of_Z b) = Some (a ?= b).
Proof.
  unfold of_Z, compare, dec_compare. cbn [mant expt].
  now rewrite Z.min_id, Z.sub_diag, Z.pow_0_r, !Z.mul_1_r.
Qed.

Lemma lt_of_Z (a b : Z) : lt (of_Z a) (of_Z b) = (a <? b).
Proof.
  unfold lt. rewrite compare_of_Z. unfold Z.ltb. now destruct (a ?= b).
Qed.

Lemma isInteger_of_Z (z : Z) : isInteger (of_Z z) = true.
Proof. reflexivity. Qed.

(** [parseInt] yields NaN or an integer. *)
Lemma parseInt_string_cases (s : string) :
  parseInt_string s = NaN \/ exists z, parseInt_string s = of_Z z.
Proof.
  unfold parseInt_string.
  destruct (read_sign (trimStart s)) as [neg s1].
  destruct (span is_digit s1) as [ds rest].
  destruct ds; [now left|right; eauto].
Qed.

End NumberFacts.

(** ** Decimal digits *)

Module DigitFacts.
Import JS Vocabulary NumberFacts.

Lemma fold_digits_acc (d : Decimal.uint) : forall acc : positive,
  fold_left (fun acc c => 10 * acc + digit_value c)
    (list_ascii_of_string (NilEmpty.string_of_uint d)) (Zpos acc)
  = Zpos (Pos.of_uint_acc d acc).
Proof.
  induction d; intros acc; cbn [NilEmpty.string_of_uint list_ascii_of_string fold_left Pos.of_uint_acc];
    try reflexivity; rewrite <- IHd; f_equal; unfold digit_value; cbn; lia.
Qed.

Lemma fold_digits (d : Decimal.uint) :
  fold_left (fun acc c => 10 * acc + digit_value c)
    (list_ascii_of_string (NilEmpty.string_of_uint d)) 0
  = Z.of_N (Pos.of_uint d).
Proof.
  induction d; cbn [NilEmpty.string_of_uint list_ascii_of_string fold_left Pos.of_uint];
    try reflexivity;
    try (change (10 * 0 + digit_value _) with 0; exact IHd);
    match goal with
    | |- fold_left _ _ ?x = _ =>
        let v := eval vm_compute in x in change x with v
    end; apply fold_digits_acc.
Qed.

Lemma pos_digits_nonnil (p : positive) :
  pos_digits p = NilEmpty.string_of_uint (Pos.to_uint p).
Proof.
  unfold pos_digits, NilZero.string_of_uint.
  pose proof (Unsigned.to_uint_nonnil p). now destruct (Pos.to_uint p).
Qed.

Lemma digits_value_pos (p : positive) : digits_value (pos_digits p) = Zpos p.
Proof.
  unfold digits_value. rewrite pos_digits_nonnil, fold_digits, Unsigned.of_to.
  reflexivity.
Qed.

Lemma span_digits (d : Decimal.uint) :
  span is_digit (NilEmpty.string_of_uint d) = (NilEmpty.string_of_uint d, EmptyString).
Proof.
  induction d; cbn [NilEmpty.string_of_uint span]; try reflexivity;
    cbn [is_digit]; rewrite IHd;
    match goal with |- (if ?b then _ else _) = _ =>
      let v := eval vm_compute in b in change b with v end; reflexivity.
Qed.

Lemma length_digits (d : Decimal.uint) :
  String.length (NilEmpty.string_of_uint d) = Decimal.nb_digits d.
Proof. induction d; cbn; congruence. Qed.

(** The digits of a positive number start with a digit other than 0. *)
Lemma pos_digits_head (p : positive) :
  exists c s, pos_digits p = String c s /\ is_digit c = true
              /\ is_zero_digit c = false.
Proof.
  rewrite pos_digits_nonnil.
  pose proof (Unsigned.to_uint_nonzero p) as Hz.
  pose proof (Unsigned.to_of (Pos.to_uint p)) as Hn.
  rewrite Unsigned.of_to in Hn. cbn [N.to_uint] in Hn.
  pose proof (nzhead_nonzero (Pos.to_uint p)) as Hh.
  assert (Hu : Decimal.unorm (Pos.to_uint p) = Decimal.nzhead (Pos.to_uint p)).
  { apply unorm_nzhead. intros E. apply unorm_0 in E. congruence. }
  rewrite Hu in Hn. rewrite <- Hn in Hh.
  destruct (Pos.to_uint p) as [|u|u|u|u|u|u|u|u|u|u] eqn:E;
    [now destruct (Unsigned.to_uint_nonnil p)|exfalso; now apply (Hh u)|..];
    cbn [NilEmpty.string_of_uint]; eexists _, _; repeat split.
Qed.

Lemma of_uint_acc_lower (d : Decimal.uint) : forall acc : positive,
  Zpos acc * 10 ^ Z.of_nat (Decimal.nb_digits d) <= Zpos (Pos.of_uint_acc d acc).
Proof.
  induction d; intros acc; cbn [Decimal.nb_digits Pos.of_uint_acc];
    [cbn; lia|..];
    (etransitivity; [|apply IHd]);
    rewrite Nat2Z.inj_succ, Z.pow_succ_r by lia;
    assert (0 < 10 ^ Z.of_nat (Decimal.nb_digits d)) by (apply Z.pow_pos_nonneg; lia);
    nia.
Qed.

Lemma pos_digits_length (p : positive) :
  10 ^ (strlen (pos_digits p) - 1) <= Zpos p.
Proof.
  destruct (pos_digits_head p) as (c & s & Hs & Hd & Hz).
  rewrite pos_digits_nonnil in *.
  pose proof (Unsigned.of_to p) as Hv.
  unfold strlen. rewrite length_digits.
  destruct (Pos.to_uint p) as [|u|u|u|u|u|u|u|u|u|u] eqn:E;
    cbn [NilEmpty.string_of_uint] in Hs; try discriminate;
    injection Hs as <- <-; try discriminate;
    cbn [Pos.of_uint] in Hv; injection Hv as <-;
    cbn [Decimal.nb_digits];
    (etransitivity; [|apply of_uint_acc_lower]);
    replace (Z.of_nat (S (Decimal.nb_digits u)) - 1) with (Z.of_nat (Decimal.nb_digits u)) by lia;
    assert (0 < 10 ^ Z.of_nat (Decimal.nb_digits u)) by (apply Z.pow_pos_nonneg; lia);
    nia.
Qed.

(** Strings as lists of code units *)

Lemma chars_app (a b : string) :
  list_ascii_of_string (a ++ b)
  = (list_ascii_of_string a ++ list_ascii_of_string b)%list.
Proof.
  induction a as [|c a IH]; [reflexivity|].
  simpl. now rewrite IH.
Qed.

Lemma of_chars_app (a b : list ascii) :
  string_of_list_ascii (a ++ b)
  = string_of_list_ascii a ++ string_of_list_ascii b.
Proof.
  induction a as [|c a IH]; [reflexivity|].
  simpl. now rewrite IH.
Qed.

Lemma length_app_string (a b : string) :
  String.length (a ++ b) = (String.length a + String.length b)%nat.
Proof.
  induction a as [|c a IH]; [reflexivity|].
  simpl. now rewrite IH.
Qed.

Lemma reverse_app (a b : string) : reverse (a ++ b) = reverse b ++ reverse a.
Proof. unfold reverse. now rewrite chars_app, rev_app_distr, of_chars_app. Qed.

Lemma reverse_involutive (s : string) : reverse (reverse s) = s.
Proof.
  unfold reverse.
  now rewrite list_ascii_of_string_of_list_ascii, rev_involutive,
    string_of_list_ascii_of_string.
Qed.

Lemma zeros_snoc (n : nat) : zeros n ++ "0" = String "0" (zeros n).
Proof.
  induction n as [|n IH]; [reflexivity|].
  change (String "0" (zeros n ++ "0") = String "0" (zeros (S n))).
  now rewrite IH.
Qed.

Lemma reverse_zeros (n : nat) : reverse (zeros n) = zeros n.
Proof.
  induction n; [reflexivity|].
  change (zeros (S n)) with ("0" ++ zeros n) at 1.
  rewrite reverse_app, IHn. apply zeros_snoc.
Qed.

Lemma is_zero_digit_eq (c : ascii) : is_zero_digit c = true -> c = "0"%char.
Proof.
  unfold is_zero_digit, code. intros H. apply N.eqb_eq in H.
  rewrite <- (ascii_N_embedding c), H. reflexivity.
Qed.

Lemma span_zeros (s : string) :
  exists j, s = zeros j ++ snd (span is_zero_digit s).
Proof.
  induction s as [|c s IH]; [now exists O|]. cbn [span].
  destruct (is_zero_digit c) eqn:Hc.
  - destruct IH as [j Hj]. destruct (span is_zero_digit s) as [a b].
    cbn [snd] in *. exists (S j). apply is_zero_digit_eq in Hc. subst c.
    change (String "0" s = String "0" (zeros j ++ b)). now f_equal.
  - now exists O.
Qed.

(** Stripping the trailing zeros and writing them back. *)
Lemma strip_zeros_end_spec (s : string) :
  exists j, s = strip_zeros_end s ++ zeros j.
Proof.
  unfold strip_zeros_end. destruct (span_zeros (reverse s)) as [j Hj].
  exists j. rewrite <- (reverse_involutive s) at 1.
  rewrite Hj at 1. now rewrite reverse_app, reverse_zeros.
Qed.

Lemma length_zeros (n : nat) : String.length (zeros n) = n.
Proof. induction n; cbn; congruence. Qed.

(** Number::toString of a positive integer below [10 ^ 21] is its decimal
    digits. *)
Lemma positive_to_string_integer (p : positive) :
  Zpos p < 10 ^ 21 -> positive_to_string p 0 = pos_digits p.
Proof.
  intros Hp. unfold positive_to_string.
  destruct (strip_zeros_end_spec (pos_digits p)) as [j Hj].
  set (ds := strip_zeros_end (pos_digits p)) in *.
  assert (Hlen : strlen (pos_digits p) = strlen ds + Z.of_nat j).
  { unfold strlen. rewrite Hj at 1. rewrite length_app_string, length_zeros. lia. }
  assert (Hn : strlen (pos_digits p) <= 21).
  { pose proof (pos_digits_length p) as Hl.
    destruct (Z_le_gt_dec (strlen (pos_digits p)) 21) as [|Hgt]; [assumption|].
    exfalso. assert (10 ^ 21 <= 10 ^ (strlen (pos_digits p) - 1))
      by (apply Z.pow_le_mono_r; lia). lia. }
  rewrite Z.add_0_l.
  assert (H1 : (strlen ds <=? strlen (pos_digits p))%Z = true) by (apply Z.leb_le; lia).
  assert (H2 : (strlen (pos_digits p) <=? 21)%Z = true) by (apply Z.leb_le; lia).
  rewrite H1, H2. cbn [andb].
  replace (Z.to_nat (strlen (pos_digits p) - strlen ds)) with j by lia.
  now rewrite <- Hj.
Qed.

Lemma number_to_string_integer (z : Z) :
  - 10 ^ 21 < z < 10 ^ 21 -> number_to_string (of_Z z) = Z_to_string z.
Proof.
  intros Hz. destruct z as [|p|p]; cbn [number_to_string of_Z Z_to_string].
  - reflexivity.
  - apply positive_to_string_integer. lia.
  - f_equal. apply positive_to_string_integer. lia.
Qed.

Lemma trimStart_digits (p : positive) : trimStart (pos_digits p) = pos_digits p.
Proof.
  destruct (pos_digits_head p) as (c & s & -> & Hd & _). cbn [trimStart].
  assert (Hs : is_space c = false).
  { unfold is_digit, is_space, in_range in *.
    apply andb_true_iff in Hd. destruct Hd as [H1 H2].
    apply N.leb_le in H1, H2.
    repeat (apply orb_false_iff; split);
      [apply andb_false_iff; right; apply N.leb_gt; lia
      |apply N.eqb_neq; lia|apply N.eqb_neq; lia]. }
  now rewrite Hs.
Qed.

Lemma read_sign_digits (p : positive) :
  read_sign (pos_digits p) = (false, pos_digits p).
Proof.
  destruct (pos_digits_head p) as (c & s & -> & Hd & _).
  unfold read_sign.
  destruct c as [[] [] [] [] [] [] [] []]; try reflexivity; discriminate.
Qed.

Lemma span_pos_digits (p : positive) :
  span is_digit (pos_digits p) = (pos_digits p, EmptyString).
Proof. rewrite pos_digits_nonnil. apply span_digits. Qed.

(** [parseInt] of an integer number below [10 ^ 21] in absolute value is the
    integer. *)
Lemma parseInt_integer (z : Z) :
  - 10 ^ 21 < z < 10 ^ 21 -> parseInt (Number (of_Z z)) = of_Z z.
Proof.
  intros Hz. unfold parseInt. cbn [ToString].
  rewrite (number_to_string_integer z Hz).
  unfold parseInt_string.
  destruct z as [|p|p]; cbn [Z_to_string].
  - reflexivity.
  - rewrite trimStart_digits, read_sign_digits. cbv iota.
    rewrite span_pos_digits. cbv iota.
    destruct (pos_digits_head p) as (c & s & Hs & _). rewrite Hs at 1.
    now rewrite digits_value_pos.
  - change (trimStart ("-" ++ pos_digits p)) with ("-" ++ pos_digits p).
    change (read_sign ("-" ++ pos_digits p)) with (true, pos_digits p).
    cbv iota. rewrite span_pos_digits. cbv iota.
    destruct (pos_digits_head p) as (c & s & Hs & _). rewrite Hs at 1.
    now rewrite digits_value_pos.
Qed.

Lemma append_empty_r (s : string) : s ++ EmptyString = s.
Proof.
  induction s as [|c s IH]; [reflexivity|].
  change (String c (s ++ EmptyString) = String c s). now f_equal.
Qed.

Lemma not_Infinity_digits (p : positive) :
  strip_prefix Ascii.eqb "Infinity" (pos_digits p) = None.
Proof.
  destruct (pos_digits_head p) as (c & s & -> & Hd & _).
  cbn [strip_prefix].
  destruct (Ascii.eqb_spec "I"%char c) as [<-|]; [discriminate|reflexivity].
Qed.

Lemma scan_float_digits (p : positive) :
  scan_float (pos_digits p) = (of_Z (Zpos p), EmptyString).
Proof.
  unfold scan_float. rewrite read_sign_digits. cbv iota.
  rewrite not_Infinity_digits, span_pos_digits. cbv iota.
  rewrite append_empty_r.
  destruct (pos_digits_head p) as (c & s & Hs & _). rewrite Hs.
  cbv iota. rewrite <- Hs. now rewrite digits_value_pos.
Qed.

(** [parseFloat] of an integer number below [10 ^ 21] in absolute value is
    the integer. *)
Lemma parseFloat_integer (z : Z) :
  - 10 ^ 21 < z < 10 ^ 21 -> parseFloat (Number (of_Z z)) = of_Z z.
Proof.
  intros Hz. unfold parseFloat. cbn [ToString].
  rewrite (number_to_string_integer z Hz).
  unfold parseFloat_string.
  destruct z as [|p|p]; cbn [Z_to_string].
  - reflexivity.
  - now rewrite trimStart_digits, scan_float_digits.
  - change (trimStart ("-" ++ pos_digits p)) with ("-" ++ pos_digits p).
    unfold scan_float.
    change (read_sign ("-" ++ pos_digits p)) with (true, pos_digits p).
    cbv iota. rewrite not_Infinity_digits, span_pos_digits. cbv iota.
    rewrite append_empty_r.
    destruct (pos_digits_head p) as (c & s & Hs & _). rewrite Hs.
    cbv iota. rewrite <- Hs. now rewrite digits_value_pos.
Qed.

End DigitFacts.

(** ** The validators *)

Module ValidatorFacts.
Import JS InputValidator Vocabulary NumberFacts DigitFacts.

Lemma validateInput_prepared (cfg : Config) (v : value) (type : string) :
  validateInput cfg v type no_options =
  match prepared cfg v with
  | Some v' => by_type cfg v' type no_options
  | None =>
      reject ("Input too long. Maximum " ++ Z_to_string (maxInputLength cfg)
              ++ " characters allowed.")
  end.
Proof.
  destruct v; try reflexivity.
  unfold validateInput, prepared. cbn [opt_maxLength opt_sanitizeHtml no_options].
  now destruct (maxInputLength cfg <? strlen (trim s)).
Qed.

(** The quantity validator on the value it is handed. *)
Lemma validateQuantity_spec (cfg : Config) (v : value) :
  (forall n d,
     parseInt v = of_Z n -> quantity_min cfg <= n <= quantity_max cfg ->
     parseFloat v = Num d -> (dec_Q d == inject_Z n)%Q ->
     validateQuantity cfg v = accept (Number (of_Z n))) /\
  (isValid (validateQuantity cfg v) = true ->
   exists n d,
     parseInt v = of_Z n /\ quantity_min cfg <= n <= quantity_max cfg /\
     parseFloat v = Num d /\ (dec_Q d == inject_Z n)%Q) /\
  (isValid (validateQuantity cfg v) = false ->
   sanitizedValue (validateQuantity cfg v) = Null /\
   exists msg, errors (validateQuantity cfg v) = [msg]).
Proof.
  unfold validateQuantity, parseInt.
  destruct (parseInt_string_cases (ToString v)) as [Hn | [z Hz]].
  - rewrite Hn. cbn. split; [discriminate|]. split; [discriminate|eauto].
  - rewrite Hz. cbn [isNaN of_Z]. fold (of_Z z).
    unfold gt. rewrite !lt_of_Z, isInteger_of_Z. cbn [negb orb].
    split; [|split].
    + intros n d Heq [Hlo Hhi] Hd Hq. injection Heq as <-.
      apply Z.ltb_ge in Hlo, Hhi. rewrite Hlo, Hhi, Hd.
      assert (Hs : strict_eq (of_Z z) (Num d) = true).
      { apply strict_eq_Q. now rewrite dec_Q_of_Z, Hq. }
      now rewrite Hs.
    + destruct (z <? quantity_min cfg) eqn:Hlo; [discriminate|].
      destruct (quantity_max cfg <? z) eqn:Hhi; [discriminate|].
      destruct (strict_eq (of_Z z) (parseFloat v)) eqn:Hs; [|discriminate].
      intros _. apply Z.ltb_ge in Hlo, Hhi.
      destruct (parseFloat v) as [|d|b] eqn:Hd;
        [discriminate| |destruct b; discriminate].
      exists z, d. repeat split; try lia.
      apply strict_eq_Q in Hs. now rewrite <- Hs, dec_Q_of_Z.
    + destruct (z <? quantity_min cfg); [cbn; eauto|].
      destruct (quantity_max cfg <? z); [cbn; eauto|].
      unfold parseFloat.
      destruct (strict_eq (of_Z z) (parseFloat_string (ToString v)));
        [discriminate|cbn; eauto].
Qed.

(** The price validator on the value it is handed. *)
Lemma validatePrice_spec (cfg : Config) (v : value) :
  (forall d,
     parseFloat v = Num d ->
     (dec_Q (price_min cfg) <= dec_Q d)%Q ->
     (dec_Q d <= dec_Q (price_max cfg))%Q -> (0 < dec_Q d)%Q ->
     validatePrice cfg v = accept (Number (Num d))) /\
  (isValid (validatePrice cfg v) = true ->
   exists d,
     parseFloat v = Num d /\
     (dec_Q (price_min cfg) <= dec_Q d)%Q /\
     (dec_Q d <= dec_Q (price_max cfg))%Q /\ (0 < dec_Q d)%Q) /\
  (isValid (validatePrice cfg v) = false ->
   sanitizedValue (validatePrice cfg v) = Null /\
   exists msg, errors (validatePrice cfg v) = [msg]).
Proof.
  unfold validatePrice.
  destruct (parseFloat v) as [|d|b] eqn:Hd; cbn [isNaN].
  - cbn. split; [discriminate|]. split; [discriminate|eauto].
  - unfold gt, of_Z.
    split; [|split].
    + intros d' Heq Hlo Hhi Hpos. injection Heq as <-.
      apply lt_Q_false in Hlo, Hhi. rewrite Hlo, Hhi.
      assert (Hz : le (Num d) (Num (Dec 0 0)) = false).
      { apply not_true_iff_false. rewrite le_Q, dec_Q_of_Z.
        now apply Qlt_not_le. }
      now rewrite Hz.
    + destruct (lt (Num d) (Num (price_min cfg))) eqn:Hlo; [discriminate|].
      destruct (lt (Num (price_max cfg)) (Num d)) eqn:Hhi; [discriminate|].
      destruct (le (Num d) (Num (Dec 0 0))) eqn:Hz; [discriminate|].
      intros _. exists d. apply lt_Q_false in Hlo, Hhi.
      repeat split; try assumption.
      apply Qnot_le_lt. rewrite <- (dec_Q_of_Z 0), <- le_Q. congruence.
    + destruct (lt (Num d) (Num (price_min cfg))); [cbn; eauto|].
      destruct (lt (Num (price_max cfg)) (Num d)); [cbn; eauto|].
      destruct (le (Num d) (Num (Dec 0 0))); [cbn; eauto|discriminate].
  - unfold gt. destruct b; cbn; (split; [discriminate|]);
      (split; [discriminate|eauto]).
Qed.

(** On an integer given as a number (below [10 ^ 21] in absolute value),
    quantity validation accepts exactly the integers within the limits. *)
Lemma quantity_of_integer_number (cfg : Config) (z : Z) :
  - 10 ^ 21 < z < 10 ^ 21 ->
  (quantity_min cfg <= z <= quantity_max cfg ->
   validateInput cfg (Number (of_Z z)) "quantity" no_options
   = accept (Number (of_Z z))) /\
  (isValid (validateInput cfg (Number (of_Z z)) "quantity" no_options) = true ->
   quantity_min cfg <= z <= quantity_max cfg).
Proof.
  intros Hz.
  change (validateInput cfg (Number (of_Z z)) "quantity" no_options)
    with (validateQuantity cfg (Number (of_Z z))).
  unfold validateQuantity.
  rewrite (parseInt_integer z Hz), (parseFloat_integer z Hz).
  cbn [isNaN of_Z]. fold (of_Z z). unfold gt. rewrite !lt_of_Z.
  assert (Hs : strict_eq (of_Z z) (of_Z z) = true).
  { unfold strict_eq. now rewrite compare_of_Z, Z.compare_refl. }
  rewrite Hs, isInteger_of_Z. cbn [negb orb].
  split.
  - intros [H1 H2]. apply Z.ltb_ge in H1, H2. now rewrite H1, H2.
  - destruct (z <? quantity_min cfg)%Z eqn:H1; [discriminate|].
    destruct (quantity_max cfg <? z)%Z eqn:H2; [discriminate|].
    intros _. apply Z.ltb_ge in H1, H2. lia.
Qed.







End ValidatorFacts.

(** ** The rate limiter *)

Module RateLimiterFacts.
Import JS InputValidator Vocabulary.

Lemma ceil_div_1000_spec (x : Z) :
  1000 * (ceil_div_1000 x - 1) < x <= 1000 * ceil_div_1000 x.
Proof.
  unfold ceil_div_1000.
  pose proof (Z.div_mod (- x) 1000 ltac:(lia)) as Hdm.
  pose proof (Z.mod_pos_bound (- x) 1000 ltac:(lia)) as Hb.
  lia.
Qed.

Lemma history_after_init (key : string) (limits : gmap string (list Z)) :
  default [] (match limits !! key with
              | Some _ => limits
              | None => <[key := []]> limits
              end !! key) = history key limits.
Proof.
  unfold history. destruct (limits !! key) as [l|] eqn:E; cbv iota.
  - now rewrite E.
  - now rewrite lookup_insert_eq.
Qed.

Lemma checkRateLimit_unfold (key : string) (N W now : Z)
    (limits : gmap string (list Z)) :
  checkRateLimit key N W now limits =
  let limits1 := match limits !! key with
                 | Some _ => limits
                 | None => <[key := []]> limits
                 end in
  let recent := retained key W now limits in
  if N <=? Z.of_nat (List.length recent) then
    (Rejected match recent with
              | oldest :: _ => of_Z (ceil_div_1000 (oldest + W - now))
              | [] => NaN
              end,
     <[key := recent]> limits1)
  else (Allowed, <[key := (recent ++ [now])%list]> limits1).
Proof.
  unfold checkRateLimit, retained. cbv zeta.
  now rewrite history_after_init.
Qed.

Lemma other_keys_untouched (key k : string) (v : list Z)
    (limits : gmap string (list Z)) :
  k <> key ->
  <[key := v]> (match limits !! key with
                | Some _ => limits
                | None => <[key := []]> limits
                end) !! k = limits !! k.
Proof.
  intros Hne. rewrite lookup_insert_ne by congruence.
  destruct (limits !! key); [reflexivity|].
  now rewrite lookup_insert_ne by congruence.
Qed.

Lemma head_of_sorted_filter (f : Z -> bool) (l : list Z) (oldest : Z)
    (rest : list Z) :
  StronglySorted Z.le l ->
  List.filter f l = oldest :: rest ->
  forall t, In t (oldest :: rest) -> oldest <= t.
Proof.
  intros Hs Hf.
  assert (Hs' : StronglySorted Z.le (List.filter f l)).
  { clear Hf. induction Hs as [|a l Hs IH Ha]; simpl; [constructor|].
    destruct (f a); [|exact IH].
    constructor; [exact IH|].
    rewrite List.Forall_forall in *. intros x Hx.
    apply List.filter_In in Hx. apply Ha, Hx. }
  rewrite Hf in Hs'. inversion Hs' as [|? ? _ Hall]; subst.
  intros t [<-|Ht]; [lia|].
  rewrite List.Forall_forall in Hall. now apply Hall.
Qed.

(** C5. With [maxRequests = N] and window [W]: the timestamps of the key
    that are not newer than [now - W] are discarded before counting; a call
    made while [N] retained timestamps are recorded is rejected, keeps
    exactly the retained timestamps, and (for [N >= 1]) reports the number of
    seconds, rounded up, until the first retained timestamp leaves the
    window, which is the oldest one when the history is in time order; a call
    made while fewer than [N] are retained is admitted and appends [now];
    other keys are untouched. *)
Theorem checkRateLimit_sliding_window (key : string) (N W now : Z)
    (limits : gmap string (list Z)) :
  let recent := retained key W now limits in
  let result := checkRateLimit key N W now limits in
  (forall t, In t recent <-> In t (history key limits) /\ now - W < t) /\
  (N <= Z.of_nat (List.length recent) ->
     allowed (fst result) = false /\
     history key (snd result) = recent /\
     (1 <= N -> recent <> []) /\
     (forall oldest rest, recent = oldest :: rest ->
        exists seconds,
          fst result = Rejected (of_Z seconds) /\
          1000 * (seconds - 1) < oldest + W - now <= 1000 * seconds /\
          (StronglySorted Z.le (history key limits) ->
           forall t, In t recent -> oldest <= t))) /\
  (Z.of_nat (List.length recent) < N ->
     fst result = Allowed /\
     history key (snd result) = (recent ++ [now])%list) /\
  (forall k, k <> key -> snd result !! k = limits !! k).
Proof.
  intros recent result. subst result.
  rewrite checkRateLimit_unfold. cbv zeta. fold recent.
  split; [|split; [|split]].
  - intros t. unfold recent, retained. rewrite List.filter_In.
    rewrite Z.ltb_lt. reflexivity.
  - intros HN. apply Z.leb_le in HN. rewrite HN. cbn [fst snd allowed].
    split; [reflexivity|]. split.
    { unfold history. now rewrite lookup_insert_eq. }
    split.
    { intros H1 ->. apply Z.leb_le in HN. cbn in HN. lia. }
    intros oldest rest Hrec. rewrite Hrec.
    exists (ceil_div_1000 (oldest + W - now)).
    split; [reflexivity|]. split; [apply ceil_div_1000_spec|].
    intros Hs t Ht.
    eapply head_of_sorted_filter; eauto.
  - intros HN. apply Z.leb_gt in HN. rewrite HN. cbn [fst snd].
    split; [reflexivity|]. unfold history. now rewrite lookup_insert_eq.
  - intros k Hk.
    destruct (N <=? Z.of_nat (List.length recent)); cbn [snd];
      now apply other_keys_untouched.
Qed.

Lemma checkRateLimit_sliding_window_witness :
  let limits : gmap string (list Z) := {[ "k" := [10000; 50000; 90000] ]} in
  2 <= Z.of_nat (List.length (retained "k" 60000 100000 limits)) /\
  allowed (fst (checkRateLimit "k" 2 60000 100000 limits)) = false /\
  history "k" (snd (checkRateLimit "k" 2 60000 100000 limits)) = [50000; 90000].
Proof.
  intros limits.
  assert (H : 2 <= Z.of_nat (List.length (retained "k" 60000 100000 limits)))
    by (vm_compute; discriminate).
  split; [exact H|].
  destruct (checkRateLimit_sliding_window "k" 2 60000 100000 limits)
    as (_ & Hrej & _).
  destruct (Hrej H) as (Ha & Hh & _).
  split; [exact Ha|]. rewrite Hh. vm_compute. reflexivity.
Defined.

Lemma filter_filter_window (lo lo' : Z) (l : list Z) :
  lo' <= lo ->
  List.filter (fun t => lo <? t) (List.filter (fun t => lo' <? t) l)
  = List.filter (fun t => lo <? t) l.
Proof.
  intros Hlo. induction l as [|a l IH]; [reflexivity|]. cbn [List.filter].
  destruct (lo' <? a) eqn:E1; cbn [List.filter]; rewrite IH; [reflexivity|].
  assert (E2 : (lo <? a) = false) by (apply Z.ltb_ge; apply Z.ltb_ge in E1; lia).
  now rewrite E2.
Qed.

Lemma history_insert (key : string) (v : list Z)
    (limits : gmap string (list Z)) :
  history key (<[key := v]> limits) = v.
Proof. unfold history. now rewrite lookup_insert_eq. Qed.

(** An admitted call adds one timestamp to what a later window retains. *)
Lemma admitted_call_counts (key : string) (N W t now : Z)
    (limits limits' : gmap string (list Z)) :
  checkRateLimit key N W t limits = (Allowed, limits') ->
  now - W < t <= now ->
  retained key W now limits' = (retained key W now limits ++ [t])%list.
Proof.
  intros Hcall Ht. rewrite checkRateLimit_unfold in Hcall. cbv zeta in Hcall.
  destruct (N <=? Z.of_nat (List.length (retained key W t limits)));
    [discriminate|].
  injection Hcall as <-. unfold retained at 1.
  rewrite history_insert, List.filter_app. unfold retained at 1.
  rewrite filter_filter_window by lia. cbn [List.filter].
  assert (E : (now - W <? t) = true) by (apply Z.ltb_lt; lia).
  now rewrite E.
Qed.

(** After calls that were all admitted inside one window of length [W]
    ending at [now], the window retains at least as many timestamps as
    there were calls; when there were [N] of them, the next call at [now] is
    rejected. *)
Lemma rolling_window (key : string) (N W now : Z) (times : list Z) :
  forall limits limits' : gmap string (list Z),
  admitted_calls key N W times limits = Some limits' ->
  (forall t, In t times -> now - W < t <= now) ->
  (List.length (retained key W now limits) + List.length times
   = List.length (retained key W now limits'))%nat /\
  (N <= Z.of_nat (List.length times) ->
   allowed (fst (checkRateLimit key N W now limits')) = false).
Proof.
  induction times as [|t rest IH]; intros limits limits' Hcalls Hin.
  - cbn in Hcalls. injection Hcalls as <-. split; [cbn; lia|].
    intros HN. rewrite checkRateLimit_unfold. cbv zeta.
    assert (E : (N <=? Z.of_nat (List.length (retained key W now limits))) = true)
      by (apply Z.leb_le; cbn in HN; lia).
    now rewrite E.
  - cbn [admitted_calls] in Hcalls.
    destruct (checkRateLimit key N W t limits) as [[|r] limits1] eqn:Hcall;
      [|discriminate].
    destruct (IH limits1 limits' Hcalls (fun x Hx => Hin x (or_intror Hx)))
      as (Hlen & _).
    rewrite (admitted_call_counts key N W t now limits limits1 Hcall
               (Hin t (or_introl eq_refl))) in Hlen.
    rewrite length_app in Hlen. cbn [List.length] in Hlen |- *.
    split; [lia|].
    intros HN. rewrite checkRateLimit_unfold. cbv zeta.
    assert (E : (N <=? Z.of_nat (List.length (retained key W now limits'))) = true)
      by (apply Z.leb_le; lia).
    now rewrite E.
Qed.

End RateLimiterFacts.

(** ** Sequential effects *)

Import Vocabulary.

Section MonadFacts.
Context {A B : Type}.

Lemma bind_Return (m : M A) (k : A -> M B) (w w' : World) (b : B) :
  bind m k w = (Return b, w') ->
  exists a w1, m w = (Return a, w1) /\ k a w1 = (Return b, w').
Proof.
  unfold bind. destruct (m w) as [[a|e] w1]; intros H; [eauto|discriminate].
Qed.

Lemma bind_of_Return (m : M A) (k : A -> M B) (w w1 : World) (a : A) :
  m w = (Return a, w1) -> bind m k w = k a w1.
Proof. unfold bind. now intros ->. Qed.

Lemma bind_of_Throw (m : M A) (k : A -> M B) (w w1 : World) (e : Exn) :
  m w = (Throw e, w1) -> bind m k w = (Throw e, w1).
Proof. unfold bind. now intros ->. Qed.

End MonadFacts.

(** Inversion of a run that returned: split the binds and take the branches
    that do not throw. *)
Ltac inv_run H :=
  repeat first
    [ apply bind_Return in H; destruct H as (? & ? & ? & H)
    | match type of H with
      | (match ?x with _ => _ end) _ = _ => destruct x eqn:?
      | (if ?b then _ else _) _ = _ => destruct b eqn:?
      | throw _ _ = (Return _, _) => discriminate H
      end ].

Lemma call_eq {A} (ev : Event) (answer : list Event -> Outcome A) (w : World) :
  call ev answer w = (answer (trace w), log w [ev]).
Proof. reflexivity. Qed.

Lemma log_log (w : World) (e1 e2 : list Event) :
  log (log w e1) e2 = log w (e1 ++ e2).
Proof. unfold log. cbn. now rewrite <- app_assoc. Qed.

(** ** Batch preparation *)

Module PreparationFacts.
Import JS Models MarketplaceService.

Section Preparation.
Variable cfg : Config.
Variable env : Env.

(** The loop never throws: an order that fails is skipped. *)
Lemma prepareLoop_returns (requests : list OrderRequest) :
  forall (acc : list ContractOrder) (w : World),
  exists orders w', prepareLoop cfg env requests acc w = (Return orders, w').
Proof.
  induction requests as [|request rest IH]; intros acc w; cbn [prepareLoop].
  - unfold ret. eauto.
  - unfold bind at 1. unfold try_catch.
    destruct (bind (prepareOrder cfg env request) _ w) as [[acc'|e] w1];
      [apply IH | unfold ret; apply IH].
Qed.

(** C3. A request list longer than [maxBatchSize] makes batch preparation
    throw its one error at once: the world is unchanged, so no request was
    processed and no external call was made, and nothing is truncated. A list
    of exactly [maxBatchSize] requests passes the cap and preparation
    returns a list. *)
Theorem batch_size_cap (orderRequests : list OrderRequest) (w : World) :
  (maxBatchSize cfg < Z.of_nat (List.length orderRequests) ->
   validateAndPrepareOrders cfg env orderRequests w =
   (Throw (Error ("Too many orders. Maximum " ++ Z_to_string (maxBatchSize cfg)
                  ++ " orders per batch.")), w)) /\
  (Z.of_nat (List.length orderRequests) <= maxBatchSize cfg ->
   validateAndPrepareOrders cfg env orderRequests w =
   prepareLoop cfg env orderRequests [] w /\
   exists orders w',
     validateAndPrepareOrders cfg env orderRequests w = (Return orders, w')).
Proof.
  unfold validateAndPrepareOrders. split; intros H.
  - apply Z.ltb_lt in H. now rewrite H.
  - apply Z.ltb_ge in H. rewrite H. split; [reflexivity|].
    apply prepareLoop_returns.
Qed.

(** Preparation keeps the surviving orders in the order of their requests,
    after the orders already pushed. *)
Lemma prepareLoop_survivors (requests : list OrderRequest) :
  forall (acc : list ContractOrder) (w : World),
  prepareLoop cfg env requests acc w =
  (Return (acc ++ fst (survivors cfg env requests w))%list,
   snd (survivors cfg env requests w)).
Proof.
  induction requests as [|request rest IH]; intros acc w;
    cbn [prepareLoop survivors].
  - unfold ret. cbn. now rewrite app_nil_r.
  - unfold bind at 1. unfold try_catch, bind at 1.
    destruct (prepareOrder cfg env request w) as [[order|e] w1].
    + unfold ret. rewrite IH.
      destruct (survivors cfg env rest w1) as [orders w2]. cbn [fst snd].
      now rewrite <- app_assoc.
    + unfold ret. now rewrite IH.
Qed.

(** What is known of an order that preparation keeps: its quantity passed
    quantity validation and does not exceed the balance that was read, its
    price and quantity came out of the conversions positive and within the
    widths of the contract, and its token identifier and side are those of
    the request. The token identifier and the price were not validated. *)
Lemma prepareOrder_Return (request : OrderRequest) (w w' : World)
    (order : ContractOrder) :
  prepareOrder cfg env request w = (Return order, w') ->
  exists balance n priceText,
    fst (getUserBalance env (rq_tokenId request) w)
    = Return {| ub_tokenId := rq_tokenId request; ub_balance := balance |} /\
    w' = snd (getUserBalance env (rq_tokenId request) w) /\
    InputValidator.validateInput cfg (rq_amount request) "quantity"
      InputValidator.no_options
    = InputValidator.accept (Number (of_Z n)) /\
    n <= balance /\
    toString (rq_priceInEth request) = Some priceText /\
    parseEther env priceText = Return (co_price order) /\
    bigNumberFrom env (rq_amount request) = Return (co_quantity order) /\
    0 < co_price order <= MAX_UINT72 /\
    0 < co_quantity order <= MAX_UINT24 /\
    co_tokenId order = rq_tokenId request /\
    co_side order
    = (if is_sell (if truthy (rq_side request) then rq_side request
                   else Str "sell") then 0 else 1).
Proof.
  unfold prepareOrder, new_MarketOrder, BaseModel, BaseModel_transform.
  intros H. apply bind_Return in H. destruct H as (wl & w0 & Hw & H).
  injection Hw as <- <-. cbn [mo_tokenId mo_quantity mo_price] in H.
  apply bind_Return in H. destruct H as (b & w1 & Hb & H).
  assert (Hbal : exists balance,
            b = {| ub_tokenId := rq_tokenId request; ub_balance := balance |}).
  { unfold getUserBalance, try_catch, new_UserBalance, BaseModel,
      BaseModel_transform in Hb.
    destruct (bind (get contracts) _ w) as [[b0|e0] w2] eqn:Hget.
    - injection Hb as <- <-. inv_run Hget; injection Hget as <- _; eauto.
    - injection Hb as <- <-. eauto. }
  destruct Hbal as (balance & ->).
  unfold canSell in H. cbn [ub_balance] in H.
  destruct (InputValidator.isValid _) eqn:Hv; cbn [negb] in H;
    [|discriminate].
  rewrite ValidatorFacts.validateInput_prepared in Hv, H.
  destruct (prepared cfg (rq_amount request)) as [v'|] eqn:Hp; [|discriminate].
  change (InputValidator.by_type cfg v' "quantity" InputValidator.no_options)
    with (InputValidator.validateQuantity cfg v') in *.
  destruct (ValidatorFacts.validateQuantity_spec cfg v') as (Hacc & Hinv & _).
  destruct (Hinv Hv) as (n & d & H1 & H2 & H3 & H4).
  rewrite (Hacc n d H1 H2 H3 H4) in H.
  cbn [InputValidator.sanitizedValue InputValidator.accept] in H.
  unfold gt in H. rewrite NumberFacts.lt_of_Z in H.
  destruct (balance <? n) eqn:Hn; [discriminate|]. apply Z.ltb_ge in Hn.
  apply bind_Return in H. destruct H as (t & w2 & Ht & H).
  destruct (toString (rq_priceInEth request)) as [t0|] eqn:Ets; [|discriminate].
  injection Ht as <- <-.
  apply bind_Return in H. destruct H as (price & w3 & Hpe & H).
  unfold lift in Hpe. injection Hpe as Hpe <-.
  apply bind_Return in H. destruct H as (q & w4 & Hbn & H).
  unfold lift in Hbn. injection Hbn as Hbn <-.
  apply bind_Return in H. destruct H as (u & w5 & Hlim & H).
  injection H as <- <-.
  unfold validateContractLimits in Hlim. cbn [co_price co_quantity] in Hlim.
  destruct (MAX_UINT72 <? price) eqn:L1; [discriminate|].
  destruct (MAX_UINT24 <? q) eqn:L2; [discriminate|].
  destruct (price <=? 0) eqn:L3; [discriminate|].
  destruct (q <=? 0) eqn:L4; [discriminate|].
  injection Hlim as _ <-.
  apply Z.ltb_ge in L1, L2. apply Z.leb_gt in L3, L4.
  exists balance, n, t0. rewrite Hb. cbn [fst snd co_price co_quantity co_tokenId co_side].
  rewrite ValidatorFacts.validateInput_prepared, Hp.
  change (InputValidator.by_type cfg v' "quantity" InputValidator.no_options)
    with (InputValidator.validateQuantity cfg v').
  rewrite (Hacc n d H1 H2 H3 H4).
  repeat split; try assumption; try lia.
Qed.

(** With a minimum quantity of at least 1, nothing can be sold from a
    balance of 0: a quantity that validation accepts is refused as
    exceeding the balance, any other as invalid. *)
Lemma canSell_zero_balance (tokenId quantity : value) :
  1 <= quantity_min cfg ->
  let b := {| ub_tokenId := tokenId; ub_balance := 0 |} in
  let r := InputValidator.validateInput cfg quantity "quantity"
             InputValidator.no_options in
  (InputValidator.isValid r = false ->
   canSell cfg b quantity = CannotSell "Invalid quantity") /\
  (InputValidator.isValid r = true ->
   exists n,
     1 <= n /\ InputValidator.sanitizedValue r = Number (of_Z n) /\
     canSell cfg b quantity
     = CannotSell ("Insufficient balance. Have: 0, Need: "
                   ++ number_to_string (of_Z n))).
Proof.
  intros Hmin b r. subst b r. unfold canSell. cbn [ub_balance].
  split.
  - now intros ->.
  - intros Hv. rewrite Hv. cbn [negb].
    rewrite ValidatorFacts.validateInput_prepared in Hv |- *.
    destruct (prepared cfg quantity) as [v'|]; [|discriminate].
    change (InputValidator.by_type cfg v' "quantity" InputValidator.no_options)
      with (InputValidator.validateQuantity cfg v') in *.
    destruct (ValidatorFacts.validateQuantity_spec cfg v') as (Hacc & Hinv & _).
    destruct (Hinv Hv) as (n & d & H1 & H2 & H3 & H4).
    rewrite (Hacc n d H1 H2 H3 H4). cbn [InputValidator.sanitizedValue InputValidator.accept].
    exists n. split; [lia|]. split; [reflexivity|].
    unfold gt. rewrite NumberFacts.lt_of_Z.
    assert (Hn : (0 <? n) = true) by (apply Z.ltb_lt; lia).
    now rewrite Hn.
Qed.

(** C10. With both contracts set and a minimum quantity of at least 1: when
    the balance read of a request throws, [#getUserBalance] returns a
    balance of 0 instead of throwing; the request is then dropped, as
    exceeding the balance when its quantity passes validation (it is then at
    least 1); and preparation goes on with the other requests, the orders
    kept so far unchanged. *)
Theorem balance_read_failure_drops_request (request : OrderRequest)
    (rest : list OrderRequest) (acc : list ContractOrder) (w : World)
    (e : Exn) :
  contracts w = Initialized ->
  1 <= quantity_min cfg ->
  balanceOf env (trace w) (wallet_address (wallet w)) (rq_tokenId request)
  = Throw e ->
  let w1 := log w [balance_read w request] in
  getUserBalance env (rq_tokenId request) w
  = (Return {| ub_tokenId := rq_tokenId request; ub_balance := 0 |}, w1) /\
  (forall n,
     InputValidator.validateInput cfg (rq_amount request) "quantity"
       InputValidator.no_options
     = InputValidator.accept (Number (of_Z n)) ->
     1 <= n /\
     prepareOrder cfg env request w
     = (Throw (Error ("Insufficient balance. Have: 0, Need: "
                      ++ number_to_string (of_Z n) ++ " for token "
                      ++ ToString (rq_tokenId request))), w1)) /\
  (exists e', prepareOrder cfg env request w = (Throw e', w1)) /\
  prepareLoop cfg env (request :: rest) acc w
  = prepareLoop cfg env rest acc w1 /\
  exists orders w', prepareLoop cfg env (request :: rest) acc w
                    = (Return (acc ++ orders)%list, w').
Proof.
  intros Hc Hmin Hb w1.
  assert (Hget : getUserBalance env (rq_tokenId request) w
                 = (Return {| ub_tokenId := rq_tokenId request; ub_balance := 0 |}, w1)).
  { unfold getUserBalance, try_catch, bind, get, call, ret.
    cbn [contracts trace wallet]. now rewrite Hc, Hb. }
  assert (Hprep : forall reason,
            canSell cfg {| ub_tokenId := rq_tokenId request; ub_balance := 0 |}
              (rq_amount request) = CannotSell reason ->
            prepareOrder cfg env request w
            = (Throw (Error (reason ++ " for token "
                             ++ ToString (rq_tokenId request))), w1)).
  { intros reason Hr. unfold prepareOrder. unfold bind at 1. unfold get.
    unfold new_MarketOrder, BaseModel, BaseModel_transform.
    cbn [mo_tokenId mo_quantity].
    rewrite (bind_of_Return _ _ _ _ _ Hget). now rewrite Hr. }
  destruct (canSell_zero_balance (rq_tokenId request) (rq_amount request) Hmin)
    as (Hinvalid & Hvalid).
  assert (Hdrop : exists e', prepareOrder cfg env request w = (Throw e', w1)).
  { destruct (InputValidator.isValid
                (InputValidator.validateInput cfg (rq_amount request)
                   "quantity" InputValidator.no_options)) eqn:Hv.
    - destruct (Hvalid eq_refl) as (n & _ & _ & Hr). eauto.
    - eauto. }
  split; [exact Hget|]. split; [|split; [exact Hdrop|]].
  - intros n Hacc. rewrite Hacc in Hvalid.
    destruct (Hvalid eq_refl) as (n' & Hn & Hs & Hr).
    cbn in Hs. injection Hs as <-. split; [exact Hn|].
    rewrite (Hprep _ Hr). reflexivity.
  - assert (Hloop : prepareLoop cfg env (request :: rest) acc w
                    = prepareLoop cfg env rest acc w1).
    { destruct Hdrop as (e' & He'). cbn [prepareLoop].
      unfold bind at 1. unfold try_catch.
      now rewrite (bind_of_Throw _ _ _ _ _ He'). }
    split; [exact Hloop|]. rewrite Hloop, prepareLoop_survivors. eauto.
Qed.

End Preparation.
End PreparationFacts.

(** ** Approval and submission *)

Module SubmissionFacts.
Import JS Models MarketplaceService.

Lemma log_nil (w : World) : log w [] = w.
Proof. destruct w. unfold log. cbn. now rewrite app_nil_r. Qed.



Section Submission.
Variable cfg : Config.
Variable env : Env.

(** One attempt: the three calls of [attempt_outcome], in a world where the
    marketplace contract is set. *)
Lemma submit_eq (orders : list ContractOrder) (note : option string)
    (w : World) :
  contracts w <> NotInitialized ->
  submit cfg env orders note w =
  (match fst (attempt_outcome cfg env (trace w) orders) with
   | Return (hash, receipt) =>
       Return {| br_txHash := hash;
                 br_blockNumber := rc_blockNumber receipt;
                 br_gasUsed := Z_to_string (rc_gasUsed receipt);
                 br_note := note |}
   | Throw e => Throw e
   end,
   log w (snd (attempt_outcome cfg env (trace w) orders))).
Proof.
  intros Hc. unfold submit, attempt_outcome, bind, get, call, ret, gas_limit.
  cbn [contracts trace rateLimits wallet clockReads].
  destruct (contracts w) eqn:Ec; [congruence| |];
    (destruct (estimateGas env (trace w) orders) as [g|e]; cbn [fst snd];
     [|unfold log; now rewrite Ec]);
    (destruct (limitOrders env _ orders _) as [h|e]; cbn [fst snd];
     [|unfold log; now rewrite Ec, <- app_assoc]);
    rewrite <- !app_assoc; cbn [app];
    (destruct (wait env _ h) as [r|e]; cbn [fst snd];
     unfold log; now rewrite Ec).
Qed.






(** *** Approval *)

Lemma ensureApprovals_eq (orders : list ContractOrder) (w : World) :
  contracts w = Initialized ->
  ensureApprovals cfg env orders w =
  match isApprovedForAll env (trace w) (wallet_address (wallet w))
          (marketplaceAddress cfg) with
  | Throw e => (Throw (approval_error e), log w [approval_query cfg w])
  | Return true => (Return tt, log w [approval_query cfg w])
  | Return false =>
      match setApprovalForAll env (trace w ++ [approval_query cfg w])
              (marketplaceAddress cfg) true with
      | Throw e =>
          (Throw (approval_error e),
           log w [approval_query cfg w; approval_tx cfg])
      | Return _ =>
          match waitApproval env
                  (trace w ++ [approval_query cfg w; approval_tx cfg]) with
          | Throw e =>
              (Throw (approval_error e),
               log w [approval_query cfg w; approval_tx cfg; EvWaitApproval])
          | Return _ =>
              (Return tt,
               log w [approval_query cfg w; approval_tx cfg; EvWaitApproval])
          end
      end
  end.
Proof.
  intros Hc. unfold ensureApprovals, try_catch, bind, get, call, throw, ret.
  unfold approval_query, approval_tx, approval_error, log.
  cbn [contracts trace rateLimits wallet clockReads]. rewrite Hc.
  destruct (isApprovedForAll env (trace w) (wallet_address (wallet w))
              (marketplaceAddress cfg)) as [[|]|e];
    cbn [negb contracts trace rateLimits wallet clockReads];
    try (now rewrite ?Hc).
  match goal with
  | |- context [setApprovalForAll env ?t ?o ?b] =>
      destruct (setApprovalForAll env t o b) as [u|e]
  end;
    cbn [contracts trace rateLimits wallet clockReads];
    rewrite <- ?app_assoc; cbn [app]; [|now rewrite ?Hc].
  match goal with
  | |- context [waitApproval env ?t] => destruct (waitApproval env t) as [u'|e]
  end; [destruct u'|]; now rewrite ?Hc.
Qed.



(** *** The whole call *)

Lemma Date_now_eq (w : World) :
  Date_now env w = (Return (clock env (clockReads w)), tick w).
Proof. reflexivity. Qed.

Lemma body_split (orderRequests : list OrderRequest) (w : World) :
  createBatchOrders_body cfg env orderRequests w =
  bind (prepare cfg env orderRequests) (finish cfg env) w.
Proof.
  unfold createBatchOrders_body, prepare, finish, success_result,
    new_TransactionResult, BaseModel, BaseModel_transform.
  unfold bind, get, throw, ret. cbn beta iota.
  repeat match goal with
         | |- context [match ?x with _ => _ end] => destruct x
         end; reflexivity.
Qed.

Lemma createBatchOrders_eq (orderRequests : list OrderRequest) (w : World) :
  createBatchOrders cfg env orderRequests w =
  match createBatchOrders_body cfg env orderRequests w with
  | (Return r, w') => (Return r, w')
  | (Throw e, w') =>
      (Return (failure_result e (clock env (clockReads w'))), tick w')
  end.
Proof. reflexivity. Qed.

Lemma finish_Return (orders : list ContractOrder) (w w' : World)
    (r : TransactionResult) :
  finish cfg env orders w = (Return r, w') ->
  exists result now, r = success_result orders result now.
Proof.
  unfold finish. intros H.
  apply bind_Return in H. destruct H as (_ & w1 & _ & H).
  apply bind_Return in H. destruct H as (result & w2 & _ & H).
  apply bind_Return in H. destruct H as (now & w3 & _ & H).
  injection H as <- _. eauto.
Qed.


(** C9. With both contracts set: when the operator is already approved,
    [#ensureApprovals] makes the one query and no transaction, and so does
    a second call right after it; when it is not approved, exactly one
    [setApprovalForAll] transaction is made, a normal return means that its
    confirmation was awaited and came, and a failure of the query, of the
    transaction or of its confirmation is thrown at once, nothing being
    tried again. Inside [createBatchOrders] such a failure ends the call
    with a failed result and no further external call. *)
Theorem ensureApprovals_idempotent (orders : list ContractOrder) (w : World) :
  contracts w = Initialized ->
  let owner := wallet_address (wallet w) in
  let operator := marketplaceAddress cfg in
  let q := approval_query cfg w in
  let tx := approval_tx cfg in
  (isApprovedForAll env (trace w) owner operator = Return true ->
   ensureApprovals cfg env orders w = (Return tt, log w [q]) /\
   approvals [q] = [] /\
   (isApprovedForAll env (trace w ++ [q]) owner operator = Return true ->
    bind (ensureApprovals cfg env orders)
         (fun _ => ensureApprovals cfg env orders) w
    = (Return tt, log w [q; q]) /\
    approvals [q; q] = [])) /\
  (isApprovedForAll env (trace w) owner operator = Return false ->
   exists o evs,
     ensureApprovals cfg env orders w = (o, log w (q :: tx :: evs)) /\
     approvals (q :: tx :: evs) = [tx] /\
     (o = Return tt ->
      evs = [EvWaitApproval] /\
      waitApproval env (trace w ++ [q; tx]) = Return tt) /\
     (forall e, setApprovalForAll env (trace w ++ [q]) operator true = Throw e ->
                o = Throw (approval_error e) /\ evs = []) /\
     (forall e, setApprovalForAll env (trace w ++ [q]) operator true = Return tt ->
                waitApproval env (trace w ++ [q; tx]) = Throw e ->
                o = Throw (approval_error e) /\ evs = [EvWaitApproval])) /\
  (forall orderRequests w0 e w',
     prepare cfg env orderRequests w0 = (Return orders, w) ->
     ensureApprovals cfg env orders w = (Throw e, w') ->
     createBatchOrders cfg env orderRequests w0
     = (Return (failure_result e (clock env (clockReads w'))), tick w')).
Proof.
  intros Hc owner operator q tx. subst owner operator q tx.
  split; [|split].
  - intros Hq. rewrite (ensureApprovals_eq orders w Hc), Hq.
    split; [reflexivity|]. split; [reflexivity|]. intros Hq2.
    erewrite bind_of_Return
      by (rewrite (ensureApprovals_eq orders w Hc), Hq; reflexivity).
    rewrite (ensureApprovals_eq orders (log w _) Hc).
    cbn [trace log wallet]. rewrite Hq2, log_log. split; reflexivity.
  - intros Hq. rewrite (ensureApprovals_eq orders w Hc), Hq.
    destruct (setApprovalForAll env _ _ _) as [[]|e].
    + destruct (waitApproval env _) as [[]|e'].
      * exists (Return tt), [EvWaitApproval].
        split; [reflexivity|]. split; [reflexivity|].
        split; [intros _; now split|].
        split; [intros e0 He0; discriminate|].
        intros e0 _ He0. discriminate.
      * exists (Throw (approval_error e')), [EvWaitApproval].
        split; [reflexivity|]. split; [reflexivity|].
        split; [intros He0; discriminate|].
        split; [intros e0 He0; discriminate|].
        intros e0 _ He0. now injection He0 as <-.
    + exists (Throw (approval_error e)), [].
      split; [reflexivity|]. split; [reflexivity|].
      split; [intros He0; discriminate|].
      split; [intros e0 He0; now injection He0 as <-|].
      intros e0 He0. discriminate.
  - intros orderRequests w0 e w' Hprep Happ.
    rewrite createBatchOrders_eq, body_split.
    rewrite (bind_of_Return _ _ _ _ _ Hprep). unfold finish.
    now rewrite (bind_of_Throw _ _ _ _ _ Happ).
Qed.


(** A call over the rate limit is answered with a failed result before
    any external call. *)
Lemma rate_limited (orderRequests : list OrderRequest) (w : World)
    (resetTime : number) :
  fst (InputValidator.checkRateLimit (rate_key (wallet w)) 5 60000
         (clock env (clockReads w)) (rateLimits w))
  = InputValidator.Rejected resetTime ->
  exists w',
    createBatchOrders cfg env orderRequests w
    = (Return (failure_result
                 (Error ("Rate limit exceeded. Try again in "
                         ++ number_to_string resetTime ++ " seconds."))
                 (clock env (S (clockReads w)))), w') /\
    trace w' = trace w.
Proof.
  intros Hr. rewrite createBatchOrders_eq. unfold createBatchOrders_body.
  unfold bind at 1. unfold get at 1. unfold bind at 1.
  unfold checkRateLimit, bind at 1. rewrite Date_now_eq.
  unfold bind at 1, get at 1. cbn [rateLimits tick clockReads wallet].
  destruct (InputValidator.checkRateLimit _ _ _ _ _) as [r limits'].
  cbn [fst] in Hr. subst r. unfold bind, set_rateLimits, ret, throw.
  cbn [clockReads trace]. eauto.
Qed.

(** X20. A call that the limiter admits while no wallet is connected is
    answered with the failed result [Wallet not connected] before any
    external call. *)
Lemma wallet_not_connected (orderRequests : list OrderRequest) (w : World) :
  fst (InputValidator.checkRateLimit (rate_key (wallet w)) 5 60000
         (clock env (clockReads w)) (rateLimits w))
  = InputValidator.Allowed ->
  isConnected (wallet w) = false ->
  exists w',
    createBatchOrders cfg env orderRequests w
    = (Return (failure_result (Error "Wallet not connected")
                 (clock env (S (clockReads w)))), w') /\
    trace w' = trace w.
Proof.
  intros Hr Hw. rewrite createBatchOrders_eq. unfold createBatchOrders_body.
  unfold bind at 1. unfold get at 1. unfold bind at 1.
  unfold checkRateLimit, bind at 1. rewrite Date_now_eq.
  unfold bind at 1, get at 1. cbn [rateLimits tick clockReads wallet].
  destruct (InputValidator.checkRateLimit _ _ _ _ _) as [r limits'].
  cbn [fst] in Hr. subst r. unfold bind, set_rateLimits, ret.
  rewrite Hw. cbn [negb]. unfold throw. cbn [clockReads trace]. eauto.
Qed.

(** The [note] of the result of [createBatchOrders] is never set. *)
Lemma createBatchOrders_note (orderRequests : list OrderRequest)
    (w w' : World) (r : TransactionResult) :
  createBatchOrders cfg env orderRequests w = (Return r, w') -> note r = None.
Proof.
  rewrite createBatchOrders_eq.
  destruct (createBatchOrders_body cfg env orderRequests w) as [[r0|e] w1] eqn:Hb.
  - intros H. injection H as <- _.
    rewrite body_split in Hb. apply bind_Return in Hb.
    destruct Hb as (orders & w2 & _ & Hf).
    apply finish_Return in Hf. now destruct Hf as (result & now & ->).
  - intros H. now injection H as <- _.
Qed.


End Submission.
End SubmissionFacts.

(** ** Scenarios *)

Module Scenarios.
Import JS Models MarketplaceService Fixtures.
Import PreparationFacts SubmissionFacts.

(** The end-to-end example: balance 3 at token 7, no prior approval, a
    submitter that succeeds at once. One approval transaction, one batch
    submission, a successful result for one order. *)
Example end_to_end :
  let env := chain (balances [(7, 3)]) false 0 in
  let outcome := createBatchOrders baseConfig env [sell 7 (Dec 15 (-1)) 3] start in
  fst outcome = Return {| success := true; txHash := Some "0xfeed";
                      blockNumber := Some 4242; gasUsed := Some "90000";
                      ordersCreated := Some 1; error := None; note := None;
                      timestamp := 1700000000001 |} /\
  approvals (trace (snd outcome))
  = [EvSetApprovalForAll (marketplaceAddress baseConfig) true] /\
  estimates (trace (snd outcome)) = [[order7]].
Proof. vm_compute. repeat split. Qed.

(** The example of the specification for batch preparation: balances 10 at
    token 1 and 1 at token 2, quantities 5 and 100. *)
Example insufficient_balance_dropped :
  let env := chain (balances [(1, 10); (2, 1)]) true 0 in
  fst (validateAndPrepareOrders baseConfig env
         [sell 1 (Dec 15 (-1)) 5; sell 2 (Dec 15 (-1)) 100] ready)
  = Return [{| co_side := 0; co_tokenId := Number (of_Z 1);
               co_price := 1500000000000000000; co_quantity := 5 |}].
Proof. vm_compute. reflexivity. Qed.

(** At the cap: fifty requests are all prepared. *)
Example cap_boundary :
  let env := chain (balances [(7, 3)]) true 0 in
  option_map (@List.length ContractOrder)
    match fst (validateAndPrepareOrders baseConfig env
                 (repeat (sell 7 (Dec 15 (-1)) 3) 50) ready) with
    | Return orders => Some orders
    | Throw _ => None
    end
  = Some 50%nat.
Proof. vm_compute. reflexivity. Qed.

(** C4 fails on the code. With the default three retries, let the three
    attempts on the sell side fail and the first attempt on the buy side
    succeed. The submitter returns its note about the buy orders, and
    [createBatchOrders] builds its result without it: the call succeeds
    with no note. *)
Theorem buy_fallback_note_dropped :
  let env := chain (balances [(7, 3)]) true 3 in
  let outcome := createBatchOrders baseConfig env [sell 7 (Dec 15 (-1)) 3] start in
  let w1 := snd (prepare baseConfig env [sell 7 (Dec 15 (-1)) 3] start) in
  let w2 := snd (ensureApprovals baseConfig env [order7] w1) in
  estimates (trace (snd outcome))
  = [[order7]; [order7]; [order7]; [flip_to_buy order7]] /\
  fst (executeBatchTransaction baseConfig env [order7] w2)
  = Return {| br_txHash := "0xfeed"; br_blockNumber := 4242;
              br_gasUsed := "90000"; br_note := Some buy_note |} /\
  fst outcome = Return {| success := true; txHash := Some "0xfeed";
                      blockNumber := Some 4242; gasUsed := Some "90000";
                      ordersCreated := Some 1; error := None; note := None;
                      timestamp := 1700000000001 |}.
Proof. vm_compute. repeat split. Qed.

(** C8 fails on the code. Of two requests, the first is for token 0, which
    the validation of token identifiers refuses (the least identifier is
    1), and the second, for token 7, is valid and within its balance. The
    validation that [MarketOrder] declares refuses the first request, but
    constructing the order runs none of it, and with a balance of 10 at
    token 0 both requests are kept. *)
Theorem unvalidated_request_kept :
  let env := chain (balances [(0, 10); (7, 20000000)]) true 0 in
  let first := sell 0 (Dec 15 (-1)) 3 in
  let second := sell 7 (Dec 15 (-1)) 5 in
  MarketOrder_validate baseConfig
    {| mo_tokenId := rq_tokenId first; mo_side := rq_side first;
       mo_price := rq_priceInEth first; mo_quantity := rq_amount first;
       mo_user := Str user |}
  = Throw (Error "Invalid tokenId: Token ID must be at least 1") /\
  fst (validateAndPrepareOrders baseConfig env [first; second] ready)
  = Return [{| co_side := 0; co_tokenId := Number (of_Z 0);
               co_price := 1500000000000000000; co_quantity := 3 |};
            {| co_side := 0; co_tokenId := Number (of_Z 7);
               co_price := 1500000000000000000; co_quantity := 5 |}].
Proof. vm_compute. split; reflexivity. Qed.

Lemma batch_size_cap_witness :
  let env := chain (balances [(7, 3)]) true 0 in
  maxBatchSize baseConfig < Z.of_nat (List.length (repeat (sell 7 (Dec 15 (-1)) 3) 51)) /\
  fst (validateAndPrepareOrders baseConfig env
         (repeat (sell 7 (Dec 15 (-1)) 3) 51) ready)
  = Throw (Error "Too many orders. Maximum 50 orders per batch.").
Proof.
  intros env.
  assert (H : maxBatchSize baseConfig
              < Z.of_nat (List.length (repeat (sell 7 (Dec 15 (-1)) 3) 51)))
    by (vm_compute; reflexivity).
  split; [exact H|].
  destruct (batch_size_cap baseConfig env (repeat (sell 7 (Dec 15 (-1)) 3) 51) ready)
    as (Hcap & _).
  now rewrite (Hcap H).
Defined.

Lemma balance_read_failure_drops_request_witness :
  let env := chain (balances [(7, 3)]) true 0 in
  let lost := sell 9 (Dec 15 (-1)) 1 in
  contracts ready = Initialized /\
  1 <= quantity_min baseConfig /\
  balanceOf env (trace ready) (wallet_address (wallet ready)) (rq_tokenId lost)
  = Throw (Error "call revert exception") /\
  prepareLoop baseConfig env [lost; sell 7 (Dec 15 (-1)) 3] [] ready
  = prepareLoop baseConfig env [sell 7 (Dec 15 (-1)) 3] []
      (log ready [balance_read ready lost]).
Proof.
  intros env lost.
  assert (H1 : contracts ready = Initialized) by reflexivity.
  assert (H2 : 1 <= quantity_min baseConfig) by (vm_compute; discriminate).
  assert (H3 : balanceOf env (trace ready) (wallet_address (wallet ready))
                 (rq_tokenId lost) = Throw (Error "call revert exception"))
    by reflexivity.
  split; [exact H1|]. split; [exact H2|]. split; [exact H3|].
  destruct (balance_read_failure_drops_request baseConfig env lost
              [sell 7 (Dec 15 (-1)) 3] [] ready _ H1 H2 H3)
    as (_ & _ & _ & Hloop & _).
  exact Hloop.
Defined.

Lemma ensureApprovals_idempotent_witness :
  let env := chain (balances [(7, 3)]) true 0 in
  contracts ready = Initialized /\
  isApprovedForAll env (trace ready) (wallet_address (wallet ready))
    (marketplaceAddress baseConfig) = Return true /\
  ensureApprovals baseConfig env [order7] ready
  = (Return tt, log ready [approval_query baseConfig ready]).
Proof.
  intros env.
  assert (H1 : contracts ready = Initialized) by reflexivity.
  split; [exact H1|]. split; [reflexivity|].
  destruct (ensureApprovals_idempotent baseConfig env [order7] ready H1)
    as (Happroved & _).
  now destruct (Happroved eq_refl) as (Hrun & _).
Defined.


End Scenarios.

(** ** The sanitizer *)

Module SanitizerFacts.
Import JS InputValidator DigitFacts.

Lemma lit_single (c : ascii) (s : string) :
  lit (String c EmptyString) s
  = match s with
    | String b _ => if Ascii.eqb c b then Some 1%nat else None
    | EmptyString => None
    end.
Proof.
  unfold lit. destruct s as [|b s]; simpl; [reflexivity|].
  now destruct (Ascii.eqb c b).
Qed.

(** A code unit of [s.replace(/c/g, r)] comes from [r], or from [s] and is
    not [c]. *)
Lemma replace_char_chars (c : ascii) (r : string) :
  forall (s : string) (skip : nat) (x : ascii),
  In x (list_ascii_of_string (replace_go (lit (String c EmptyString)) r skip s)) ->
  In x (list_ascii_of_string r) \/ (In x (list_ascii_of_string s) /\ x <> c).
Proof.
  induction s as [|a s IH]; intros skip x Hx.
  - destruct skip; simpl in Hx; contradiction.
  - destruct skip as [|k].
    + cbn [replace_go] in Hx. rewrite lit_single in Hx.
      destruct (Ascii.eqb c a) eqn:E.
      * rewrite chars_app in Hx. apply in_app_or in Hx.
        destruct Hx as [Hx|Hx]; [now left|].
        apply IH in Hx. destruct Hx as [Hx|[Hx Hne]]; [now left|].
        right. split; [now right|exact Hne].
      * simpl in Hx. destruct Hx as [<-|Hx].
        -- right. split; [now left|].
           intros ->. now rewrite Ascii.eqb_refl in E.
        -- apply IH in Hx. destruct Hx as [Hx|[Hx Hne]]; [now left|].
           right. split; [now right|exact Hne].
    + cbn [replace_go] in Hx. apply IH in Hx.
      destruct Hx as [Hx|[Hx Hne]]; [now left|].
      right. split; [now right|exact Hne].
Qed.

Lemma escapeHtml_chars (s : string) (x : ascii) :
  In x (list_ascii_of_string (escapeHtml s)) -> ~ markup x.
Proof.
  unfold escapeHtml, replace_all, dquote. intros H.
  apply replace_char_chars in H. destruct H as [H|[H N5]].
  { simpl in H. unfold markup. intuition (subst; discriminate). }
  apply replace_char_chars in H. destruct H as [H|[H N4]].
  { simpl in H. unfold markup. intuition (subst; discriminate). }
  apply replace_char_chars in H. destruct H as [H|[H N3]].
  { simpl in H. unfold markup. intuition (subst; discriminate). }
  apply replace_char_chars in H. destruct H as [H|[H N2]].
  { simpl in H. unfold markup. intuition (subst; discriminate). }
  unfold markup. intuition.
Qed.

(** X1. Whatever the input, the text that [sanitizeHtml] returns
    contains none of the code units [<], [>], double quote and single
    quote. *)
Theorem sanitizeHtml_leaves_no_markup (input : string) (x : ascii) :
  In x (list_ascii_of_string (sanitizeHtml input)) ->
  x <> "<"%char /\ x <> ">"%char /\ x <> ascii_of_N 34 /\ x <> "'"%char.
Proof.
  unfold sanitizeHtml. intros H. apply escapeHtml_chars in H.
  unfold markup in H. tauto.
Qed.

End SanitizerFacts.

Module ValidatorShape.
Import JS InputValidator NumberFacts DigitFacts ValidatorFacts SanitizerFacts.

Lemma validateTokenId_spec (cfg : Config) (v : value) :
  (forall n,
     parseInt v = of_Z n -> tokenId_min cfg <= n <= tokenId_max cfg ->
     validateTokenId cfg v = accept (Number (of_Z n))) /\
  (isValid (validateTokenId cfg v) = true ->
   exists n, parseInt v = of_Z n /\ tokenId_min cfg <= n <= tokenId_max cfg) /\
  (isValid (validateTokenId cfg v) = false ->
   sanitizedValue (validateTokenId cfg v) = Null /\
   exists msg, errors (validateTokenId cfg v) = [msg]).
Proof.
  unfold validateTokenId, parseInt.
  destruct (parseInt_string_cases (ToString v)) as [Hn | [z Hz]].
  - rewrite Hn. cbn. split; [discriminate|]. split; [discriminate|eauto].
  - rewrite Hz. cbn [isNaN of_Z]. fold (of_Z z).
    unfold gt. rewrite !lt_of_Z.
    split; [|split].
    + intros n Heq [Hlo Hhi]. injection Heq as <-.
      apply Z.ltb_ge in Hlo, Hhi. now rewrite Hlo, Hhi.
    + destruct (z <? tokenId_min cfg) eqn:Hlo; [discriminate|].
      destruct (tokenId_max cfg <? z) eqn:Hhi; [discriminate|].
      intros _. apply Z.ltb_ge in Hlo, Hhi. exists z. split; [reflexivity|lia].
    + destruct (z <? tokenId_min cfg); [cbn; eauto|].
      destruct (tokenId_max cfg <? z); [cbn; eauto|discriminate].
Qed.

Lemma well_formed_reject (type msg : string) : well_formed type (reject msg).
Proof. split; cbn; [eauto|discriminate]. Qed.

Lemma by_type_well_formed (cfg : Config) (v : value) (type : string)
    (options : Options) :
  well_formed type (by_type cfg v type options).
Proof.
  unfold by_type.
  destruct (String.eqb type "price") eqn:E1.
  { apply String.eqb_eq in E1. subst type.
    destruct (validatePrice_spec cfg v) as (Hacc & Hinv & Hrej).
    split; [exact Hrej|]. intros Hv.
    destruct (Hinv Hv) as (d & H1 & H2 & H3 & H4).
    rewrite (Hacc d H1 H2 H3 H4). cbn. split; [reflexivity|]. left. eauto. }
  destruct (String.eqb type "quantity") eqn:E2.
  { apply String.eqb_eq in E2. subst type.
    destruct (validateQuantity_spec cfg v) as (Hacc & Hinv & Hrej).
    split; [exact Hrej|]. intros Hv.
    destruct (Hinv Hv) as (n & d & H1 & H2 & H3 & H4).
    rewrite (Hacc n d H1 H2 H3 H4). cbn. split; [reflexivity|].
    right. left. eauto. }
  destruct (String.eqb type "tokenId") eqn:E3.
  { apply String.eqb_eq in E3. subst type.
    destruct (validateTokenId_spec cfg v) as (Hacc & Hinv & Hrej).
    split; [exact Hrej|]. intros Hv.
    destruct (Hinv Hv) as (n & H1 & H2).
    rewrite (Hacc n H1 H2). cbn. split; [reflexivity|].
    right. left. eauto. }
  destruct (String.eqb type "address") eqn:E4.
  { apply String.eqb_eq in E4. subst type. unfold validateAddress.
    destruct v; try apply well_formed_reject.
    destruct (address_format s); [|apply well_formed_reject].
    split; cbn; [discriminate|]. intros _. split; [reflexivity|].
    right. right. eauto. }
  destruct (String.eqb type "text") eqn:E5.
  { apply String.eqb_eq in E5. subst type. unfold validateText.
    destruct v; try apply well_formed_reject.
    assert (Hok : well_formed "text" (accept (Str (sanitizeHtml s)))).
    { split; cbn; [discriminate|]. intros _. split; [reflexivity|].
      right. right. eauto. }
    destruct (opt_minLength options) as [n|].
    - destruct (negb (n =? 0) && (strlen s <? n)); [apply well_formed_reject|].
      destruct (existsb _ _); [apply well_formed_reject|exact Hok].
    - destruct (existsb _ _); [apply well_formed_reject|exact Hok]. }
  apply well_formed_reject.
Qed.

(** X2. For every value, kind and options, the result of
    [validateInput] is either a rejection, with a null value and exactly one
    error, or an acceptance, with no error and a value of the type of its
    kind: a finite positive number for a price, an integer for a quantity
    or a token identifier, a string for an address or a text. An unknown
    kind is always rejected. *)
Theorem validateInput_result_shape (cfg : Config) (v : value) (type : string)
    (options : Options) :
  let r := validateInput cfg v type options in
  (isValid r = false -> sanitizedValue r = Null /\ exists msg, errors r = [msg]) /\
  (isValid r = true ->
   errors r = [] /\
   ((type = "price" /\
     exists d, sanitizedValue r = Number (Num d) /\ (0 < dec_Q d)%Q) \/
    ((type = "quantity" \/ type = "tokenId") /\
     exists n, sanitizedValue r = Number (of_Z n)) \/
    ((type = "address" \/ type = "text") /\
     exists s, sanitizedValue r = Str s))).
Proof.
  cbv zeta. change (well_formed type (validateInput cfg v type options)).
  unfold validateInput. destruct v; try apply by_type_well_formed.
  match goal with |- context [if ?c then _ else _] => destruct c end;
    [apply well_formed_reject|].
  destruct (opt_sanitizeHtml options) as [[|]|]; apply by_type_well_formed.
Qed.

(** X4. Validation of a token identifier accepts an input exactly
    when [parseInt] reads, at the start of the text it is handed, an integer
    [n] within the limits of the configuration, and it returns [n]: unlike
    a quantity, a fractional or trailing part is dropped without a check. *)
Theorem tokenId_validation (cfg : Config) (v : value) :
  let r := validateInput cfg v "tokenId" no_options in
  (forall v' n,
     prepared cfg v = Some v' -> parseInt v' = of_Z n ->
     tokenId_min cfg <= n <= tokenId_max cfg ->
     r = accept (Number (of_Z n))) /\
  (isValid r = true ->
   exists v' n,
     prepared cfg v = Some v' /\ parseInt v' = of_Z n /\
     tokenId_min cfg <= n <= tokenId_max cfg /\
     r = accept (Number (of_Z n))).
Proof.
  cbv zeta. rewrite validateInput_prepared.
  destruct (prepared cfg v) as [v'|] eqn:Hp.
  - change (by_type cfg v' "tokenId" no_options) with (validateTokenId cfg v').
    destruct (validateTokenId_spec cfg v') as (Hacc & Hinv & _).
    split.
    + intros v'' n Hv'' Hn Hb. injection Hv'' as <-. exact (Hacc n Hn Hb).
    + intros Hv. destruct (Hinv Hv) as (n & Hn & Hb).
      exists v', n. repeat split; try assumption; try lia. exact (Hacc n Hn Hb).
  - split; [discriminate|]. cbn. discriminate.
Qed.

(** X3. A text that [validateInput] accepts is a string; what is
    returned for it is the trimmed string sanitized twice (once when the
    [sanitizeHtml] option is set to false), it carries no error, and it
    contains none of [<], [>], double quote and single quote. *)
Theorem text_validation_output (cfg : Config) (v : value) (options : Options) :
  let r := validateInput cfg v "text" options in
  isValid r = true ->
  exists s t,
    v = Str s /\ sanitizedValue r = Str t /\ errors r = [] /\
    t = (if match opt_sanitizeHtml options with Some false => false | _ => true end
         then sanitizeHtml (sanitizeHtml (trim s))
         else sanitizeHtml (trim s)) /\
    forall x, In x (list_ascii_of_string t) ->
      x <> "<"%char /\ x <> ">"%char /\ x <> ascii_of_N 34 /\ x <> "'"%char.
Proof.
  cbv zeta. unfold validateInput.
  assert (Hrej : forall msg, isValid (reject msg) = true -> False) by discriminate.
  assert (Htext : forall u,
    isValid (by_type cfg (Str u) "text" options) = true ->
    by_type cfg (Str u) "text" options = accept (Str (sanitizeHtml u))).
  { intros u. change (by_type cfg (Str u) "text" options)
      with (validateText (Str u) options).
    unfold validateText.
    destruct (opt_minLength options) as [n|].
    - destruct (negb (n =? 0) && (strlen u <? n)); [discriminate|].
      now destruct (existsb _ _).
    - now destruct (existsb _ _). }
  destruct v as [| |b|n|s]; try discriminate.
  match goal with |- context [if ?c then _ else _] => destruct c end;
    [discriminate|].
  destruct (opt_sanitizeHtml options) as [[|]|]; intros Hv;
    rewrite (Htext _ Hv); cbn;
    eexists _, _; (split; [reflexivity|]); (split; [reflexivity|]);
    (split; [reflexivity|]); (split; [reflexivity|]);
    intros x Hx; apply escapeHtml_chars in Hx; unfold markup in Hx; tauto.
Qed.

End ValidatorShape.

(** ** Addresses *)

Module AddressFacts.
Import JS InputValidator NumberFacts DigitFacts ValidatorFacts.

Lemma strip_prefix_foreign (eqc : ascii -> ascii -> bool) (a : ascii) :
  forall (p s : string),
  In a (list_ascii_of_string p) ->
  (forall b, In b (list_ascii_of_string s) -> eqc a b = false) ->
  strip_prefix eqc p s = None.
Proof.
  induction p as [|c p IH]; intros s Ha Hs; [destruct Ha|].
  destruct s as [|b s]; [reflexivity|]. simpl.
  destruct (eqc c b) eqn:E; [|reflexivity].
  destruct Ha as [->|Ha].
  - rewrite (Hs b) in E; [discriminate|now left].
  - apply IH; [exact Ha|]. intros b' Hb'. apply Hs. now right.
Qed.

Lemma replace_go_foreign (P : ascii -> bool) (m : matcher) (r : string) :
  (forall t, forallb P (list_ascii_of_string t) = true -> m t = None) ->
  forall s : string,
  forallb P (list_ascii_of_string s) = true -> replace_go m r O s = s.
Proof.
  intros Hm. induction s as [|a s IH]; intros Hs; [reflexivity|].
  cbn [replace_go]. rewrite (Hm _ Hs).
  simpl in Hs. apply andb_true_iff in Hs. f_equal. now apply IH.
Qed.

Ltac by_cases_on_unit :=
  let b := fresh "b" in
  intros b; destruct b as [[] [] [] [] [] [] [] []]; intros H;
  (discriminate H || (split; reflexivity)).

Lemma foreign_lt : foreign "<". Proof. by_cases_on_unit. Qed.
Lemma foreign_gt : foreign ">". Proof. by_cases_on_unit. Qed.
Lemma foreign_amp : foreign "&". Proof. by_cases_on_unit. Qed.
Lemma foreign_quot : foreign (ascii_of_N 34). Proof. by_cases_on_unit. Qed.
Lemma foreign_apos : foreign "'". Proof. by_cases_on_unit. Qed.
Lemma foreign_colon : foreign ":". Proof. by_cases_on_unit. Qed.
Lemma foreign_o : foreign "o". Proof. by_cases_on_unit. Qed.

Lemma units_In (s : string) (b : ascii) :
  forallb address_unit (list_ascii_of_string s) = true ->
  In b (list_ascii_of_string s) -> address_unit b = true.
Proof. intros H. now apply forallb_forall. Qed.

Lemma strip_ci_foreign (a : ascii) (p t : string) :
  foreign a -> In a (list_ascii_of_string p) ->
  forallb address_unit (list_ascii_of_string t) = true ->
  strip_prefix eq_ci p t = None.
Proof.
  intros Hf Ha Ht. apply (strip_prefix_foreign eq_ci a); [exact Ha|].
  intros b Hb. now apply Hf, (units_In t).
Qed.

Lemma strip_eqb_foreign (a : ascii) (p t : string) :
  foreign a -> In a (list_ascii_of_string p) ->
  forallb address_unit (list_ascii_of_string t) = true ->
  strip_prefix Ascii.eqb p t = None.
Proof.
  intros Hf Ha Ht. apply (strip_prefix_foreign Ascii.eqb a); [exact Ha|].
  intros b Hb. now apply Hf, (units_In t).
Qed.

(** [sanitizeHtml] leaves a string of address code units as it is. *)
Lemma sanitizeHtml_units (s : string) :
  forallb address_unit (list_ascii_of_string s) = true -> sanitizeHtml s = s.
Proof.
  intros Hs. unfold sanitizeHtml, escapeHtml, replace_all.
  assert (H1 : replace_go script_element EmptyString 0 s = s).
  { apply (replace_go_foreign address_unit); [|exact Hs]. intros t Ht.
    unfold script_element.
    now rewrite (strip_ci_foreign "<" "<script" t foreign_lt) by (simpl; auto). }
  rewrite H1.
  assert (H2 : replace_go (lit_ci "javascript:") EmptyString 0 s = s).
  { apply (replace_go_foreign address_unit); [|exact Hs]. intros t Ht.
    unfold lit_ci.
    now rewrite (strip_ci_foreign ":" "javascript:" t foreign_colon)
      by (simpl; auto 20). }
  rewrite H2.
  assert (H3 : replace_go event_handler EmptyString 0 s = s).
  { apply (replace_go_foreign address_unit); [|exact Hs]. intros t Ht.
    unfold event_handler.
    now rewrite (strip_ci_foreign "o" "on" t foreign_o) by (simpl; auto). }
  rewrite H3.
  assert (H4 : replace_go (lit_ci "data:") EmptyString 0 s = s).
  { apply (replace_go_foreign address_unit); [|exact Hs]. intros t Ht.
    unfold lit_ci.
    now rewrite (strip_ci_foreign ":" "data:" t foreign_colon)
      by (simpl; auto 20). }
  rewrite H4.
  assert (H5 : replace_go (lit_ci "vbscript:") EmptyString 0 s = s).
  { apply (replace_go_foreign address_unit); [|exact Hs]. intros t Ht.
    unfold lit_ci.
    now rewrite (strip_ci_foreign ":" "vbscript:" t foreign_colon)
      by (simpl; auto 20). }
  rewrite H5.
  assert (E : forall a r, foreign a ->
            replace_go (lit (String a EmptyString)) r 0 s = s).
  { intros a r Ha. apply (replace_go_foreign address_unit); [|exact Hs].
    intros t Ht. unfold lit.
    now rewrite (strip_eqb_foreign a (String a EmptyString) t Ha)
      by (simpl; auto). }
  rewrite (E _ _ foreign_amp), (E _ _ foreign_lt), (E _ _ foreign_gt).
  unfold dquote. now rewrite (E _ _ foreign_quot), (E _ _ foreign_apos).
Qed.

Lemma unit_not_space (c : ascii) : address_unit c = true -> is_space c = false.
Proof.
  destruct c as [[] [] [] [] [] [] [] []]; intros H;
    (discriminate H || reflexivity).
Qed.

Lemma to_lower_unit (c : ascii) :
  address_unit c = true -> address_unit (to_lower c) = true.
Proof.
  destruct c as [[] [] [] [] [] [] [] []]; intros H;
    (discriminate H || reflexivity).
Qed.

Lemma to_lower_hex (c : ascii) : is_hex c = true -> is_hex (to_lower c) = true.
Proof.
  destruct c as [[] [] [] [] [] [] [] []]; intros H;
    (discriminate H || reflexivity).
Qed.

Lemma to_lower_idempotent (c : ascii) : to_lower (to_lower c) = to_lower c.
Proof. destruct c as [[] [] [] [] [] [] [] []]; reflexivity. Qed.

Lemma chars_toLowerCase (s : string) :
  list_ascii_of_string (toLowerCase s) = map to_lower (list_ascii_of_string s).
Proof. unfold toLowerCase. apply list_ascii_of_string_of_list_ascii. Qed.

Lemma toLowerCase_idempotent (s : string) :
  toLowerCase (toLowerCase s) = toLowerCase s.
Proof.
  unfold toLowerCase at 1. rewrite chars_toLowerCase, map_map.
  unfold toLowerCase. f_equal. apply map_ext. apply to_lower_idempotent.
Qed.

Lemma trimStart_no_space (s : string) :
  forallb (fun c => negb (is_space c)) (list_ascii_of_string s) = true ->
  trimStart s = s.
Proof.
  destruct s as [|c s]; [reflexivity|]. simpl. intros H.
  apply andb_true_iff in H. destruct H as [H _].
  now destruct (is_space c).
Qed.

Lemma trim_no_space (s : string) :
  forallb (fun c => negb (is_space c)) (list_ascii_of_string s) = true ->
  trim s = s.
Proof.
  intros H. unfold trim, trimEnd. rewrite (trimStart_no_space s H).
  rewrite trimStart_no_space; [apply reverse_involutive|].
  unfold reverse. rewrite list_ascii_of_string_of_list_ascii.
  rewrite forallb_forall in *. intros c Hc. apply H. now apply in_rev.
Qed.

Lemma units_no_space (s : string) :
  forallb address_unit (list_ascii_of_string s) = true ->
  forallb (fun c => negb (is_space c)) (list_ascii_of_string s) = true.
Proof.
  rewrite !forallb_forall. intros H c Hc. now rewrite unit_not_space by auto.
Qed.

Lemma address_format_inv (a : string) :
  address_format a = true ->
  exists rest,
    a = String "0" (String "x" rest) /\ String.length rest = 40%nat /\
    forallb is_hex (list_ascii_of_string rest) = true.
Proof.
  destruct a as [|c0 a]; [discriminate|].
  destruct c0 as [[] [] [] [] [] [] [] []];
    try (intros H; cbn in H; discriminate H).
  destruct a as [|c1 rest]; [discriminate|].
  destruct c1 as [[] [] [] [] [] [] [] []];
    try (intros H; cbn in H; discriminate H).
  unfold address_format. intros H. apply andb_true_iff in H.
  destruct H as [Hl Hh]. apply Nat.eqb_eq in Hl. now exists rest.
Qed.

Lemma address_format_units (a : string) :
  address_format a = true ->
  forallb address_unit (list_ascii_of_string a) = true /\ strlen a = 42.
Proof.
  intros H. destruct (address_format_inv a H) as (rest & -> & Hl & Hh). split.
  - cbn [list_ascii_of_string forallb].
    change (address_unit "0") with true. change (address_unit "x") with true.
    cbn [andb]. rewrite forallb_forall in *. intros c Hc.
    unfold address_unit. now rewrite Hh.
  - unfold strlen. cbn [String.length]. rewrite Hl. reflexivity.
Qed.

Lemma length_chars (s : string) :
  List.length (list_ascii_of_string s) = String.length s.
Proof. induction s; simpl; congruence. Qed.

Lemma length_toLowerCase (s : string) :
  String.length (toLowerCase s) = String.length s.
Proof.
  now rewrite <- !length_chars, chars_toLowerCase, length_map.
Qed.

Lemma address_format_toLowerCase (a : string) :
  address_format a = true -> address_format (toLowerCase a) = true.
Proof.
  intros H. destruct (address_format_inv a H) as (rest & -> & Hl & Hh).
  change (toLowerCase (String "0" (String "x" rest)))
    with (String "0" (String "x" (toLowerCase rest))).
  unfold address_format.
  rewrite length_toLowerCase, Hl, chars_toLowerCase. cbn [andb Nat.eqb].
  rewrite forallb_forall in *. intros c Hc.
  apply in_map_iff in Hc. destruct Hc as (c' & <- & Hc').
  now apply to_lower_hex, Hh.
Qed.

(** Validation of a string in canonical form. *)
Lemma validate_canonical (cfg : Config) (a : string) :
  42 <= maxInputLength cfg -> address_format a = true ->
  validateInput cfg (Str a) "address" no_options = accept (Str (toLowerCase a)).
Proof.
  intros Hmax Ha. destruct (address_format_units a Ha) as [Hu Hlen].
  rewrite validateInput_prepared. unfold prepared.
  rewrite (trim_no_space a (units_no_space a Hu)), Hlen.
  destruct (maxInputLength cfg <? 42) eqn:E; [apply Z.ltb_lt in E; lia|].
  rewrite (sanitizeHtml_units a Hu).
  change (by_type cfg (Str a) "address" no_options)
    with (validateAddress (Str a)).
  unfold validateAddress. now rewrite Ha.
Qed.

(** X7. When the length cap is at least 42, a string that is, once
    trimmed, [0x] followed by forty hexadecimal digits is accepted as an
    address and returned in lower case; validating the returned address
    again gives the same result. *)
Theorem well_formed_address_accepted (cfg : Config) (s : string) :
  42 <= maxInputLength cfg ->
  address_format (trim s) = true ->
  let r := validateInput cfg (Str s) "address" no_options in
  r = accept (Str (toLowerCase (trim s))) /\
  validateInput cfg (sanitizedValue r) "address" no_options = r.
Proof.
  intros Hmax Ha. cbv zeta.
  destruct (address_format_units _ Ha) as [Hu Hlen].
  assert (Hr : validateInput cfg (Str s) "address" no_options
               = accept (Str (toLowerCase (trim s)))).
  { rewrite validateInput_prepared. unfold prepared. rewrite Hlen.
    destruct (maxInputLength cfg <? 42) eqn:E; [apply Z.ltb_lt in E; lia|].
    rewrite (sanitizeHtml_units _ Hu).
    change (by_type cfg (Str (trim s)) "address" no_options)
      with (validateAddress (Str (trim s))).
    unfold validateAddress. now rewrite Ha. }
  rewrite Hr. split; [reflexivity|]. cbn [sanitizedValue accept].
  rewrite (validate_canonical cfg _ Hmax (address_format_toLowerCase _ Ha)).
  now rewrite toLowerCase_idempotent.
Qed.

(** X6. Whatever the input and the options, an address that
    [validateInput] accepts is returned as [0x] followed by forty
    hexadecimal digits, in lower case. *)
Theorem accepted_address_is_canonical (cfg : Config) (v : value)
    (options : Options) :
  let r := validateInput cfg v "address" options in
  isValid r = true ->
  exists a,
    r = accept (Str a) /\ address_format a = true /\ toLowerCase a = a.
Proof.
  cbv zeta.
  assert (Haddr : forall u,
    isValid (by_type cfg (Str u) "address" options) = true ->
    exists a, by_type cfg (Str u) "address" options = accept (Str a) /\
              address_format a = true /\ toLowerCase a = a).
  { intros u. change (by_type cfg (Str u) "address" options)
      with (validateAddress (Str u)).
    unfold validateAddress. destruct (address_format u) eqn:Hu; [|discriminate].
    intros _. exists (toLowerCase u).
    split; [reflexivity|]. split; [now apply address_format_toLowerCase|].
    apply toLowerCase_idempotent. }
  unfold validateInput. destruct v as [| |b|n|s]; try discriminate.
  match goal with |- context [if ?c then _ else _] => destruct c end;
    [discriminate|].
  destruct (opt_sanitizeHtml options) as [[|]|]; apply Haddr.
Qed.

End AddressFacts.

(** ** Invariants of the rate limiter *)

Module RateLimiterInvariants.
Import JS InputValidator RateLimiterFacts.

Lemma retained_length (key : string) (W now : Z) (limits : gmap string (list Z)) :
  (List.length (retained key W now limits) <= List.length (history key limits))%nat.
Proof. unfold retained. apply List.filter_length_le. Qed.

Lemma retained_all (key : string) (W now : Z) (limits : gmap string (list Z)) :
  (forall t, In t (history key limits) -> now - W < t) ->
  retained key W now limits = history key limits.
Proof.
  unfold retained. intros H. induction (history key limits) as [|a l IH];
    [reflexivity|]. cbn [List.filter].
  assert (E : (now - W <? a) = true) by (apply Z.ltb_lt, H; now left).
  rewrite E. f_equal. apply IH. intros t Ht. apply H. now right.
Qed.

Lemma retained_none (key : string) (W now : Z) (limits : gmap string (list Z)) :
  (forall t, In t (history key limits) -> t <= now - W) ->
  retained key W now limits = [].
Proof.
  unfold retained. intros H. induction (history key limits) as [|a l IH];
    [reflexivity|]. cbn [List.filter].
  assert (E : (now - W <? a) = false)
    by (apply Z.ltb_ge, H; now left).
  rewrite E. apply IH. intros t Ht. apply H. now right.
Qed.

(** While there is room, calls are admitted, and the history grows by the
    times of the calls that a later window still retains. *)
Lemma admitted_while_room (key : string) (N W now : Z) (times : list Z) :
  forall limits : gmap string (list Z),
  Z.of_nat (List.length (history key limits) + List.length times) <= N ->
  (forall t, In t (history key limits) -> now - W < t) ->
  (forall t, In t times -> now - W < t <= now) ->
  exists limits',
    admitted_calls key N W times limits = Some limits' /\
    history key limits' = (history key limits ++ times)%list.
Proof.
  induction times as [|t rest IH]; intros limits Hroom Hold Hin.
  - exists limits. split; [reflexivity|]. now rewrite app_nil_r.
  - cbn [admitted_calls]. rewrite checkRateLimit_unfold. cbv zeta.
    assert (Hall : retained key W t limits = history key limits).
    { apply retained_all. intros x Hx.
      specialize (Hold x Hx). specialize (Hin t (or_introl eq_refl)). lia. }
    rewrite Hall.
    assert (E : (N <=? Z.of_nat (List.length (history key limits))) = false).
    { apply Z.leb_gt. cbn [List.length] in Hroom. lia. }
    rewrite E.
    set (limits1 := <[key := (history key limits ++ [t])%list]> _).
    assert (H1 : history key limits1 = (history key limits ++ [t])%list)
      by apply history_insert.
    destruct (IH limits1) as (limits' & Hcalls & Hh).
    + rewrite H1, length_app. cbn [List.length] in *. lia.
    + rewrite H1. intros x Hx. apply in_app_or in Hx.
      destruct Hx as [Hx|[<-|[]]]; [now apply Hold|].
      apply (Hin t). now left.
    + intros x Hx. apply Hin. now right.
    + exists limits'. split; [exact Hcalls|].
      rewrite Hh, H1, <- app_assoc. reflexivity.
Qed.

(** X8. From an empty history, [N] calls for a key made inside one
    window are all admitted and recorded in order, and a call made at the
    end of that window is rejected and leaves the history as it is. *)
Theorem burst_limit (key : string) (N W now : Z) (times : list Z)
    (limits : gmap string (list Z)) :
  history key limits = [] ->
  Z.of_nat (List.length times) = N ->
  (forall t, In t times -> now - W < t <= now) ->
  exists limits',
    admitted_calls key N W times limits = Some limits' /\
    history key limits' = times /\
    allowed (fst (checkRateLimit key N W now limits')) = false /\
    history key (snd (checkRateLimit key N W now limits')) = times.
Proof.
  intros Hfresh Hlen Hin.
  destruct (admitted_while_room key N W now times limits) as (limits' & Hc & Hh).
  - rewrite Hfresh. cbn [List.length]. lia.
  - rewrite Hfresh. intros t [].
  - exact Hin.
  - rewrite Hfresh in Hh. cbn [app] in Hh.
    exists limits'. split; [exact Hc|]. split; [exact Hh|].
    rewrite checkRateLimit_unfold. cbv zeta.
    assert (Hall : retained key W now limits' = times).
    { rewrite retained_all; [exact Hh|]. rewrite Hh. intros t Ht.
      apply Hin in Ht. lia. }
    rewrite Hall.
    assert (E : (N <=? Z.of_nat (List.length times)) = true)
      by (apply Z.leb_le; lia).
    rewrite E. cbn [fst snd allowed]. split; [reflexivity|].
    apply history_insert.
Qed.

(** X9. With [maxRequests >= 1], a call for a key whose recorded
    timestamps have all left the window (or that has none) is admitted, and
    the history of the key becomes the one timestamp of the call. *)
Theorem idle_key_is_admitted (key : string) (N W now : Z)
    (limits : gmap string (list Z)) :
  1 <= N ->
  (forall t, In t (history key limits) -> t <= now - W) ->
  fst (checkRateLimit key N W now limits) = Allowed /\
  history key (snd (checkRateLimit key N W now limits)) = [now].
Proof.
  intros HN Hold. rewrite checkRateLimit_unfold. cbv zeta.
  rewrite (retained_none key W now limits Hold). cbn [List.length].
  assert (E : (N <=? Z.of_nat 0) = false) by (apply Z.leb_gt; lia).
  rewrite E. cbn [fst snd app]. split; [reflexivity|]. apply history_insert.
Qed.

(** X10. After any call, every timestamp stored for the key is one
    that was stored before and is still inside the window, or the time of
    the call; the history is no longer than the larger of [maxRequests] and
    its length before, so a history of at most [maxRequests] timestamps
    stays so. *)
Theorem history_pruned_and_bounded (key : string) (N W now : Z)
    (limits : gmap string (list Z)) :
  let after := history key (snd (checkRateLimit key N W now limits)) in
  (forall t, In t after ->
     (In t (history key limits) /\ now - W < t) \/ t = now) /\
  Z.of_nat (List.length after)
  <= Z.max N (Z.of_nat (List.length (history key limits))) /\
  (Z.of_nat (List.length (history key limits)) <= N ->
   Z.of_nat (List.length after) <= N).
Proof.
  cbv zeta. rewrite checkRateLimit_unfold. cbv zeta.
  pose proof (retained_length key W now limits) as Hlen.
  assert (Hin : forall t, In t (retained key W now limits) ->
                  In t (history key limits) /\ now - W < t).
  { intros t Ht. unfold retained in Ht. apply List.filter_In in Ht.
    now rewrite Z.ltb_lt in Ht. }
  destruct (N <=? Z.of_nat (List.length (retained key W now limits))) eqn:E;
    cbn [snd]; rewrite history_insert.
  - split; [intros t Ht; left; now apply Hin|]. lia.
  - apply Z.leb_gt in E. rewrite length_app. cbn [List.length].
    split; [|lia].
    intros t Ht. apply in_app_or in Ht.
    destruct Ht as [Ht|[<-|[]]]; [left; now apply Hin|now right].
Qed.

Lemma sorted_filter (f : Z -> bool) (l : list Z) :
  StronglySorted Z.le l -> StronglySorted Z.le (List.filter f l).
Proof.
  induction 1 as [|a l Hs IH Ha]; simpl; [constructor|].
  destruct (f a); [|exact IH].
  constructor; [exact IH|].
  rewrite List.Forall_forall in *. intros x Hx.
  apply List.filter_In in Hx. apply Ha, Hx.
Qed.

Lemma sorted_snoc (l : list Z) (x : Z) :
  StronglySorted Z.le l -> (forall t, In t l -> t <= x) ->
  StronglySorted Z.le (l ++ [x]).
Proof.
  induction 1 as [|a l Hs IH Ha]; intros Hx; simpl.
  - constructor; constructor.
  - constructor.
    + apply IH. intros t Ht. apply Hx. now right.
    + rewrite List.Forall_forall in *. intros t Ht. apply in_app_or in Ht.
      destruct Ht as [Ht|[<-|[]]]; [now apply Ha|]. apply Hx. now left.
Qed.

(** X11. When the history of a key is in time order and holds no
    timestamp later than the time of the call, it is still so after the
    call. *)
Theorem history_stays_in_time_order (key : string) (N W now : Z)
    (limits : gmap string (list Z)) :
  StronglySorted Z.le (history key limits) ->
  (forall t, In t (history key limits) -> t <= now) ->
  let after := history key (snd (checkRateLimit key N W now limits)) in
  StronglySorted Z.le after /\ (forall t, In t after -> t <= now).
Proof.
  intros Hs Hle. cbv zeta. rewrite checkRateLimit_unfold. cbv zeta.
  assert (Hs' : StronglySorted Z.le (retained key W now limits))
    by now apply sorted_filter.
  assert (Hle' : forall t, In t (retained key W now limits) -> t <= now).
  { intros t Ht. apply Hle. unfold retained in Ht.
    now apply List.filter_In in Ht. }
  destruct (N <=? Z.of_nat (List.length (retained key W now limits)));
    cbn [snd]; rewrite history_insert.
  - now split.
  - split; [now apply sorted_snoc|].
    intros t Ht. apply in_app_or in Ht.
    destruct Ht as [Ht|[<-|[]]]; [now apply Hle'|lia].
Qed.

Lemma rejected_reset_time (key : string) (N W now : Z)
    (limits : gmap string (list Z)) :
  1 <= N ->
  (forall t, In t (history key limits) -> t <= now) ->
  allowed (fst (checkRateLimit key N W now limits)) = false ->
  exists seconds,
    fst (checkRateLimit key N W now limits) = Rejected (of_Z seconds) /\
    1 <= seconds <= ceil_div_1000 W.
Proof.
  intros HN Hle. rewrite checkRateLimit_unfold. cbv zeta.
  destruct (N <=? Z.of_nat (List.length (retained key W now limits))) eqn:E;
    [|discriminate].
  intros _. cbn [fst]. apply Z.leb_le in E.
  destruct (retained key W now limits) as [|oldest rest] eqn:Hr;
    [cbn in E; lia|].
  assert (Hin : In oldest (retained key W now limits))
    by (rewrite Hr; now left).
  unfold retained in Hin. apply List.filter_In in Hin.
  destruct Hin as [Hh Hw]. apply Z.ltb_lt in Hw. apply Hle in Hh.
  exists (ceil_div_1000 (oldest + W - now)). split; [reflexivity|].
  pose proof (ceil_div_1000_spec (oldest + W - now)).
  pose proof (ceil_div_1000_spec W). lia.
Qed.

(** X12. With [maxRequests >= 1] and no recorded timestamp later
    than the time of the call, the [resetTime] of a rejection is a whole
    number of seconds between 1 and the length of the window in seconds,
    rounded up. *)
Theorem reset_time_bounds (key : string) (N W now : Z)
    (limits : gmap string (list Z)) :
  1 <= N ->
  (forall t, In t (history key limits) -> t <= now) ->
  allowed (fst (checkRateLimit key N W now limits)) = false ->
  exists seconds,
    fst (checkRateLimit key N W now limits) = Rejected (of_Z seconds) /\
    1 <= seconds <= ceil_div_1000 W.
Proof. exact (rejected_reset_time key N W now limits). Qed.

End RateLimiterInvariants.

(** ** The orders that preparation keeps *)

Module BatchFacts.
Import JS Models MarketplaceService.
Import PreparationFacts SubmissionFacts.

Section Batch.
Variable cfg : Config.
Variable env : Env.

Lemma getUserBalance_eq (tokenId : value) (w : World) :
  getUserBalance env tokenId w =
  match contracts w with
  | Initialized =>
      (Return {| ub_tokenId := tokenId;
                 ub_balance :=
                   match balanceOf env (trace w) (wallet_address (wallet w)) tokenId with
                   | Return b => b
                   | Throw _ => 0
                   end |},
       log w [EvBalanceOf (wallet_address (wallet w)) tokenId])
  | _ => (Return {| ub_tokenId := tokenId; ub_balance := 0 |}, w)
  end.
Proof.
  unfold getUserBalance, try_catch, bind, get, call, ret, throw,
    new_UserBalance, BaseModel, BaseModel_transform, log.
  destruct (contracts w) eqn:Hc; try reflexivity.
  destruct (balanceOf env (trace w) (wallet_address (wallet w)) tokenId);
    now rewrite Hc.
Qed.

(** Whatever becomes of a request, the only trace it leaves is its balance
    read. *)
Lemma prepareOrder_world (request : OrderRequest) (w : World) :
  snd (prepareOrder cfg env request w)
  = snd (getUserBalance env (rq_tokenId request) w).
Proof.
  unfold prepareOrder, new_MarketOrder, BaseModel, BaseModel_transform.
  unfold bind at 1. unfold get at 1. cbn [mo_tokenId mo_quantity mo_price].
  unfold bind at 1.
  destruct (getUserBalance env (rq_tokenId request) w) as [[b|e] w1] eqn:Hb;
    [|reflexivity].
  cbn [snd]. destruct (canSell cfg b (rq_amount request)); [|reflexivity].
  unfold bind at 1.
  destruct (toString (rq_priceInEth request)); [|reflexivity].
  unfold ret at 1. unfold bind at 1, lift at 1.
  destruct (parseEther env s); [|reflexivity].
  unfold bind at 1, lift at 1.
  destruct (bigNumberFrom env (rq_amount request)); [|reflexivity].
  unfold bind at 1, validateContractLimits. cbn [co_price co_quantity].
  destruct (MAX_UINT72 <? a); [reflexivity|].
  destruct (MAX_UINT24 <? a0); [reflexivity|].
  destruct (a <=? 0); [reflexivity|].
  destruct (a0 <=? 0); reflexivity.
Qed.

Lemma survivors_world_initialized (requests : list OrderRequest) :
  forall w : World,
  contracts w = Initialized ->
  snd (survivors cfg env requests w) = log w (map (balance_read w) requests).
Proof.
  induction requests as [|request rest IH]; intros w Hc; cbn [survivors map].
  - now rewrite log_nil.
  - pose proof (prepareOrder_world request w) as Hw.
    rewrite getUserBalance_eq, Hc in Hw. cbn [snd] in Hw.
    destruct (prepareOrder cfg env request w) as [[order|e] w1];
      cbn [snd] in Hw; subst w1.
    + specialize (IH (log w [EvBalanceOf (wallet_address (wallet w)) (rq_tokenId request)]) Hc).
      destruct (survivors cfg env rest _) as [orders w2]. cbn [snd] in *.
      rewrite IH, log_log. reflexivity.
    + rewrite IH by exact Hc. rewrite log_log. reflexivity.
Qed.

Lemma prepareOrder_uninitialized (request : OrderRequest) (w : World) :
  contracts w <> Initialized -> 1 <= quantity_min cfg ->
  exists e, prepareOrder cfg env request w = (Throw e, w).
Proof.
  intros Hc Hmin.
  assert (Hget : getUserBalance env (rq_tokenId request) w
                 = (Return {| ub_tokenId := rq_tokenId request; ub_balance := 0 |}, w)).
  { rewrite getUserBalance_eq. now destruct (contracts w). }
  assert (Hprep : forall reason,
            canSell cfg {| ub_tokenId := rq_tokenId request; ub_balance := 0 |}
              (rq_amount request) = CannotSell reason ->
            prepareOrder cfg env request w
            = (Throw (Error (reason ++ " for token "
                             ++ ToString (rq_tokenId request))), w)).
  { intros reason Hr. unfold prepareOrder. unfold bind at 1. unfold get.
    unfold new_MarketOrder, BaseModel, BaseModel_transform.
    cbn [mo_tokenId mo_quantity].
    rewrite (bind_of_Return _ _ _ _ _ Hget). now rewrite Hr. }
  destruct (canSell_zero_balance cfg (rq_tokenId request) (rq_amount request) Hmin)
    as (Hinvalid & Hvalid).
  destruct (InputValidator.isValid
              (InputValidator.validateInput cfg (rq_amount request)
                 "quantity" InputValidator.no_options)) eqn:Hv.
  - destruct (Hvalid eq_refl) as (n & _ & _ & Hr). eauto.
  - eauto.
Qed.

Lemma survivors_uninitialized (requests : list OrderRequest) (w : World) :
  contracts w <> Initialized -> 1 <= quantity_min cfg ->
  survivors cfg env requests w = ([], w).
Proof.
  intros Hc Hmin. induction requests as [|request rest IH]; [reflexivity|].
  cbn [survivors].
  destruct (prepareOrder_uninitialized request w Hc Hmin) as (e & ->).
  exact IH.
Qed.

Lemma survivors_spec (requests : list OrderRequest) :
  forall w : World,
  exists kept,
    sublist kept requests /\
    Forall2 (fun request order =>
               converts env request order /\ within_limits order /\
               exists n,
                 InputValidator.validateInput cfg (rq_amount request) "quantity"
                   InputValidator.no_options
                 = InputValidator.accept (Number (of_Z n)))
      kept (fst (survivors cfg env requests w)).
Proof.
  induction requests as [|request rest IH]; intros w; cbn [survivors].
  - exists []. split; constructor.
  - destruct (prepareOrder cfg env request w) as [[order|e] w1] eqn:Hp.
    + destruct (IH w1) as (kept & Hsub & Hall).
      destruct (survivors cfg env rest w1) as [orders w2]. cbn [fst] in *.
      exists (request :: kept). split; [now constructor|].
      constructor; [|exact Hall].
      destruct (prepareOrder_Return cfg env request w w1 order Hp)
        as (balance & n & priceText & _ & _ & Hq & _ & Ht & Hpe & Hbn
            & Hp1 & Hp2 & Hid & Hside).
      split; [|split].
      * split; [exact Hid|]. split; [exact Hbn|]. eauto.
      * split; [exact Hp1|]. split; [exact Hp2|].
        rewrite Hside. destruct (is_sell _); auto.
      * eauto.
    + destruct (IH w1) as (kept & Hsub & Hall).
      exists kept. split; [now constructor|exact Hall].
Qed.

Lemma validateAndPrepareOrders_Return (orderRequests : list OrderRequest)
    (w w' : World) (orders : list ContractOrder) :
  validateAndPrepareOrders cfg env orderRequests w = (Return orders, w') ->
  Z.of_nat (List.length orderRequests) <= maxBatchSize cfg /\
  orders = fst (survivors cfg env orderRequests w) /\
  w' = snd (survivors cfg env orderRequests w).
Proof.
  unfold validateAndPrepareOrders.
  destruct (maxBatchSize cfg <? Z.of_nat (List.length orderRequests)) eqn:E;
    [discriminate|].
  rewrite prepareLoop_survivors. cbn [app]. intros H. injection H as <- <-.
  apply Z.ltb_ge in E. auto.
Qed.

(** X15. The orders that batch preparation returns are, in order,
    the conversions of a subsequence of the requests: each keeps the token
    identifier of its request, its quantity and price are the conversions
    of the request's, no request gives two orders and none is reordered. *)
Theorem kept_orders_follow_requests (orderRequests : list OrderRequest)
    (w w' : World) (orders : list ContractOrder) :
  validateAndPrepareOrders cfg env orderRequests w = (Return orders, w') ->
  exists kept,
    sublist kept orderRequests /\
    Forall2 (converts env) kept orders /\
    (List.length orders <= List.length orderRequests)%nat.
Proof.
  intros H. apply validateAndPrepareOrders_Return in H.
  destruct H as (_ & -> & _).
  destruct (survivors_spec orderRequests w) as (kept & Hsub & Hall).
  exists kept. split; [exact Hsub|]. split.
  - eapply Forall2_impl; [exact Hall|]. now intros rq o (H & _).
  - rewrite <- (Forall2_length _ _ _ Hall). now apply sublist_length.
Qed.

(** X16. Every order that batch preparation returns has a price
    between 1 and [2 ^ 72 - 1], a quantity between 1 and [2 ^ 24 - 1], and
    side 0 or 1. *)
Theorem kept_orders_within_limits (orderRequests : list OrderRequest)
    (w w' : World) (orders : list ContractOrder) :
  validateAndPrepareOrders cfg env orderRequests w = (Return orders, w') ->
  Forall within_limits orders.
Proof.
  intros H. apply validateAndPrepareOrders_Return in H.
  destruct H as (_ & -> & _).
  destruct (survivors_spec orderRequests w) as (kept & _ & Hall).
  induction Hall as [|rq o ks os (_ & Hl & _) _ IH]; constructor; assumption.
Qed.

(** X17. With both contracts set and a batch within the cap, batch
    preparation makes exactly one balance read for each request, in the
    order of the requests, and no other external call; it leaves the
    limiter, the wallet, the contracts and the clock as they were. *)
Theorem one_balance_read_per_request (orderRequests : list OrderRequest)
    (w : World) :
  contracts w = Initialized ->
  Z.of_nat (List.length orderRequests) <= maxBatchSize cfg ->
  snd (validateAndPrepareOrders cfg env orderRequests w)
  = log w (map (balance_read w) orderRequests).
Proof.
  intros Hc Hcap. unfold validateAndPrepareOrders.
  apply Z.ltb_ge in Hcap. rewrite Hcap, prepareLoop_survivors. cbn [snd].
  now apply survivors_world_initialized.
Qed.

Lemma no_items_contract (orderRequests : list OrderRequest) (w : World) :
  contracts w <> Initialized -> 1 <= quantity_min cfg ->
  Z.of_nat (List.length orderRequests) <= maxBatchSize cfg ->
  validateAndPrepareOrders cfg env orderRequests w = (Return [], w).
Proof.
  intros Hc Hmin Hcap. unfold validateAndPrepareOrders.
  apply Z.ltb_ge in Hcap. rewrite Hcap, prepareLoop_survivors.
  now rewrite survivors_uninitialized.
Qed.

End Batch.
End BatchFacts.

(** ** The retrying submitter *)

Module RetryFacts.
Import JS Models MarketplaceService.
Import PreparationFacts SubmissionFacts.


Section Retry.
Variable cfg : Config.
Variable env : Env.









(** X23. With a non-negative estimate and a non-negative buffer, the
    gas limit of the submission that follows an estimation is the estimate
    plus [gasBufferPercent] percent of it, rounded down, and is never below
    the estimate. *)
Theorem gas_limit_adds_the_buffer (orders : list ContractOrder)
    (note : option string) (w : World) (estimate : Z) :
  contracts w <> NotInitialized ->
  estimateGas env (trace w) orders = Return estimate ->
  0 <= estimate -> 0 <= gasBufferPercent cfg ->
  let gasLimit := estimate + estimate * gasBufferPercent cfg / 100 in
  estimate <= gasLimit /\
  exists rest,
    trace (snd (submit cfg env orders note w))
    = (trace w ++ EvEstimateGas orders :: EvLimitOrders orders gasLimit :: rest)%list.
Proof.
  intros Hc Hg H0 Hb gasLimit.
  assert (Hl : gas_limit cfg estimate = gasLimit).
  { unfold gas_limit, gasLimit. rewrite Z.quot_div_nonneg by nia.
    replace (estimate * (100 + gasBufferPercent cfg))
      with (estimate * gasBufferPercent cfg + estimate * 100) by ring.
    rewrite Z.div_add by lia. lia. }
  split.
  { unfold gasLimit. pose proof (Z.div_pos (estimate * gasBufferPercent cfg) 100).
    nia. }
  rewrite (submit_eq cfg env orders note w Hc). cbn [snd log trace].
  unfold attempt_outcome. rewrite Hg, Hl.
  destruct (limitOrders env _ orders _) as [h|]; cbn [snd]; [|now exists []].
  destruct (wait env _ h); cbn [snd]; eauto.
Qed.

End Retry.
End RetryFacts.

(** ** What a call leaves untouched *)

Module FrameFacts.
Import JS Models MarketplaceService.
Import PreparationFacts SubmissionFacts.

Section Frame.
Variable R : World -> World -> Prop.
Hypothesis R_refl : forall w, R w w.
Hypothesis R_trans : forall a b c, R a b -> R b c -> R a c.
Hypothesis R_log : forall w evs, R w (log w evs).
Hypothesis R_contracts : forall w c, R w (snd (set_contracts c w)).
Hypothesis R_tick : forall w, R w (tick w).

Lemma preserves_ret {A} (a : A) : preserves R (ret a).
Proof. intros w. apply R_refl. Qed.

Lemma preserves_throw {A} (e : Exn) : preserves R (@throw A e).
Proof. intros w. apply R_refl. Qed.

Lemma preserves_lift {A} (o : Outcome A) : preserves R (lift o).
Proof. intros w. apply R_refl. Qed.

Lemma preserves_get {A} (f : World -> A) : preserves R (get f).
Proof. intros w. apply R_refl. Qed.

Lemma preserves_call {A} (ev : Event) (answer : list Event -> Outcome A) :
  preserves R (call ev answer).
Proof. intros w. rewrite call_eq. apply R_log. Qed.

Lemma preserves_set_contracts (c : Contracts) : preserves R (set_contracts c).
Proof. intros w. apply R_contracts. Qed.

Lemma preserves_bind {A B} (m : M A) (k : A -> M B) :
  preserves R m -> (forall a, preserves R (k a)) -> preserves R (bind m k).
Proof.
  intros Hm Hk w. unfold bind. specialize (Hm w).
  destruct (m w) as [[a|e] w1]; cbn [snd] in *; [|exact Hm].
  eapply R_trans; [exact Hm|apply Hk].
Qed.

Lemma preserves_try_catch {A} (m : M A) (h : Exn -> M A) :
  preserves R m -> (forall e, preserves R (h e)) -> preserves R (try_catch m h).
Proof.
  intros Hm Hh w. unfold try_catch. specialize (Hm w).
  destruct (m w) as [[a|e] w1]; cbn [snd] in *; [exact Hm|].
  eapply R_trans; [exact Hm|apply Hh].
Qed.

Variable cfg : Config.
Variable env : Env.

Lemma preserves_Date_now : preserves R (Date_now env).
Proof. intros w. apply R_tick. Qed.

Ltac frame :=
  repeat match goal with
         | |- preserves _ (ret _) => apply preserves_ret
         | |- preserves _ (throw _) => apply preserves_throw
         | |- preserves _ (lift _) => apply preserves_lift
         | |- preserves _ (get _) => apply preserves_get
         | |- preserves _ (call _ _) => apply preserves_call
         | |- preserves _ (set_contracts _) => apply preserves_set_contracts
         | |- preserves _ (Date_now _) => apply preserves_Date_now
         | |- preserves _ (bind _ _) => apply preserves_bind; [|intros ?]
         | |- preserves _ (try_catch _ _) =>
             apply preserves_try_catch; [|intros ?]
         | |- preserves _ (match ?x with _ => _ end) => destruct x
         | |- preserves _ (if ?b then _ else _) => destruct b
         end.

Lemma preserves_switchNetwork : preserves R (switchNetwork env).
Proof. unfold switchNetwork. frame. Qed.

Lemma preserves_initializeContracts : preserves R (initializeContracts cfg env).
Proof. unfold initializeContracts. frame. Qed.

Lemma preserves_getUserBalance (tokenId : value) :
  preserves R (getUserBalance env tokenId).
Proof. unfold getUserBalance. frame. Qed.

Lemma preserves_validateContractLimits (order : ContractOrder) :
  preserves R (validateContractLimits order).
Proof. unfold validateContractLimits. frame. Qed.

Lemma preserves_prepareOrder (request : OrderRequest) :
  preserves R (prepareOrder cfg env request).
Proof.
  unfold prepareOrder.
  frame;
    first [apply preserves_getUserBalance|apply preserves_validateContractLimits].
Qed.

Lemma preserves_prepareLoop (requests : list OrderRequest) :
  forall acc, preserves R (prepareLoop cfg env requests acc).
Proof.
  induction requests as [|request rest IH]; intros acc; cbn [prepareLoop].
  - frame.
  - frame; [apply preserves_prepareOrder|apply IH].
Qed.

Lemma preserves_validateAndPrepareOrders (requests : list OrderRequest) :
  preserves R (validateAndPrepareOrders cfg env requests).
Proof. unfold validateAndPrepareOrders. frame. apply preserves_prepareLoop. Qed.

Lemma preserves_ensureApprovals (orders : list ContractOrder) :
  preserves R (ensureApprovals cfg env orders).
Proof. unfold ensureApprovals. frame. Qed.

Lemma preserves_submit (orders : list ContractOrder) (note : option string) :
  preserves R (submit cfg env orders note).
Proof. unfold submit. frame. Qed.

Lemma preserves_attempts (orders : list ContractOrder) (note : option string)
    (remaining : nat) :
  forall attempt lastError,
  preserves R (attempts cfg env orders note remaining attempt lastError).
Proof.
  induction remaining as [|k IH]; intros attempt lastError; cbn [attempts].
  - frame.
  - frame; try apply preserves_submit; try apply IH.
    unfold delay. frame.
Qed.

Lemma preserves_executeBatchTransaction (orders : list ContractOrder) :
  preserves R (executeBatchTransaction cfg env orders).
Proof.
  unfold executeBatchTransaction. frame; apply preserves_attempts.
Qed.

(** What [createBatchOrders] does once the limiter has answered. *)
Lemma preserves_after_limiter (orderRequests : list OrderRequest) (w : Wallet) :
  preserves R
    (if negb (isConnected w) then throw (Error "Wallet not connected")
     else
       run (if negb (isOnCorrectNetwork w) then switchNetwork env else ret tt);
       do c <- get contracts;
       run (match c with
            | NotInitialized => initializeContracts cfg env
            | _ => ret tt
            end);
       do validatedOrders <- validateAndPrepareOrders cfg env orderRequests;
       match validatedOrders with
       | [] => throw (Error "No valid orders to create")
       | _ =>
           run ensureApprovals cfg env validatedOrders;
           do result <- executeBatchTransaction cfg env validatedOrders;
           do now <- Date_now env;
           ret (new_TransactionResult
                  {| success := true;
                     txHash := Some (br_txHash result);
                     blockNumber := Some (br_blockNumber result);
                     gasUsed := Some (br_gasUsed result);
                     ordersCreated := Some (Z.of_nat (List.length validatedOrders));
                     error := None;
                     note := None;
                     timestamp := now |})
       end).
Proof.
  frame; try apply preserves_switchNetwork;
    try apply preserves_initializeContracts;
    try apply preserves_validateAndPrepareOrders;
    try apply preserves_ensureApprovals;
    try apply preserves_executeBatchTransaction.
Qed.

End Frame.

Lemma same_limiter_refl (w : World) : same_limiter w w.
Proof. now split. Qed.

Lemma same_limiter_trans (a b c : World) :
  same_limiter a b -> same_limiter b c -> same_limiter a c.
Proof. intros [H1 H2] [H3 H4]. split; congruence. Qed.

Section Limiter.
Variable cfg : Config.
Variable env : Env.

Lemma createBatchOrders_limiter (orderRequests : list OrderRequest)
    (w : World) :
  same_limiter
    (snd (set_rateLimits
            (snd (InputValidator.checkRateLimit (rate_key (wallet w)) 5 60000
                    (clock env (clockReads w)) (rateLimits w))) w))
    (snd (createBatchOrders cfg env orderRequests w)).
Proof.
  rewrite createBatchOrders_eq. unfold createBatchOrders_body.
  unfold bind at 1. unfold get at 1. unfold bind at 1.
  unfold checkRateLimit, bind at 1. rewrite Date_now_eq.
  unfold bind at 1, get at 1. cbn [rateLimits tick clockReads wallet].
  destruct (InputValidator.checkRateLimit _ _ _ _ _) as [r limits'].
  unfold bind at 1. unfold set_rateLimits at 2. unfold ret at 1.
  cbn [snd set_rateLimits].
  destruct r as [|resetTime].
  - match goal with
    | |- context [?m {| rateLimits := limits'; wallet := ?a; contracts := ?b;
                        trace := ?c; clockReads := ?d |}] =>
        pose proof (preserves_after_limiter same_limiter same_limiter_refl
                      same_limiter_trans ltac:(now split) ltac:(now split)
                      ltac:(now split) cfg env orderRequests (wallet w)
                      {| rateLimits := limits'; wallet := a; contracts := b;
                         trace := c; clockReads := d |}) as [H1 H2];
        destruct (m {| rateLimits := limits'; wallet := a; contracts := b;
                       trace := c; clockReads := d |}) as [[r|e] w2]
    end; cbn [snd rateLimits wallet tick] in *; now split.
  - unfold throw. cbn. now split.
Qed.

(** X25. Whatever its outcome, a call of [createBatchOrders]
    changes the map of the limiter exactly as one [checkRateLimit] for its
    key does, and leaves the wallet as it was: a call that fails later on
    still counts against the limit. *)
Theorem every_call_uses_the_limiter_once (orderRequests : list OrderRequest)
    (w : World) :
  let w' := snd (createBatchOrders cfg env orderRequests w) in
  rateLimits w'
  = snd (InputValidator.checkRateLimit (rate_key (wallet w)) 5 60000
           (clock env (clockReads w)) (rateLimits w)) /\
  wallet w' = wallet w.
Proof. exact (createBatchOrders_limiter orderRequests w). Qed.

End Limiter.
End FrameFacts.

(** ** Ways through [createBatchOrders] *)

Module CallFacts.
Import JS Models MarketplaceService.
Import RateLimiterFacts PreparationFacts SubmissionFacts.
Import RateLimiterInvariants BatchFacts RetryFacts FrameFacts.

Section Calls.
Variable cfg : Config.
Variable env : Env.

(** The call once the limiter has admitted it. *)
Lemma admitted_body (orderRequests : list OrderRequest) (w : World) :
  fst (InputValidator.checkRateLimit (rate_key (wallet w)) 5 60000
         (clock env (clockReads w)) (rateLimits w))
  = InputValidator.Allowed ->
  createBatchOrders_body cfg env orderRequests w =
  (if negb (isConnected (wallet w)) then throw (Error "Wallet not connected")
   else
     run (if negb (isOnCorrectNetwork (wallet w)) then switchNetwork env
          else ret tt);
     do c <- get contracts;
     run (match c with
          | NotInitialized => initializeContracts cfg env
          | _ => ret tt
          end);
     do validatedOrders <- validateAndPrepareOrders cfg env orderRequests;
     match validatedOrders with
     | [] => throw (Error "No valid orders to create")
     | _ => finish cfg env validatedOrders
     end) (consulted env w).
Proof.
  intros Hr. unfold createBatchOrders_body.
  unfold bind at 1. unfold get at 1. unfold bind at 1.
  unfold checkRateLimit, bind at 1. rewrite Date_now_eq.
  unfold bind at 1, get at 1. cbn [rateLimits tick clockReads wallet].
  unfold consulted.
  destruct (InputValidator.checkRateLimit _ _ _ _ _) as [r limits'].
  cbn [fst snd] in *. subst r.
  unfold bind at 1. unfold set_rateLimits at 1. unfold ret at 1.
  reflexivity.
Qed.

(** X18. When the items contract is missing (only the marketplace
    contract was set, or none is set and the wallet has no provider), a call
    that the limiter admits, with a connected wallet on the right network, a
    minimum quantity of at least 1 and a batch within the cap, drops every
    request and returns the failure [No valid orders to create]; it makes no
    external call and leaves the contracts as they were. *)
Theorem missing_items_contract_reports_no_valid_orders
    (orderRequests : list OrderRequest) (w : World) :
  fst (InputValidator.checkRateLimit (rate_key (wallet w)) 5 60000
         (clock env (clockReads w)) (rateLimits w))
  = InputValidator.Allowed ->
  isConnected (wallet w) = true ->
  isOnCorrectNetwork (wallet w) = true ->
  contracts w = MarketplaceOnly
  \/ (contracts w = NotInitialized /\ hasProvider (wallet w) = false) ->
  1 <= quantity_min cfg ->
  Z.of_nat (List.length orderRequests) <= maxBatchSize cfg ->
  createBatchOrders cfg env orderRequests w =
  (Return (failure_result (Error "No valid orders to create")
             (clock env (S (clockReads w)))),
   tick (consulted env w)).
Proof.
  intros Hr Hconn Hnet Hc Hmin Hcap.
  rewrite createBatchOrders_eq, (admitted_body orderRequests w Hr).
  rewrite Hconn, Hnet. cbn [negb].
  unfold bind at 1. unfold ret at 1. unfold bind at 1. unfold get at 1.
  cbn [contracts consulted].
  assert (Hinit : forall k : unit -> M TransactionResult,
    bind (match contracts w with
          | NotInitialized => initializeContracts cfg env
          | _ => ret tt
          end) k (consulted env w) = k tt (consulted env w)).
  { intros k. destruct Hc as [->|[-> Hp]]; [reflexivity|].
    unfold bind at 1, initializeContracts. unfold bind at 1, get at 1.
    cbn [wallet consulted]. rewrite Hconn, Hp. reflexivity. }
  rewrite Hinit.
  assert (Hc' : contracts (consulted env w) <> Initialized).
  { cbn [contracts consulted]. destruct Hc as [->|[-> _]]; discriminate. }
  rewrite (bind_of_Return _ _ _ _ _
             (no_items_contract cfg env orderRequests _ Hc' Hmin Hcap)).
  reflexivity.
Qed.

(** X19. On the wrong network, when the switch of chain fails:
    with an error code other than 4902 the call returns a failed result with
    the message of that error, after the one switch request; with code 4902
    the chain is added, and when that fails the call returns a failed result
    with the message of the second error. No other external call is
    made. *)
Theorem refused_network_switch_ends_the_call
    (orderRequests : list OrderRequest) (w : World) (e : Exn) :
  fst (InputValidator.checkRateLimit (rate_key (wallet w)) 5 60000
         (clock env (clockReads w)) (rateLimits w))
  = InputValidator.Allowed ->
  isConnected (wallet w) = true ->
  isOnCorrectNetwork (wallet w) = false ->
  switchChain env (trace w) = Throw e ->
  (exn_code e <> Some 4902 ->
   createBatchOrders cfg env orderRequests w =
   (Return (failure_result e (clock env (S (clockReads w)))),
    tick (log (consulted env w) [EvSwitchChain]))) /\
  (exn_code e = Some 4902 ->
   forall e',
     addChain env (trace w ++ [EvSwitchChain]) = Throw e' ->
     createBatchOrders cfg env orderRequests w =
     (Return (failure_result e' (clock env (S (clockReads w)))),
      tick (log (consulted env w) [EvSwitchChain; EvAddChain]))).
Proof.
  intros Hr Hconn Hnet Hs.
  split; [intros Hcode|intros Hcode e' Ha];
    rewrite createBatchOrders_eq, (admitted_body orderRequests w Hr);
    rewrite Hconn, Hnet; cbn [negb];
    unfold bind at 1, switchNetwork, try_catch; rewrite call_eq;
    cbn [trace consulted]; rewrite Hs.
  - destruct (exn_code e) as [code|]; [|reflexivity].
    destruct (Z.eq_dec code 4902) as [->|Hne]; [congruence|].
    destruct code as [|p|p]; try reflexivity.
    repeat (destruct p as [p|p|]; try reflexivity). congruence.
  - destruct (exn_code e) as [code|]; [|discriminate].
    injection Hcode as ->. cbv iota beta. rewrite call_eq, log_log.
    cbn [trace log consulted app]. now rewrite Ha.
Qed.

Lemma prepare_Return (orderRequests : list OrderRequest) (w w1 : World)
    (orders : list ContractOrder) :
  prepare cfg env orderRequests w = (Return orders, w1) ->
  orders <> [] /\
  exists w0,
    validateAndPrepareOrders cfg env orderRequests w0 = (Return orders, w1).
Proof.
  unfold prepare. intros H. inv_run H; injection H as <- <-;
    (split; [discriminate|]); eauto.
Qed.

(** X24. A successful result of [createBatchOrders] counts at least
    one order and at most as many as there were requests, which were
    within the cap; it carries a hash and no error, and its timestamp is
    the last reading of the clock. *)
Theorem successful_result_counts_the_kept_orders
    (orderRequests : list OrderRequest) (w w' : World) (r : TransactionResult) :
  createBatchOrders cfg env orderRequests w = (Return r, w') ->
  success r = true ->
  exists created hash,
    ordersCreated r = Some created /\
    1 <= created <= Z.of_nat (List.length orderRequests) /\
    Z.of_nat (List.length orderRequests) <= maxBatchSize cfg /\
    txHash r = Some hash /\ error r = None /\
    timestamp r = clock env (Nat.pred (clockReads w')).
Proof.
  rewrite createBatchOrders_eq.
  destruct (createBatchOrders_body cfg env orderRequests w) as [[r0|e] w1] eqn:Hb;
    intros H; injection H as <- <-; [|discriminate].
  intros _. rewrite body_split in Hb. apply bind_Return in Hb.
  destruct Hb as (orders & w2 & Hp & Hf).
  destruct (prepare_Return _ _ _ _ Hp) as (Hne & w0 & Hv).
  pose proof (validateAndPrepareOrders_Return cfg env _ _ _ _ Hv)
    as (Hcap & Ho & _).
  assert (Hlen : (List.length orders <= List.length orderRequests)%nat).
  { rewrite Ho. destruct (survivors_spec cfg env orderRequests w0)
      as (kept & Hsub & Hall).
    rewrite <- (Forall2_length _ _ _ Hall). now apply sublist_length. }
  unfold finish in Hf.
  apply bind_Return in Hf. destruct Hf as (_ & w3 & _ & Hf).
  apply bind_Return in Hf. destruct Hf as (result & w4 & _ & Hf).
  apply bind_Return in Hf. destruct Hf as (now & w5 & Hnow & Hf).
  rewrite Date_now_eq in Hnow. injection Hnow as <- <-.
  unfold ret in Hf. injection Hf as <- <-.
  exists (Z.of_nat (List.length orders)), (br_txHash result).
  cbn [ordersCreated txHash error timestamp success_result tick clockReads
       Nat.pred].
  repeat split; try lia.
  destruct orders; [congruence|cbn [List.length]; lia].
Qed.

End Calls.
End CallFacts.

(** ** Calls in sequence, and the models *)

Module SequenceFacts.
Import JS Models MarketplaceService InputValidator.
Import RateLimiterFacts PreparationFacts SubmissionFacts.
Import RateLimiterInvariants BatchFacts RetryFacts FrameFacts CallFacts.

(** Calls inside one window: the history takes the times of the calls until
    it is full, and stays as it is after that. *)
Lemma limiter_after_window (key : string) (N W now : Z) (times : list Z) :
  forall limits : gmap string (list Z),
  (forall t, In t times -> now - W < t <= now) ->
  (forall t, In t (history key limits) -> now - W < t <= now) ->
  Z.of_nat (List.length (history key limits)) <= N ->
  let after := history key (limiter_after key N W times limits) in
  after = (history key limits
           ++ firstn (Z.to_nat N - List.length (history key limits)) times)%list.
Proof.
  induction times as [|t rest IH]; intros limits Hin Hold Hlen; cbv zeta.
  - cbn. now rewrite firstn_nil, app_nil_r.
  - cbn [limiter_after fold_left].
    change (fold_left _ rest ?l) with (limiter_after key N W rest l).
    rewrite checkRateLimit_unfold. cbv zeta.
    assert (Hall : retained key W t limits = history key limits).
    { apply retained_all. intros x Hx.
      specialize (Hold x Hx). specialize (Hin t (or_introl eq_refl)). lia. }
    rewrite Hall.
    destruct (N <=? Z.of_nat (List.length (history key limits))) eqn:E;
      cbn [snd].
    + apply Z.leb_le in E.
      set (limits1 := <[key := history key limits]> _).
      assert (H1 : history key limits1 = history key limits)
        by apply history_insert.
      rewrite (IH limits1); rewrite ?H1; try assumption.
      * replace (Z.to_nat N - List.length (history key limits))%nat with O by lia.
        reflexivity.
      * intros x Hx. apply Hin. now right.
    + apply Z.leb_gt in E.
      set (limits1 := <[key := (history key limits ++ [t])%list]> _).
      assert (H1 : history key limits1 = (history key limits ++ [t])%list)
        by apply history_insert.
      rewrite (IH limits1); rewrite ?H1.
      * rewrite length_app. cbn [List.length].
        replace (Z.to_nat N - List.length (history key limits))%nat
          with (S (Z.to_nat N - (List.length (history key limits) + 1)))%nat
          by lia.
        cbn [firstn]. now rewrite <- app_assoc.
      * intros x Hx. apply Hin. now right.
      * intros x Hx. apply in_app_or in Hx.
        destruct Hx as [Hx|[<-|[]]]; [now apply Hold|].
        apply Hin. now left.
      * rewrite length_app. cbn [List.length]. lia.
Qed.

Lemma firstn_incl {A} (n : nat) (l : list A) (x : A) :
  In x (firstn n l) -> In x l.
Proof.
  revert l. induction n as [|n IH]; intros [|a l]; cbn; try tauto.
  intros [->|H]; [now left|right; now apply IH].
Qed.

Section Sequence.
Variable cfg : Config.
Variable env : Env.

Lemma successive_calls_limiter (batches : list (list OrderRequest)) :
  forall w : World,
  let out := successive_calls cfg env batches w in
  wallet (snd out) = wallet w /\
  rateLimits (snd out)
  = limiter_after (rate_key (wallet w)) 5 60000 (map fst (fst out))
      (rateLimits w) /\
  List.length (fst out) = List.length batches.
Proof.
  induction batches as [|batch rest IH]; intros w; cbv zeta.
  - cbn. auto.
  - cbn [successive_calls].
    pose proof (createBatchOrders_limiter cfg env batch w) as [H1 H2].
    destruct (createBatchOrders cfg env batch w) as [o w1]. cbn [snd] in *.
    specialize (IH w1). cbv zeta in IH.
    destruct (successive_calls cfg env rest w1) as [done w2].
    cbn [fst snd map limiter_after fold_left List.length] in *.
    destruct IH as (Hw & Hl & Hn). rewrite Hw, H2, Hl, H2, H1, Hn.
    auto.
Qed.

(** X26. Starting from a key with no history, once five or more
    calls of [createBatchOrders] consulted the limiter within the last
    minute, whatever they returned, the next call returns the failure
    [Rate limit exceeded], with a number of seconds between 1 and 60, and
    makes no external call. *)
Theorem calls_beyond_five_a_minute_are_refused
    (batches : list (list OrderRequest)) (batch : list OrderRequest)
    (w : World) :
  history (rate_key (wallet w)) (rateLimits w) = [] ->
  (5 <= List.length batches)%nat ->
  let done := fst (successive_calls cfg env batches w) in
  let w5 := snd (successive_calls cfg env batches w) in
  let now := clock env (clockReads w5) in
  (forall t, In t (map fst done) -> now - 60000 < t <= now) ->
  exists seconds w',
    createBatchOrders cfg env batch w5
    = (Return (failure_result
                 (Error ("Rate limit exceeded. Try again in "
                         ++ number_to_string (of_Z seconds) ++ " seconds."))
                 (clock env (S (clockReads w5)))), w') /\
    1 <= seconds <= 60 /\
    trace w' = trace w5.
Proof.
  intros Hfresh Hlen done w5 now Hin.
  destruct (successive_calls_limiter batches w) as (Hw & Hl & Hn).
  fold done w5 in Hw, Hl, Hn.
  pose proof (limiter_after_window (rate_key (wallet w)) 5 60000 now
                (map fst done) (rateLimits w) Hin) as Hh.
  rewrite Hfresh in Hh. cbv zeta in Hh. cbn [List.length app] in Hh.
  specialize (Hh ltac:(intros t []) ltac:(lia)).
  rewrite <- Hl, <- Hw in Hh.
  assert (Hfull : List.length (history (rate_key (wallet w5)) (rateLimits w5)) = 5%nat).
  { rewrite Hh, length_firstn, length_map, Hn. cbn. lia. }
  assert (Hwin : forall t, In t (history (rate_key (wallet w5)) (rateLimits w5)) ->
                   now - 60000 < t <= now).
  { intros t Ht. rewrite Hh in Ht. apply Hin. eapply firstn_incl; eauto. }
  assert (Hrej : allowed (fst (checkRateLimit (rate_key (wallet w5)) 5 60000 now
                                 (rateLimits w5))) = false).
  { rewrite checkRateLimit_unfold. cbv zeta.
    rewrite (retained_all _ _ _ _ (fun t Ht => proj1 (Hwin t Ht))), Hfull.
    reflexivity. }
  destruct (rejected_reset_time _ 5 60000 now _ ltac:(lia)
              (fun t Ht => proj2 (Hwin t Ht)) Hrej) as (seconds & Hs & Hb).
  destruct (rate_limited cfg env batch w5 (of_Z seconds) Hs) as (w' & Hr & Ht).
  exists seconds, w'. split; [exact Hr|]. split; [|exact Ht].
  change (ceil_div_1000 60000) with 60 in Hb. exact Hb.
Qed.

(** X14. On a result of [createBatchOrders]: when it is successful
    its [errorMessage] is null and its [explorerUrl] is the explorer address
    followed by the transaction hash (null for an empty hash); when it is
    not, its [explorerUrl] is null and its [errorMessage] is never empty:
    the message of what was thrown, or [Unknown error occurred] when that
    message is empty. *)
Theorem result_getters (orderRequests : list OrderRequest) (w w' : World)
    (r : TransactionResult) :
  createBatchOrders cfg env orderRequests w = (Return r, w') ->
  (isSuccessful r = true ->
   errorMessage r = None /\
   exists hash,
     txHash r = Some hash /\
     explorerUrl r = (if String.eqb hash EmptyString then None
                      else Some ("https://sonicscan.org/tx/" ++ hash))) /\
  (isSuccessful r = false ->
   explorerUrl r = None /\
   exists m thrown,
     errorMessage r = Some m /\ m <> EmptyString /\
     error r = Some thrown /\
     m = (if String.eqb thrown EmptyString then "Unknown error occurred"
          else thrown)).
Proof.
  rewrite createBatchOrders_eq.
  destruct (createBatchOrders_body cfg env orderRequests w) as [[r0|e] w1] eqn:Hb;
    intros H; injection H as <- <-.
  - rewrite body_split in Hb. apply bind_Return in Hb.
    destruct Hb as (orders & w2 & _ & Hf).
    apply finish_Return in Hf. destruct Hf as (result & now & ->).
    split; [|discriminate]. intros _. split; [reflexivity|].
    exists (br_txHash result). split; reflexivity.
  - split; [discriminate|]. intros _. split; [reflexivity|].
    unfold errorMessage. cbn [isSuccessful success failure_result error].
    destruct (String.eqb (exn_message e) EmptyString) eqn:E.
    + exists "Unknown error occurred", (exn_message e).
      rewrite E. repeat split; discriminate.
    + exists (exn_message e), (exn_message e). rewrite E.
      repeat split. intros Hm. rewrite Hm in E. discriminate.
Qed.

(** X13. [canSell] answers yes exactly when the quantity passes
    quantity validation and the validated integer is at most the balance;
    an invalid quantity is refused as [Invalid quantity], a valid one above
    the balance with the message that gives the balance and the need. *)
Theorem canSell_spec (b : UserBalance) (quantity : value) :
  let r := validateInput cfg quantity "quantity" no_options in
  (canSell cfg b quantity = CanSell <->
   exists n, r = accept (Number (of_Z n)) /\ n <= ub_balance b) /\
  (isValid r = false -> canSell cfg b quantity = CannotSell "Invalid quantity") /\
  (forall n,
     r = accept (Number (of_Z n)) -> ub_balance b < n ->
     canSell cfg b quantity
     = CannotSell ("Insufficient balance. Have: " ++ Z_to_string (ub_balance b)
                   ++ ", Need: " ++ number_to_string (of_Z n))).
Proof.
  cbv zeta. unfold canSell.
  assert (Hshape :
    isValid (validateInput cfg quantity "quantity" no_options) = true ->
    exists n, validateInput cfg quantity "quantity" no_options
              = accept (Number (of_Z n))).
  { rewrite ValidatorFacts.validateInput_prepared.
    destruct (prepared cfg quantity) as [v'|]; [|discriminate].
    change (by_type cfg v' "quantity" no_options) with (validateQuantity cfg v').
    destruct (ValidatorFacts.validateQuantity_spec cfg v') as (Hacc & Hinv & _).
    intros Hv. destruct (Hinv Hv) as (n & d & H1 & H2 & H3 & H4).
    exists n. exact (Hacc n d H1 H2 H3 H4). }
  destruct (isValid (validateInput cfg quantity "quantity" no_options)) eqn:Ev;
    cbn [negb].
  - destruct (Hshape eq_refl) as (n & Hn). rewrite Hn.
    cbn [sanitizedValue accept]. unfold gt. rewrite NumberFacts.lt_of_Z.
    split; [|split; [discriminate|]].
    + split.
      * destruct (ub_balance b <? n) eqn:E; [discriminate|].
        intros _. exists n. split; [reflexivity|]. now apply Z.ltb_ge.
      * intros (n' & Heq & Hle). injection Heq as <-.
        apply Z.ltb_ge in Hle. now rewrite Hle.
    + intros n' Heq Hlt. injection Heq as <-.
      apply Z.ltb_lt in Hlt. now rewrite Hlt.
  - split; [|split; [reflexivity|]].
    + split; [discriminate|]. intros (n & Heq & _). rewrite Heq in Ev.
      discriminate.
    + intros n Heq. rewrite Heq in Ev. discriminate.
Qed.

End Sequence.
End SequenceFacts.

(** ** The controller and the cache *)

Module ControllerFacts.
Import JS Models MarketplaceService InputValidator.
Import NumberFacts DigitFacts ValidatorFacts ValidatorShape.
Import AppController.

Lemma tokenId_of_integer_number (cfg : Config) (z : Z) :
  - 10 ^ 21 < z < 10 ^ 21 ->
  (tokenId_min cfg <= z <= tokenId_max cfg ->
   validateInput cfg (Number (of_Z z)) "tokenId" no_options
   = accept (Number (of_Z z))) /\
  (isValid (validateInput cfg (Number (of_Z z)) "tokenId" no_options) = true ->
   tokenId_min cfg <= z <= tokenId_max cfg).
Proof.
  intros Hz.
  change (validateInput cfg (Number (of_Z z)) "tokenId" no_options)
    with (validateTokenId cfg (Number (of_Z z))).
  destruct (validateTokenId_spec cfg (Number (of_Z z))) as (Hacc & Hinv & _).
  split.
  - intros Hb. apply Hacc; [now apply parseInt_integer|exact Hb].
  - intros Hv. destruct (Hinv Hv) as (n & Hn & Hb).
    rewrite (parseInt_integer z Hz) in Hn. injection Hn as <-. exact Hb.
Qed.

(** X5. On an integer given as a number (below [10 ^ 21] in
    absolute value), quantity validation and token identifier validation
    accept exactly the integers within their limits, and return the number
    unchanged: validating a sanitized value again changes nothing. *)
Theorem integer_numbers_validate_to_themselves (cfg : Config) (z : Z) :
  - 10 ^ 21 < z < 10 ^ 21 ->
  let quantity := validateInput cfg (Number (of_Z z)) "quantity" no_options in
  let tokenId := validateInput cfg (Number (of_Z z)) "tokenId" no_options in
  (isValid quantity = true <-> quantity_min cfg <= z <= quantity_max cfg) /\
  (isValid quantity = true -> quantity = accept (Number (of_Z z))) /\
  (isValid tokenId = true <-> tokenId_min cfg <= z <= tokenId_max cfg) /\
  (isValid tokenId = true -> tokenId = accept (Number (of_Z z))).
Proof.
  intros Hz. cbv zeta.
  destruct (quantity_of_integer_number cfg z Hz) as (Hq1 & Hq2).
  destruct (tokenId_of_integer_number cfg z Hz) as (Ht1 & Ht2).
  split; [|split; [|split]].
  - split; [exact Hq2|]. intros Hb. now rewrite (Hq1 Hb).
  - intros Hv. exact (Hq1 (Hq2 Hv)).
  - split; [exact Ht2|]. intros Hb. now rewrite (Ht1 Hb).
  - intros Hv. exact (Ht1 (Ht2 Hv)).
Qed.

Section Controller.
Variable cfg : Config.
Variable env : Env.

Lemma validateOrderRequest_Some (balances : Balances)
    (request validated : OrderRequest) :
  validateOrderRequest cfg balances request = Some validated ->
  forwarded cfg validated /\
  exists tokenId quantity,
    rq_tokenId validated = Number (of_Z tokenId) /\
    rq_amount validated = Number (of_Z quantity) /\
    validateInput cfg (rq_tokenId request) "tokenId" no_options
    = accept (Number (of_Z tokenId)) /\
    validateInput cfg (rq_amount request) "quantity" no_options
    = accept (Number (of_Z quantity)) /\
    lt (match Map_get balances (Number (of_Z tokenId)) with
        | Some b => if truthy (Number b) then b else of_Z 0
        | None => of_Z 0
        end) (of_Z quantity) = false.
Proof.
  unfold validateOrderRequest. rewrite !validateInput_prepared.
  destruct (prepared cfg (rq_tokenId request)) as [t'|]; [|discriminate].
  change (by_type cfg t' "tokenId" no_options) with (validateTokenId cfg t').
  destruct (validateTokenId_spec cfg t') as (Ht1 & Ht2 & _).
  destruct (isValid (validateTokenId cfg t')) eqn:Et; [|discriminate].
  destruct (Ht2 eq_refl) as (t & Hpt & Hbt). rewrite (Ht1 t Hpt Hbt).
  cbn [negb].
  destruct (prepared cfg (rq_priceInEth request)) as [p'|]; [|discriminate].
  change (by_type cfg p' "price" no_options) with (validatePrice cfg p').
  destruct (validatePrice_spec cfg p') as (Hp1 & Hp2 & _).
  destruct (isValid (validatePrice cfg p')) eqn:Ep; [|discriminate].
  destruct (Hp2 eq_refl) as (d & Hpd & Hd1 & Hd2 & Hd3).
  rewrite (Hp1 d Hpd Hd1 Hd2 Hd3). cbn [negb].
  destruct (prepared cfg (rq_amount request)) as [q'|]; [|discriminate].
  change (by_type cfg q' "quantity" no_options) with (validateQuantity cfg q').
  destruct (validateQuantity_spec cfg q') as (Hq1 & Hq2 & _).
  destruct (isValid (validateQuantity cfg q')) eqn:Eq; [|discriminate].
  destruct (Hq2 eq_refl) as (q & dq & Hpq & Hbq & Hfq & Heq).
  rewrite (Hq1 q dq Hpq Hbq Hfq Heq). cbn [negb sanitizedValue accept].
  destruct (lt _ (of_Z q)) eqn:El; [discriminate|].
  intros H. injection H as <-. split.
  - exists t, q, d. auto 10.
  - exists t, q. cbn [rq_tokenId rq_amount]. auto 10.
Qed.

Lemma validateOrderRequests_spec (balances : Balances)
    (requests : list OrderRequest) :
  exists kept,
    sublist kept requests /\
    Forall2 (fun request validated =>
               validateOrderRequest cfg balances request = Some validated)
      kept (validateOrderRequests cfg balances requests).
Proof.
  induction requests as [|request rest (kept & Hsub & Hall)];
    cbn [validateOrderRequests].
  - exists []. split; constructor.
  - destruct (validateOrderRequest cfg balances request) as [v|] eqn:E.
    + exists (request :: kept). split; [now constructor|].
      constructor; assumption.
    + exists kept. split; [now constructor|exact Hall].
Qed.

Lemma balance_covers (b : number) (q : Z) :
  1 <= q ->
  lt (if truthy (Number b) then b else of_Z 0) (of_Z q) = false ->
  le (of_Z q) b = true.
Proof.
  intros Hq. destruct b as [|d|[|]]; cbn [truthy].
  - rewrite lt_of_Z. intros H. apply Z.ltb_ge in H. lia.
  - destruct (mant d =? 0) eqn:E; cbn [negb].
    + rewrite lt_of_Z. intros H. apply Z.ltb_ge in H. lia.
    + unfold of_Z. rewrite lt_Q_false, le_Q. tauto.
  - discriminate.
  - reflexivity.
Qed.

(** X27. With a minimum quantity of at least 1 and a maximum below
    [10 ^ 21], the requests that [#validateOrderRequests] returns are no more
    than the requests given; each is a sell request whose token identifier,
    price and quantity are numbers within the limits of the validators, whose
    quantity passes quantity validation again unchanged, and for whose token
    a balance of at least the quantity is recorded. *)
Theorem forwarded_requests_are_validated (balances : Balances)
    (requests : list OrderRequest) :
  1 <= quantity_min cfg -> quantity_max cfg < 10 ^ 21 ->
  let validatedRequests := validateOrderRequests cfg balances requests in
  (List.length validatedRequests <= List.length requests)%nat /\
  Forall (fun validated =>
            forwarded cfg validated /\
            validateInput cfg (rq_amount validated) "quantity" no_options
            = accept (rq_amount validated) /\
            exists quantity balance,
              rq_amount validated = Number (of_Z quantity) /\
              Map_get balances (rq_tokenId validated) = Some balance /\
              le (of_Z quantity) balance = true)
    validatedRequests.
Proof.
  intros Hmin Hmax. cbv zeta.
  destruct (validateOrderRequests_spec balances requests) as (kept & Hsub & Hall).
  split.
  - rewrite <- (Forall2_length _ _ _ Hall). now apply sublist_length.
  - clear Hsub. induction Hall as [|rq v ks vs Hv _ IH]; constructor; [|exact IH].
    destruct (validateOrderRequest_Some _ _ _ Hv)
      as (Hf & t & q & Ht & Hq & _ & _ & Hlt).
    split; [exact Hf|].
    destruct Hf as (t' & q' & d & -> & _ & Hqb & _).
    cbn [rq_amount rq_tokenId] in *.
    injection Ht as ->. injection Hq as ->.
    split; [apply quantity_of_integer_number; lia|].
    exists q. destruct (Map_get balances (Number (of_Z t))) as [b|].
    + exists b. split; [reflexivity|]. split; [reflexivity|].
      apply balance_covers; [lia|exact Hlt].
    + rewrite lt_of_Z in Hlt. apply Z.ltb_ge in Hlt. lia.
Qed.

(** With no balance recorded, every request is dropped. *)
Lemma nothing_to_sell (requests : list OrderRequest) :
  1 <= quantity_min cfg -> validateOrderRequests cfg [] requests = [].
Proof.
  intros Hmin. induction requests as [|request rest IH];
    cbn [validateOrderRequests]; [reflexivity|].
  destruct (validateOrderRequest cfg [] request) as [v|] eqn:E; [|exact IH].
  destruct (validateOrderRequest_Some _ _ _ E)
    as ((t' & q' & d & -> & _ & Hq & _) & t & q & Ht & Hqa & _ & _ & Hlt).
  cbn [rq_tokenId rq_amount] in Ht, Hqa.
  injection Ht as <-. injection Hqa as <-.
  cbn [Map_get List.find option_map] in Hlt. rewrite lt_of_Z in Hlt.
  apply Z.ltb_ge in Hlt. lia.
Qed.

Lemma collectBalances_empty (items : list value) :
  collectBalances items [] = [].
Proof. induction items as [|id rest IH]; [reflexivity|exact IH]. Qed.

(** X28. With a connected wallet and a minimum quantity of at
    least 1: [loadPlayerItems] records no balance, whatever the items, since
    [#getTokenBalance] returns 0; and [createSellOrders] on the state it
    leaves throws [No valid orders to create] for every list of requests,
    records that message in the state and never reaches
    [createBatchOrders]. *)
Theorem sell_orders_after_loading_always_fail (st : AppState)
    (orderRequests : list OrderRequest) (w : World) :
  isConnected (wallet w) = true ->
  1 <= quantity_min cfg ->
  let st1 := {| st_isLoading := false; st_error := None;
                st_items := st_items st; st_balances := [];
                st_lastUpdated := clock env (clockReads w) |} in
  loadPlayerItems env st w = (Return [], st1, tick w) /\
  createSellOrders cfg env st1 orderRequests (tick w)
  = (Throw (Error "No valid orders to create"),
     failed st1 "No valid orders to create", tick w).
Proof.
  intros Hconn Hmin st1. split.
  - unfold loadPlayerItems. rewrite Hconn. cbn [negb].
    cbn [st_items loading]. now rewrite collectBalances_empty.
  - unfold createSellOrders. cbn [wallet tick]. rewrite Hconn. cbn [negb].
    cbn [st_balances loading st1]. now rewrite nothing_to_sell.
Qed.

End Controller.
End ControllerFacts.

Module CacheFacts.
Import ApiService.

(** X29. Data cached with a time to live is returned, the cache
    unchanged, until the time of expiry included; after it the lookup
    returns null and deletes the entry, so that no later lookup finds it;
    storing under a key does not change what the other keys return. *)
Theorem cache_round_trip {A} (key : string) (data : A) (ttlMs now later : Z)
    (cache : gmap string (CacheEntry A)) :
  let stored := setCache key data ttlMs now cache in
  (later <= now + ttlMs ->
   getFromCache key later stored = (Some data, stored)) /\
  (now + ttlMs < later ->
   getFromCache key later stored = (None, delete key cache) /\
   forall t, fst (getFromCache key t (delete key cache)) = None) /\
  (forall other t,
     other <> key ->
     fst (getFromCache other t stored) = fst (getFromCache other t cache)).
Proof.
  cbv zeta. unfold getFromCache, setCache. rewrite lookup_insert_eq.
  cbn [ce_expiry ce_data]. split; [|split].
  - intros H. apply Z.ltb_ge in H. now rewrite H.
  - intros H. apply Z.ltb_lt in H. rewrite H, delete_insert_eq.
    split; [reflexivity|]. intros t. now rewrite lookup_delete_eq.
  - intros other t Hne. rewrite lookup_insert_ne by congruence.
    destruct (cache !! other) as [c|]; [|reflexivity].
    now destruct (ce_expiry c <? t).
Qed.

End CacheFacts.

(** ** Contract setup *)

Module SetupFacts.
Import JS Models MarketplaceService.
Import PreparationFacts SubmissionFacts CallFacts.

Section Setup.
Variable cfg : Config.
Variable env : Env.

(** The two ways in which [#initializeContracts] throws. *)
Lemma initializeContracts_Throw (w : World) (e : Exn) :
  isConnected (wallet w) = true -> hasProvider (wallet w) = true ->
  (newContract env (marketplaceAddress cfg) = Throw e ->
   initializeContracts cfg env w
   = (Throw (Error "Failed to initialize marketplace contracts"), w)) /\
  (newContract env (marketplaceAddress cfg) = Return tt ->
   newContract env (itemsAddress cfg) = Throw e ->
   initializeContracts cfg env w
   = (Throw (Error "Failed to initialize marketplace contracts"),
      snd (set_contracts MarketplaceOnly w))).
Proof.
  intros Hconn Hprov.
  unfold initializeContracts, try_catch, bind, get, lift, set_contracts,
    throw, ret.
  rewrite Hconn, Hprov. cbn [negb orb]. split.
  - intros H1. now rewrite H1.
  - intros H1 H2. now rewrite H1, H2.
Qed.

(** X30. For a call that the limiter admits, with a connected wallet that
    has a provider, on the right network, and no contract set: when the
    constructor of the marketplace contract throws, the call returns the
    failure [Failed to initialize marketplace contracts] and leaves the
    contracts unset; when it returns and the constructor of the items
    contract throws, the call returns the same failure and leaves the
    marketplace contract set without the items contract. No external call
    is made in either case. *)
Theorem failed_contract_setup_ends_the_call
    (orderRequests : list OrderRequest) (w : World) (e : Exn) :
  fst (InputValidator.checkRateLimit (rate_key (wallet w)) 5 60000
         (clock env (clockReads w)) (rateLimits w))
  = InputValidator.Allowed ->
  isConnected (wallet w) = true ->
  isOnCorrectNetwork (wallet w) = true ->
  hasProvider (wallet w) = true ->
  contracts w = NotInitialized ->
  let failure :=
    Return (failure_result (Error "Failed to initialize marketplace contracts")
              (clock env (S (clockReads w)))) in
  (newContract env (marketplaceAddress cfg) = Throw e ->
   createBatchOrders cfg env orderRequests w = (failure, tick (consulted env w))) /\
  (newContract env (marketplaceAddress cfg) = Return tt ->
   newContract env (itemsAddress cfg) = Throw e ->
   createBatchOrders cfg env orderRequests w
   = (failure, tick (snd (set_contracts MarketplaceOnly (consulted env w))))).
Proof.
  intros Hr Hconn Hnet Hprov Hc failure. subst failure.
  destruct (initializeContracts_Throw (consulted env w) e Hconn Hprov)
    as (Hfirst & Hsecond).
  split; [intros H1|intros H1 H2];
    rewrite createBatchOrders_eq, (admitted_body cfg env orderRequests w Hr);
    rewrite Hconn, Hnet; cbn [negb];
    unfold bind at 1; unfold ret at 1; unfold bind at 1; unfold get at 1;
    cbn [contracts consulted]; rewrite Hc; unfold bind at 1.
  - now rewrite (Hfirst H1).
  - now rewrite (Hsecond H1 H2).
Qed.

End Setup.
End SetupFacts.

(** ** Further scenarios *)

Module FurtherScenarios.
Import JS Models MarketplaceService Fixtures InputValidator.
Import SanitizerFacts ValidatorShape AddressFacts RateLimiterInvariants.
Import BatchFacts RetryFacts FrameFacts CallFacts SequenceFacts.
Import ControllerFacts CacheFacts.

Lemma sanitizeHtml_leaves_no_markup_witness :
  In "b"%char (list_ascii_of_string (sanitizeHtml "<b>")) /\
  "b"%char <> "<"%char.
Proof.
  assert (H : In "b"%char (list_ascii_of_string (sanitizeHtml "<b>")))
    by (vm_compute; auto 10).
  split; [exact H|].
  exact (proj1 (sanitizeHtml_leaves_no_markup "<b>" "b" H)).
Defined.

Lemma text_validation_output_witness :
  isValid (validateInput baseConfig (Str " a<b ") "text" no_options) = true /\
  sanitizedValue (validateInput baseConfig (Str " a<b ") "text" no_options)
  = Str "a&amp;lt;b".
Proof.
  assert (H : isValid (validateInput baseConfig (Str " a<b ") "text" no_options)
              = true) by (vm_compute; reflexivity).
  split; [exact H|].
  destruct (text_validation_output baseConfig (Str " a<b ") no_options H)
    as (s & t & Hs & Ht & _ & Heq & _).
  injection Hs as <-. rewrite Ht, Heq. vm_compute. reflexivity.
Defined.

Lemma tokenId_validation_witness :
  prepared baseConfig (Str " 7.9 ") = Some (Str "7.9") /\
  parseInt (Str "7.9") = of_Z 7 /\
  validateInput baseConfig (Str " 7.9 ") "tokenId" no_options
  = accept (Number (of_Z 7)).
Proof.
  split; [reflexivity|]. split; [reflexivity|].
  destruct (tokenId_validation baseConfig (Str " 7.9 ")) as (Hacc & _).
  apply (Hacc (Str "7.9") 7); [reflexivity|reflexivity|].
  vm_compute. split; discriminate.
Defined.

Lemma integer_numbers_validate_to_themselves_witness :
  - 10 ^ 21 < 16777215 < 10 ^ 21 /\
  validateInput baseConfig (Number (of_Z 16777215)) "quantity" no_options
  = accept (Number (of_Z 16777215)).
Proof.
  assert (H : - 10 ^ 21 < 16777215 < 10 ^ 21) by lia.
  split; [exact H|].
  destruct (integer_numbers_validate_to_themselves baseConfig 16777215 H)
    as (Hq & Hsame & _).
  apply Hsame, Hq. vm_compute. split; discriminate.
Defined.

Lemma accepted_address_is_canonical_witness :
  let v := Str " 0xABC0000000000000000000000000000000000abC " in
  isValid (validateInput baseConfig v "address" no_options) = true /\
  exists a,
    validateInput baseConfig v "address" no_options = accept (Str a) /\
    address_format a = true /\ toLowerCase a = a.
Proof.
  intros v.
  assert (H : isValid (validateInput baseConfig v "address" no_options) = true)
    by (vm_compute; reflexivity).
  split; [exact H|].
  exact (accepted_address_is_canonical baseConfig v no_options H).
Defined.

Lemma well_formed_address_accepted_witness :
  let s := " 0xABC0000000000000000000000000000000000abC " in
  42 <= maxInputLength baseConfig /\
  address_format (trim s) = true /\
  validateInput baseConfig (Str s) "address" no_options
  = accept (Str user).
Proof.
  intros s.
  assert (H1 : 42 <= maxInputLength baseConfig) by (vm_compute; discriminate).
  assert (H2 : address_format (trim s) = true) by (vm_compute; reflexivity).
  split; [exact H1|]. split; [exact H2|].
  destruct (well_formed_address_accepted baseConfig s H1 H2) as (Hr & _).
  rewrite Hr. vm_compute. reflexivity.
Defined.

Lemma burst_limit_witness :
  history "k" ∅ = [] /\
  exists limits',
    admitted_calls "k" 2 100 [10; 20] ∅ = Some limits' /\
    allowed (fst (checkRateLimit "k" 2 100 50 limits')) = false.
Proof.
  assert (H1 : history "k" ∅ = []) by reflexivity.
  assert (H2 : Z.of_nat (List.length [10; 20]) = 2) by reflexivity.
  assert (H3 : forall t, In t [10; 20] -> 50 - 100 < t <= 50)
    by (intros t [<-|[<-|[]]]; lia).
  split; [exact H1|].
  destruct (burst_limit "k" 2 100 50 [10; 20] ∅ H1 H2 H3)
    as (limits' & Hc & _ & Hr & _).
  exists limits'. split; [exact Hc|exact Hr].
Defined.

Lemma idle_key_is_admitted_witness :
  let limits : gmap string (list Z) := {[ "k" := [10] ]} in
  1 <= 1 /\
  (forall t, In t (history "k" limits) -> t <= 200 - 100) /\
  history "k" (snd (checkRateLimit "k" 1 100 200 limits)) = [200].
Proof.
  intros limits.
  assert (H1 : 1 <= 1) by lia.
  assert (H2 : forall t, In t (history "k" limits) -> t <= 200 - 100).
  { intros t Ht. vm_compute in Ht. destruct Ht as [<-|[]]. lia. }
  split; [exact H1|]. split; [exact H2|].
  exact (proj2 (idle_key_is_admitted "k" 1 100 200 limits H1 H2)).
Defined.

Lemma history_stays_in_time_order_witness :
  let limits : gmap string (list Z) := {[ "k" := [10; 20] ]} in
  StronglySorted Z.le (history "k" limits) /\
  (forall t, In t (history "k" limits) -> t <= 30) /\
  StronglySorted Z.le (history "k" (snd (checkRateLimit "k" 5 100 30 limits))).
Proof.
  intros limits.
  assert (Hh : history "k" limits = [10; 20]) by (vm_compute; reflexivity).
  assert (H1 : StronglySorted Z.le (history "k" limits)).
  { rewrite Hh. constructor; [constructor; [constructor|constructor]|].
    constructor; [lia|constructor]. }
  assert (H2 : forall t, In t (history "k" limits) -> t <= 30).
  { rewrite Hh. intros t [<-|[<-|[]]]; lia. }
  split; [exact H1|]. split; [exact H2|].
  exact (proj1 (history_stays_in_time_order "k" 5 100 30 limits H1 H2)).
Defined.

Lemma reset_time_bounds_witness :
  let limits : gmap string (list Z) := {[ "k" := [10000; 50000; 90000] ]} in
  1 <= 2 /\
  (forall t, In t (history "k" limits) -> t <= 100000) /\
  allowed (fst (checkRateLimit "k" 2 60000 100000 limits)) = false /\
  exists seconds,
    fst (checkRateLimit "k" 2 60000 100000 limits) = Rejected (of_Z seconds) /\
    1 <= seconds <= ceil_div_1000 60000.
Proof.
  intros limits.
  assert (H1 : 1 <= 2) by lia.
  assert (H2 : forall t, In t (history "k" limits) -> t <= 100000).
  { intros t Ht. vm_compute in Ht. destruct Ht as [<-|[<-|[<-|[]]]]; lia. }
  assert (H3 : allowed (fst (checkRateLimit "k" 2 60000 100000 limits)) = false)
    by (vm_compute; reflexivity).
  split; [exact H1|]. split; [exact H2|]. split; [exact H3|].
  exact (reset_time_bounds "k" 2 60000 100000 limits H1 H2 H3).
Defined.

Lemma result_getters_witness :
  let env := chain (balances [(7, 3)]) false 0 in
  let requests := [sell 7 (Dec 15 (-1)) 3] in
  let r := {| success := true; txHash := Some "0xfeed";
              blockNumber := Some 4242; gasUsed := Some "90000";
              ordersCreated := Some 1; error := None; note := None;
              timestamp := 1700000000001 |} in
  createBatchOrders baseConfig env requests start
  = (Return r, snd (createBatchOrders baseConfig env requests start)) /\
  errorMessage r = None.
Proof.
  intros env requests r.
  assert (H : createBatchOrders baseConfig env requests start
              = (Return r, snd (createBatchOrders baseConfig env requests start)))
    by (vm_compute; reflexivity).
  split; [exact H|].
  destruct (result_getters baseConfig env requests start _ r H) as (Hs & _).
  exact (proj1 (Hs eq_refl)).
Defined.

Lemma kept_orders_follow_requests_witness :
  let env := chain (balances [(1, 10); (2, 1)]) true 0 in
  let requests := [sell 1 (Dec 15 (-1)) 5; sell 2 (Dec 15 (-1)) 100] in
  let orders := [{| co_side := 0; co_tokenId := Number (of_Z 1);
                    co_price := 1500000000000000000; co_quantity := 5 |}] in
  validateAndPrepareOrders baseConfig env requests ready
  = (Return orders, snd (validateAndPrepareOrders baseConfig env requests ready)) /\
  exists kept, sublist kept requests /\ Forall2 (converts env) kept orders.
Proof.
  intros env requests orders.
  assert (H : validateAndPrepareOrders baseConfig env requests ready
              = (Return orders,
                 snd (validateAndPrepareOrders baseConfig env requests ready)))
    by (vm_compute; reflexivity).
  split; [exact H|].
  destruct (kept_orders_follow_requests baseConfig env requests ready _ orders H)
    as (kept & Hsub & Hall & _).
  exists kept. split; [exact Hsub|exact Hall].
Defined.

Lemma kept_orders_within_limits_witness :
  let env := chain (balances [(1, 10); (2, 1)]) true 0 in
  let requests := [sell 1 (Dec 15 (-1)) 5; sell 2 (Dec 15 (-1)) 100] in
  let orders := [{| co_side := 0; co_tokenId := Number (of_Z 1);
                    co_price := 1500000000000000000; co_quantity := 5 |}] in
  validateAndPrepareOrders baseConfig env requests ready
  = (Return orders, snd (validateAndPrepareOrders baseConfig env requests ready)) /\
  Forall within_limits orders.
Proof.
  intros env requests orders.
  assert (H : validateAndPrepareOrders baseConfig env requests ready
              = (Return orders,
                 snd (validateAndPrepareOrders baseConfig env requests ready)))
    by (vm_compute; reflexivity).
  split; [exact H|].
  exact (kept_orders_within_limits baseConfig env requests ready _ orders H).
Defined.

Lemma one_balance_read_per_request_witness :
  let env := chain (balances [(1, 10); (2, 1)]) true 0 in
  let requests := [sell 1 (Dec 15 (-1)) 5; sell 2 (Dec 15 (-1)) 100] in
  contracts ready = Initialized /\
  Z.of_nat (List.length requests) <= maxBatchSize baseConfig /\
  trace (snd (validateAndPrepareOrders baseConfig env requests ready))
  = [EvBalanceOf (Str user) (Number (of_Z 1));
     EvBalanceOf (Str user) (Number (of_Z 2))].
Proof.
  intros env requests.
  assert (H1 : contracts ready = Initialized) by reflexivity.
  assert (H2 : Z.of_nat (List.length requests) <= maxBatchSize baseConfig)
    by (vm_compute; discriminate).
  split; [exact H1|]. split; [exact H2|].
  rewrite (one_balance_read_per_request baseConfig env requests ready H1 H2).
  reflexivity.
Defined.

Lemma missing_items_contract_reports_no_valid_orders_witness :
  let env := chain (balances [(7, 3)]) true 0 in
  let requests := [sell 7 (Dec 15 (-1)) 3] in
  let w := half_initialized in
  fst (InputValidator.checkRateLimit (rate_key (wallet w)) 5 60000
         (clock env (clockReads w)) (rateLimits w))
  = InputValidator.Allowed /\
  isConnected (wallet w) = true /\
  isOnCorrectNetwork (wallet w) = true /\
  contracts w = MarketplaceOnly /\
  1 <= quantity_min baseConfig /\
  Z.of_nat (List.length requests) <= maxBatchSize baseConfig /\
  createBatchOrders baseConfig env requests w =
  (Return (failure_result (Error "No valid orders to create")
             (clock env (S (clockReads w)))),
   tick (consulted env w)).
Proof.
  intros env requests w.
  assert (H1 : fst (InputValidator.checkRateLimit (rate_key (wallet w)) 5 60000
                      (clock env (clockReads w)) (rateLimits w))
               = InputValidator.Allowed) by (vm_compute; reflexivity).
  assert (H2 : isConnected (wallet w) = true) by reflexivity.
  assert (H3 : isOnCorrectNetwork (wallet w) = true) by reflexivity.
  assert (H4 : contracts w = MarketplaceOnly) by reflexivity.
  assert (H5 : 1 <= quantity_min baseConfig) by (vm_compute; discriminate).
  assert (H6 : Z.of_nat (List.length requests) <= maxBatchSize baseConfig)
    by (vm_compute; discriminate).
  split; [exact H1|]. split; [exact H2|]. split; [exact H3|].
  split; [exact H4|]. split; [exact H5|]. split; [exact H6|].
  exact (missing_items_contract_reports_no_valid_orders baseConfig env requests
           w H1 H2 H3 (or_introl H4) H5 H6).
Defined.

Lemma refused_network_switch_ends_the_call_witness :
  let env := refusing_provider in
  let requests := [sell 7 (Dec 15 (-1)) 3] in
  let w := elsewhere in
  let e := {| exn_message := "User rejected the request.";
              exn_code := Some 4001 |} in
  fst (InputValidator.checkRateLimit (rate_key (wallet w)) 5 60000
         (clock env (clockReads w)) (rateLimits w))
  = InputValidator.Allowed /\
  isConnected (wallet w) = true /\
  isOnCorrectNetwork (wallet w) = false /\
  switchChain env (trace w) = Throw e /\
  exn_code e <> Some 4902 /\
  createBatchOrders baseConfig env requests w =
  (Return (failure_result e (clock env (S (clockReads w)))),
   tick (log (consulted env w) [EvSwitchChain])).
Proof.
  intros env requests w e.
  assert (H1 : fst (InputValidator.checkRateLimit (rate_key (wallet w)) 5 60000
                      (clock env (clockReads w)) (rateLimits w))
               = InputValidator.Allowed) by (vm_compute; reflexivity).
  assert (H2 : isConnected (wallet w) = true) by reflexivity.
  assert (H3 : isOnCorrectNetwork (wallet w) = false) by reflexivity.
  assert (H4 : switchChain env (trace w) = Throw e) by reflexivity.
  assert (H5 : exn_code e <> Some 4902) by discriminate.
  split; [exact H1|]. split; [exact H2|]. split; [exact H3|].
  split; [exact H4|]. split; [exact H5|].
  exact (proj1 (refused_network_switch_ends_the_call baseConfig env requests
                  w e H1 H2 H3 H4) H5).
Defined.

Lemma wallet_not_connected_witness :
  let env := chain (balances [(7, 3)]) true 0 in
  let requests := [sell 7 (Dec 15 (-1)) 3] in
  let w := disconnected in
  fst (InputValidator.checkRateLimit (rate_key (wallet w)) 5 60000
         (clock env (clockReads w)) (rateLimits w))
  = InputValidator.Allowed /\
  isConnected (wallet w) = false /\
  exists w',
    createBatchOrders baseConfig env requests w
    = (Return (failure_result (Error "Wallet not connected")
                 (clock env (S (clockReads w)))), w') /\
    trace w' = trace w.
Proof.
  intros env requests w.
  assert (H1 : fst (InputValidator.checkRateLimit (rate_key (wallet w)) 5 60000
                      (clock env (clockReads w)) (rateLimits w))
               = InputValidator.Allowed) by (vm_compute; reflexivity).
  assert (H2 : isConnected (wallet w) = false) by reflexivity.
  split; [exact H1|]. split; [exact H2|].
  exact (SubmissionFacts.wallet_not_connected baseConfig env requests w H1 H2).
Defined.



Lemma gas_limit_adds_the_buffer_witness :
  let env := chain (balances [(7, 3)]) true 0 in
  contracts ready <> NotInitialized /\
  estimateGas env (trace ready) [order7] = Return 100000 /\
  0 <= 100000 /\ 0 <= gasBufferPercent baseConfig /\
  exists rest,
    trace (snd (submit baseConfig env [order7] None ready))
    = (trace ready ++ EvEstimateGas [order7]
         :: EvLimitOrders [order7] 120000 :: rest)%list.
Proof.
  intros env.
  assert (H1 : contracts ready <> NotInitialized) by discriminate.
  assert (H2 : estimateGas env (trace ready) [order7] = Return 100000)
    by reflexivity.
  assert (H3 : 0 <= 100000) by lia.
  assert (H4 : 0 <= gasBufferPercent baseConfig) by (vm_compute; discriminate).
  split; [exact H1|]. split; [exact H2|]. split; [exact H3|]. split; [exact H4|].
  exact (proj2 (gas_limit_adds_the_buffer baseConfig env [order7] None ready
                  100000 H1 H2 H3 H4)).
Defined.

Lemma successful_result_counts_the_kept_orders_witness :
  let env := chain (balances [(7, 3)]) false 0 in
  let requests := [sell 7 (Dec 15 (-1)) 3] in
  let r := {| success := true; txHash := Some "0xfeed";
              blockNumber := Some 4242; gasUsed := Some "90000";
              ordersCreated := Some 1; error := None; note := None;
              timestamp := 1700000000001 |} in
  createBatchOrders baseConfig env requests start
  = (Return r, snd (createBatchOrders baseConfig env requests start)) /\
  success r = true /\
  exists created,
    ordersCreated r = Some created /\
    1 <= created <= Z.of_nat (List.length requests).
Proof.
  intros env requests r.
  assert (H : createBatchOrders baseConfig env requests start
              = (Return r, snd (createBatchOrders baseConfig env requests start)))
    by (vm_compute; reflexivity).
  split; [exact H|]. split; [reflexivity|].
  destruct (successful_result_counts_the_kept_orders baseConfig env requests
              start _ r H eq_refl) as (created & hash & Hc & Hb & _).
  exists created. split; [exact Hc|exact Hb].
Defined.

Lemma calls_beyond_five_a_minute_are_refused_witness :
  let env := chain (balances [(7, 3)]) true 0 in
  let batches := repeat ([] : list OrderRequest) 5 in
  let w5 := snd (successive_calls baseConfig env batches start) in
  history (rate_key (wallet start)) (rateLimits start) = [] /\
  (5 <= List.length batches)%nat /\
  exists seconds w',
    createBatchOrders baseConfig env [sell 7 (Dec 15 (-1)) 3] w5
    = (Return (failure_result
                 (Error ("Rate limit exceeded. Try again in "
                         ++ number_to_string (of_Z seconds) ++ " seconds."))
                 (clock env (S (clockReads w5)))), w') /\
    1 <= seconds <= 60 /\
    trace w' = trace w5.
Proof.
  intros env batches w5.
  assert (H1 : history (rate_key (wallet start)) (rateLimits start) = [])
    by reflexivity.
  assert (H2 : (5 <= List.length batches)%nat) by (cbn; lia).
  assert (H3 : forall t,
            In t (map fst (fst (successive_calls baseConfig env batches start))) ->
            clock env (clockReads w5) - 60000 < t <= clock env (clockReads w5)).
  { assert (Hnow : clock env (clockReads w5) = 1700000000010)
      by (vm_compute; reflexivity).
    rewrite Hnow. intros t Ht. vm_compute in Ht.
    destruct Ht as [<-|[<-|[<-|[<-|[<-|[]]]]]]; lia. }
  split; [exact H1|]. split; [exact H2|].
  exact (calls_beyond_five_a_minute_are_refused baseConfig env batches
           [sell 7 (Dec 15 (-1)) 3] start H1 H2 H3).
Defined.

Lemma forwarded_requests_are_validated_witness :
  let balances := [(Number (of_Z 7), of_Z 3)] in
  let requests := [sell 7 (Dec 15 (-1)) 3; sell 8 (Dec 15 (-1)) 1] in
  1 <= quantity_min baseConfig /\
  quantity_max baseConfig < 10 ^ 21 /\
  Forall (forwarded baseConfig)
    (AppController.validateOrderRequests baseConfig balances requests).
Proof.
  intros balances requests.
  assert (H1 : 1 <= quantity_min baseConfig) by (vm_compute; discriminate).
  assert (H2 : quantity_max baseConfig < 10 ^ 21) by (vm_compute; reflexivity).
  split; [exact H1|]. split; [exact H2|].
  destruct (forwarded_requests_are_validated baseConfig balances requests H1 H2)
    as (_ & Hall).
  eapply Forall_impl; [exact Hall|]. now intros rq (Hf & _).
Defined.

Lemma sell_orders_after_loading_always_fail_witness :
  let env := chain (balances [(7, 3)]) true 0 in
  let st := {| AppController.st_isLoading := false;
               AppController.st_error := None;
               AppController.st_items := [Number (of_Z 7)];
               AppController.st_balances := [(Number (of_Z 7), of_Z 3)];
               AppController.st_lastUpdated := 0 |} in
  let st1 := {| AppController.st_isLoading := false;
                AppController.st_error := None;
                AppController.st_items := [Number (of_Z 7)];
                AppController.st_balances := [];
                AppController.st_lastUpdated := 1700000000000 |} in
  isConnected (wallet ready) = true /\
  1 <= quantity_min baseConfig /\
  AppController.loadPlayerItems env st ready = (Return [], st1, tick ready) /\
  AppController.createSellOrders baseConfig env st1 [sell 7 (Dec 15 (-1)) 3]
    (tick ready)
  = (Throw (Error "No valid orders to create"),
     AppController.failed st1 "No valid orders to create", tick ready).
Proof.
  intros env st st1.
  assert (H1 : isConnected (wallet ready) = true) by reflexivity.
  assert (H2 : 1 <= quantity_min baseConfig) by (vm_compute; discriminate).
  split; [exact H1|]. split; [exact H2|].
  exact (sell_orders_after_loading_always_fail baseConfig env st
           [sell 7 (Dec 15 (-1)) 3] ready H1 H2).
Defined.

Lemma failed_contract_setup_ends_the_call_witness :
  let env := refusing_constructor in
  let requests := [sell 7 (Dec 15 (-1)) 3] in
  let w := start in
  let e := Error "invalid contract address or ENS name" in
  fst (InputValidator.checkRateLimit (rate_key (wallet w)) 5 60000
         (clock env (clockReads w)) (rateLimits w))
  = InputValidator.Allowed /\
  isConnected (wallet w) = true /\
  isOnCorrectNetwork (wallet w) = true /\
  hasProvider (wallet w) = true /\
  contracts w = NotInitialized /\
  newContract env (marketplaceAddress baseConfig) = Return tt /\
  newContract env (itemsAddress baseConfig) = Throw e /\
  createBatchOrders baseConfig env requests w
  = (Return (failure_result
               (Error "Failed to initialize marketplace contracts")
               (clock env (S (clockReads w)))),
     tick (snd (set_contracts MarketplaceOnly (consulted env w)))).
Proof.
  intros env requests w e.
  assert (H1 : fst (InputValidator.checkRateLimit (rate_key (wallet w)) 5 60000
                      (clock env (clockReads w)) (rateLimits w))
               = InputValidator.Allowed) by (vm_compute; reflexivity).
  assert (H2 : isConnected (wallet w) = true) by reflexivity.
  assert (H3 : isOnCorrectNetwork (wallet w) = true) by reflexivity.
  assert (H4 : hasProvider (wallet w) = true) by reflexivity.
  assert (H5 : contracts w = NotInitialized) by reflexivity.
  assert (H6 : newContract env (marketplaceAddress baseConfig) = Return tt)
    by reflexivity.
  assert (H7 : newContract env (itemsAddress baseConfig) = Throw e)
    by reflexivity.
  split; [exact H1|]. split; [exact H2|]. split; [exact H3|].
  split; [exact H4|]. split; [exact H5|]. split; [exact H6|].
  split; [exact H7|].
  exact (proj2 (SetupFacts.failed_contract_setup_ends_the_call baseConfig env
                  requests w e H1 H2 H3 H4 H5) H6 H7).
Defined.

End FurtherScenarios.
